(** * Order lifecycle and derived statistics of the restaurant point of sale

    A shallow embedding of the order-lifecycle subsystem: the read-time
    payment aggregation of [paymentService.ts], the PL/pgSQL trigger
    functions of the [sunny_rain] migration (customer statistics, order
    numbers, opening hours, order-item validation) with the table
    definitions they run against, the client-side twins of those functions
    in the TypeScript services, and the tenant-provisioning edge function.

    Conventions.
    - A [decimal(10,2)] column is an integer number of hundredths ([Z]).
    - A nullable column is an [option]; SQL's three-valued logic is kept.
    - A JavaScript [number] is an IEEE 754 binary64 value ([float]).
    - A [uuid] is an opaque key ([N]).
    - A [timestamptz] is a number of microseconds since the Unix epoch. *)

From Stdlib Require Import ZArith String Ascii List Lia PrimFloat DecimalString.
From stdpp Require Import base option list gmap strings sorting.

Local Open Scope string_scope.
Local Open Scope Z_scope.

(* ===================================================================== *)
(** * Payment aggregation ([src/services/paymentService.ts]) *)
(* ===================================================================== *)

Module Payments.

(** [CREATE TYPE payment_status AS ENUM ('pending','completed','failed','refunded')] *)
Inductive payment_status : Set :=
  | pending | completed | failed | refunded.

Definition payment_status_eqb (a b : payment_status) : bool :=
  match a, b with
  | pending, pending | completed, completed
  | failed, failed | refunded, refunded => true
  | _, _ => false
  end.

(** The two columns of a [payments] row that the aggregation reads:
    [amount decimal(10,2) NOT NULL], received as a JavaScript number, and
    [status payment_status DEFAULT 'pending'], which may be [null]. *)
Record payment : Set := mkPayment {
  amount : float;
  status : option payment_status
}.

(** [p.status === s] : a [null] status is equal to no status. *)
Definition status_is (s : payment_status) (p : payment) : bool :=
  match status p with
  | Some s' => payment_status_eqb s' s
  | None => false
  end.

(** [xs.reduce((sum, p) => sum + Number(p.amount), 0)] *)
Definition reduce_amounts (xs : list payment) : float :=
  fold_left (fun sum p => PrimFloat.add sum (amount p)) xs 0%float.

(** [a >= b] on JavaScript numbers. *)
Definition js_ge (a b : float) : bool := PrimFloat.leb b a.

(** [PaymentService.calculateOrderPaymentStatus(payments)]; the argument
    is [None] when the caller passes [null] or [undefined]. *)
Definition calculateOrderPaymentStatus (payments : option (list payment)) : string :=
  match payments with
  | None => "pending"
  | Some [] => "pending"
  | Some ps =>
      let hasCompleted := existsb (status_is completed) ps in
      let hasPending := existsb (status_is pending) ps in
      let totalAmount := reduce_amounts ps in
      let completedAmount := reduce_amounts (List.filter (status_is completed) ps) in
      if js_ge completedAmount totalAmount then "completed"
      else if hasCompleted && hasPending then "partial"
      else "pending"
  end.

(** The rule in the words of the specification, for an order whose total
    amount is [t]: no payments, pending; completed payments cover [t],
    completed; else some completed and some pending, partial; else
    pending. *)
Definition sum_where (P : payment -> bool) (ps : list payment) : float :=
  reduce_amounts (List.filter P ps).

Definition rule_payment_status (t : float) (ps : list payment) : string :=
  if Nat.eqb (List.length ps) 0 then "pending"
  else if js_ge (sum_where (status_is completed) ps) t then "completed"
  else if existsb (status_is completed) ps && existsb (status_is pending) ps
       then "partial"
  else "pending".

(** A completed and a pending payment of a given amount. *)
Definition paid (a : float) : payment := mkPayment a (Some completed).
Definition owed (a : float) : payment := mkPayment a (Some pending).

End Payments.

(* ===================================================================== *)
(** * SQL values: errors, NULL and the numeric column types *)
(* ===================================================================== *)

Module Sql.

(** The errors a statement of this schema can abort with. *)
Inductive sql_error : Set :=
  | raise_exception (message : string)      (* RAISE EXCEPTION '...' *)
  | integer_out_of_range                    (* int4 arithmetic *)
  | numeric_field_overflow                  (* decimal(10,2) assignment *)
  | unique_violation (constraint : string)
  | check_violation (constraint : string)
  | not_null_violation (column : string)
  | foreign_key_violation (constraint : string)
  | PGRST116.                               (* .single() found no row *)

(** A statement either completes with a value or aborts; an aborted
    statement leaves the store as it was. *)
Inductive result (A : Type) : Type :=
  | Ok (a : A)
  | Err (e : sql_error).
Arguments Ok {A} a.
Arguments Err {A} e.

#[global] Instance result_bind : MBind result := fun A B k m =>
  match m with
  | Ok a => k a
  | Err e => Err e
  end.

#[global] Instance result_ret : MRet result := fun A a => Ok a.

(** Three-valued logic: [None] is SQL's unknown. *)
Definition sql_and (a b : option bool) : option bool :=
  match a, b with
  | Some false, _ | _, Some false => Some false
  | Some true, Some true => Some true
  | _, _ => None
  end.

Definition sql_or (a b : option bool) : option bool :=
  match a, b with
  | Some true, _ | _, Some true => Some true
  | Some false, Some false => Some false
  | _, _ => None
  end.

Definition sql_not (a : option bool) : option bool := negb <$> a.

Definition is_null {A : Type} (a : option A) : option bool :=
  Some (match a with None => true | Some _ => false end).

Definition is_not_null {A : Type} (a : option A) : option bool :=
  Some (match a with None => false | Some _ => true end).

(** [a = b] and [a != b] for a comparison [eqb] of the non-null values. *)
Definition sql_eq {A : Type} (eqb : A -> A -> bool) (a b : option A) : option bool :=
  match a, b with
  | Some x, Some y => Some (eqb x y)
  | _, _ => None
  end.

Definition sql_ne {A : Type} (eqb : A -> A -> bool) (a b : option A) : option bool :=
  sql_not (sql_eq eqb a b).

(** [IF c THEN], [WHERE c] and [WHEN (c)] take the branch, or keep the
    row, only when [c] is true; unknown counts as false. *)
Definition holds (c : option bool) : bool :=
  match c with
  | Some true => true
  | _ => false
  end.

(** [integer]: 32-bit, and arithmetic out of range is an error. *)
Definition int4_min : Z := -2147483648.
Definition int4_max : Z := 2147483647.

Definition int4 (z : Z) : result Z :=
  if (int4_min <=? z) && (z <=? int4_max) then Ok z else Err integer_out_of_range.

Definition int4_add (a b : option Z) : result (option Z) :=
  match a, b with
  | Some x, Some y => z ← int4 (x + y); Ok (Some z)
  | _, _ => Ok None
  end.

Definition int4_sub (a b : option Z) : result (option Z) :=
  match a, b with
  | Some x, Some y => z ← int4 (x - y); Ok (Some z)
  | _, _ => Ok None
  end.

(** [numeric] arithmetic is exact; values are counted in hundredths. *)
Definition numeric_add (a b : option Z) : option Z :=
  match a, b with
  | Some x, Some y => Some (x + y)
  | _, _ => None
  end.

Definition numeric_sub (a b : option Z) : option Z :=
  match a, b with
  | Some x, Some y => Some (x - y)
  | _, _ => None
  end.

(** Storing into a [decimal(10,2)] column: at most eight digits before
    the point, i.e. fewer than 10^10 hundredths in absolute value. *)
Definition decimal_10_2_limit : Z := 10000000000.

Definition decimal_10_2 (a : option Z) : result (option Z) :=
  match a with
  | Some x =>
      if Z.abs x <? decimal_10_2_limit then Ok (Some x)
      else Err numeric_field_overflow
  | None => Ok None
  end.

(** [GREATEST(a, b)]: PostgreSQL ignores NULL arguments and yields NULL
    only when every argument is NULL. *)
Definition GREATEST (a b : option Z) : option Z :=
  match a, b with
  | Some x, Some y => Some (Z.max x y)
  | Some x, None => Some x
  | None, b => b
  end.

End Sql.

(* ===================================================================== *)
(** * Instants, calendar dates and their text forms *)
(* ===================================================================== *)

Module Clock.

(** A [timestamptz] is a count of microseconds since 1970-01-01T00:00Z; a
    [time] is a count of microseconds since midnight; a JavaScript [Date]
    is a count of milliseconds since the same epoch. A time zone is the
    number of microseconds its wall clock is ahead of UTC. *)
Definition usec_per_day : Z := 86400000000.
Definition usec_per_hour : Z := 3600000000.
Definition usec_per_minute : Z := 60000000.
Definition usec_per_second : Z := 1000000.
Definition usec_per_msec : Z := 1000.

(** [DATE(ts)] as a day number, and [ts::time], in the zone [tz]. *)
Definition DATE (tz ts : Z) : Z := (ts + tz) / usec_per_day.
Definition time_of (tz ts : Z) : Z := (ts + tz) mod usec_per_day.

(** [EXTRACT(DOW FROM ts)] and [Date.prototype.getDay]: 0 is Sunday;
    day number 0 (1970-01-01) was a Thursday. *)
Definition DOW (tz ts : Z) : Z := (DATE tz ts + 4) mod 7.

Record date : Set := mkDate { year : Z; month : Z; day : Z }.

(** The proleptic Gregorian date of a day number. *)
Definition civil_from_days (n : Z) : date :=
  let z := n + 719468 in
  let era := z / 146097 in
  let doe := z - era * 146097 in
  let yoe := (doe - doe / 1460 + doe / 36524 - doe / 146096) / 365 in
  let doy := doe - (365 * yoe + yoe / 4 - yoe / 100) in
  let mp := (5 * doy + 2) / 153 in
  let d := doy - (153 * mp + 2) / 5 + 1 in
  let m := if mp <? 10 then mp + 3 else mp - 9 in
  let y := yoe + era * 400 in
  mkDate (if m <=? 2 then y + 1 else y) m d.

(** Decimal digits of a natural number (of 0 when negative). *)
Definition digits (n : Z) : string :=
  NilZero.string_of_uint (N.to_uint (Z.to_N n)).

Fixpoint zeros (k : nat) : string :=
  match k with
  | O => ""
  | S k' => String "0" (zeros k')
  end.

(** At least [width] digits, zeros in front; longer numbers are kept. *)
Definition zero_padded (width : nat) (n : Z) : string :=
  let s := digits n in
  zeros (width - String.length s) ++ s.

(** [to_char(d, 'YYYYMMDD')] *)
Definition to_char_YYYYMMDD (n : Z) : string :=
  let d := civil_from_days n in
  zero_padded 4 (year d) ++ zero_padded 2 (month d) ++ zero_padded 2 (day d).

(** The first ten characters of [Date.prototype.toISOString], for the
    years 0000 to 9999 in which they read [YYYY-MM-DD]. *)
Definition toISOString_date (ms : Z) : string :=
  let d := civil_from_days (ms * usec_per_msec / usec_per_day) in
  zero_padded 4 (year d) ++ "-" ++ zero_padded 2 (month d) ++ "-" ++ zero_padded 2 (day d).

(** [s.replace(/-/g, '')] *)
Fixpoint remove_dashes (s : string) : string :=
  match s with
  | EmptyString => EmptyString
  | String c s' =>
      if Ascii.eqb c "-" then remove_dashes s' else String c (remove_dashes s')
  end.

(** The first five characters of [Date.prototype.toTimeString]: [HH:MM]
    on the wall clock of the zone [tz]. *)
Definition toTimeString_HHMM (tz ms : Z) : string :=
  let t := time_of tz (ms * usec_per_msec) in
  zero_padded 2 (t / usec_per_hour) ++ ":" ++
  zero_padded 2 (t mod usec_per_hour / usec_per_minute).

(** Digits of a fraction of a second, six wide, trailing zeros dropped. *)
Fixpoint drop_trailing_zeros (fuel : nat) (width : nat) (f : Z) : string :=
  match fuel with
  | O => zero_padded width f
  | S fuel' =>
      if (f mod 10 =? 0) && (0 <? Z.of_nat width)
      then drop_trailing_zeros fuel' (width - 1) (f / 10)
      else zero_padded width f
  end.

(** The text PostgreSQL gives for a [time] value, as the REST layer hands
    it to the client: [HH:MM:SS], then the fraction when there is one. *)
Definition time_out (t : Z) : string :=
  let f := t mod usec_per_second in
  zero_padded 2 (t / usec_per_hour) ++ ":" ++
  zero_padded 2 (t mod usec_per_hour / usec_per_minute) ++ ":" ++
  zero_padded 2 (t mod usec_per_minute / usec_per_second) ++
  (if f =? 0 then "" else "." ++ drop_trailing_zeros 6 6 f).

(** Reading a [time] literal [HH:MM] as the client writes it. *)
Definition hhmm (h m : Z) : Z := h * usec_per_hour + m * usec_per_minute.

(** An instant from a UTC calendar day number and a time of day. *)
Definition instant (day_number time : Z) : Z := day_number * usec_per_day + time.

End Clock.

(* ===================================================================== *)
(** * Tables ([supabase/migrations]) *)
(* ===================================================================== *)

Abbreviation uuid := N (only parsing).
Abbreviation timestamptz := Z (only parsing).

(** [CREATE TYPE order_status AS ENUM (...)] *)
Inductive order_status : Set :=
  | pending | preparing | ready | served | cancelled.

Definition order_status_eqb (a b : order_status) : bool :=
  match a, b with
  | pending, pending | preparing, preparing | ready, ready
  | served, served | cancelled, cancelled => true
  | _, _ => false
  end.

(** [orders]: the columns the triggers and the services read or write.
    The key [id] is the key of the table map. [order_number] is
    [NOT NULL], but a row on its way into the table may still lack it
    when the [BEFORE INSERT] trigger sees it. *)
Module orders.
Record row : Set := mk {
  restaurant_id : uuid;                 (* uuid NOT NULL *)
  customer_id : option uuid;            (* uuid REFERENCES customers(id) *)
  order_number : option string;         (* text UNIQUE NOT NULL *)
  status : option order_status;         (* order_status DEFAULT 'pending' *)
  total_amount : Z;                     (* decimal(10,2) NOT NULL *)
  created_at : option timestamptz;      (* timestamptz DEFAULT now() *)
  updated_at : option timestamptz       (* timestamptz DEFAULT now() *)
}.
End orders.

(** [customers] *)
Module customers.
Record row : Set := mk {
  restaurant_id : uuid;                 (* uuid NOT NULL *)
  name : option string;
  email : option string;
  phone : option string;
  total_orders : option Z;              (* integer DEFAULT 0 *)
  total_spent : option Z;               (* decimal(10,2) DEFAULT 0.00 *)
  last_order_at : option timestamptz;
  updated_at : option timestamptz       (* timestamptz DEFAULT now() *)
}.
End customers.

(** The part of the store that order and customer writes touch. *)
Record database : Type := mkDatabase {
  orders_table : gmap uuid orders.row;
  customers_table : gmap uuid customers.row
}.

(* ===================================================================== *)
(** * Trigger functions ([20250811084507_sunny_rain.sql]) *)
(* ===================================================================== *)

Module Triggers.
Import Sql.

(** [update_updated_at_column()]: [NEW.updated_at = now()], attached
    [BEFORE UPDATE] to every table; here for [orders] and [customers]. *)
Definition update_orders_updated_at (now : timestamptz) (NEW : orders.row) : orders.row :=
  orders.mk (orders.restaurant_id NEW) (orders.customer_id NEW)
    (orders.order_number NEW) (orders.status NEW) (orders.total_amount NEW)
    (orders.created_at NEW) (Some now).

Definition update_customers_updated_at (now : timestamptz) (NEW : customers.row)
  : customers.row :=
  customers.mk (customers.restaurant_id NEW) (customers.name NEW)
    (customers.email NEW) (customers.phone NEW) (customers.total_orders NEW)
    (customers.total_spent NEW) (customers.last_order_at NEW) (Some now).

(** [UPDATE customers SET ... WHERE id = key]: the row with that key, if
    there is one, is replaced by [set row] after its [BEFORE UPDATE]
    trigger; a NULL key matches no row. *)
Definition UPDATE_customers_WHERE_id (now : timestamptz) (key : option uuid)
    (set : customers.row -> result customers.row)
    (table : gmap uuid customers.row) : result (gmap uuid customers.row) :=
  match key with
  | None => Ok table
  | Some k =>
      match table !! k with
      | None => Ok table
      | Some c =>
          c' ← set c;
          Ok (<[k := update_customers_updated_at now c']> table)
      end
  end.

(** The [SET] list of the first [UPDATE] of [update_customer_stats]. *)
Definition SET_served (NEW : orders.row) (c : customers.row) : result customers.row :=
  n ← int4_add (customers.total_orders c) (Some 1);
  s ← decimal_10_2 (numeric_add (customers.total_spent c) (Some (orders.total_amount NEW)));
  Ok (customers.mk (customers.restaurant_id c) (customers.name c)
        (customers.email c) (customers.phone c)
        n s (orders.updated_at NEW) (customers.updated_at c)).

(** The [SET] list of the second [UPDATE] of [update_customer_stats]. *)
Definition SET_cancelled (NEW : orders.row) (c : customers.row) : result customers.row :=
  d ← int4_sub (customers.total_orders c) (Some 1);
  s ← decimal_10_2
        (GREATEST (numeric_sub (customers.total_spent c) (Some (orders.total_amount NEW)))
                  (Some 0));
  Ok (customers.mk (customers.restaurant_id c) (customers.name c)
        (customers.email c) (customers.phone c)
        (GREATEST d (Some 0)) s (customers.last_order_at c) (customers.updated_at c)).

(** [update_customer_stats()] *)
Definition update_customer_stats (now : timestamptz) (OLD NEW : orders.row)
    (table : gmap uuid customers.row) : result (gmap uuid customers.row) :=
  table1 ←
    (if holds (sql_and (sql_eq order_status_eqb (orders.status NEW) (Some served))
                 (sql_or (is_null (orders.status OLD))
                    (sql_ne order_status_eqb (orders.status OLD) (Some served))))
     then UPDATE_customers_WHERE_id now (orders.customer_id NEW) (SET_served NEW) table
     else Ok table);
  if holds (sql_and (sql_eq order_status_eqb (orders.status OLD) (Some served))
              (sql_eq order_status_eqb (orders.status NEW) (Some cancelled)))
  then UPDATE_customers_WHERE_id now (orders.customer_id NEW) (SET_cancelled NEW) table1
  else Ok table1.

(** [CREATE TRIGGER update_customer_stats_trigger AFTER UPDATE ON orders
    FOR EACH ROW WHEN (NEW.customer_id IS NOT NULL)] *)
Definition update_customer_stats_trigger (now : timestamptz) (OLD NEW : orders.row)
    (table : gmap uuid customers.row) : result (gmap uuid customers.row) :=
  if holds (is_not_null (orders.customer_id NEW))
  then update_customer_stats now OLD NEW table
  else Ok table.

(** [SELECT COUNT] over the rows of a table that satisfy a [WHERE] clause. *)
Definition COUNT {row : Type} (where_ : row -> bool) (table : gmap uuid row) : Z :=
  Z.of_nat (size (filter (fun kv => Is_true (where_ kv.2)) table)).

(** [lpad(s, n, fill)]: [s] extended on the left with copies of [fill] to
    [n] characters; when [s] is longer than [n] it is cut to its first
    [n] characters. *)
Fixpoint copies (k : nat) (fill : string) : string :=
  match k with
  | O => ""
  | S k' => fill ++ copies k' fill
  end.

Definition LPAD (s : string) (n : nat) (fill : string) : string :=
  let len := String.length s in
  if (n <=? len)%nat then substring 0 n s
  else substring 0 (n - len) (copies (n - len) fill) ++ s.

(** [generate_order_number(restaurant_uuid)], run at the instant [now]
    (which fixes [CURRENT_DATE]) in a session of time zone [tz] against
    the rows of [orders] that the statement can see. *)
Definition generate_order_number (tz : Z) (now : timestamptz) (restaurant_uuid : uuid)
    (table : gmap uuid orders.row) : result string :=
  let CURRENT_DATE := Clock.DATE tz now in
  let date_prefix := Clock.to_char_YYYYMMDD CURRENT_DATE in
  order_count ←
    int4 (COUNT (fun o =>
            holds (sql_and (Some (N.eqb (orders.restaurant_id o) restaurant_uuid))
                     (sql_eq Z.eqb (Clock.DATE tz <$> orders.created_at o)
                        (Some CURRENT_DATE))))
          table);
  n ← int4 (order_count + 1);
  Ok (date_prefix ++ "-" ++ LPAD (Clock.digits n) 4 "0").

(** [set_order_number()], the function of [set_order_number_trigger
    BEFORE INSERT ON orders]. *)
Definition set_order_number (tz : Z) (now : timestamptz) (NEW : orders.row)
    (table : gmap uuid orders.row) : result orders.row :=
  if holds (sql_or (is_null (orders.order_number NEW))
              (sql_eq String.eqb (orders.order_number NEW) (Some "")))
  then
    number ← generate_order_number tz now (orders.restaurant_id NEW) table;
    Ok (orders.mk (orders.restaurant_id NEW) (orders.customer_id NEW)
          (Some number) (orders.status NEW) (orders.total_amount NEW)
          (orders.created_at NEW) (orders.updated_at NEW))
  else Ok NEW.

End Triggers.

(* ===================================================================== *)
(** * Statements on [orders] and [customers] *)
(* ===================================================================== *)

Module Statements.
Import Sql Triggers.

Definition with_orders (db : database) (t : gmap uuid orders.row) : database :=
  mkDatabase t (customers_table db).

Definition with_customers (db : database) (t : gmap uuid customers.row) : database :=
  mkDatabase (orders_table db) t.

(** The store after a statement: an aborted statement changes nothing. *)
Definition after (db : database) (r : result database) : database :=
  match r with
  | Ok db' => db'
  | Err _ => db
  end.

(** The constraints of [orders] on the row [NEW] about to be stored under
    the key [id]: [total_amount decimal(10,2)], [order_number NOT NULL],
    [order_number UNIQUE] (over the whole table), and the foreign key
    [customer_id REFERENCES customers(id)]. *)
Definition orders_constraints (id : uuid) (NEW : orders.row) (db : database) : result unit :=
  _ ← decimal_10_2 (Some (orders.total_amount NEW));
  match orders.order_number NEW with
  | None => Err (not_null_violation "order_number")
  | Some number =>
      if 0 <? COUNT (fun o => holds (sql_eq String.eqb (orders.order_number o) (Some number)))
                (delete id (orders_table db))
      then Err (unique_violation "orders_order_number_key")
      else
        match orders.customer_id NEW with
        | None => Ok ()
        | Some c =>
            match customers_table db !! c with
            | Some _ => Ok ()
            | None => Err (foreign_key_violation "orders_customer_id_fkey")
            end
        end
  end.

(** [INSERT INTO orders] of one row with every column given; [id] is the
    key [gen_random_uuid()] produced. The [BEFORE INSERT] trigger runs
    first, then the constraints; [orders] has no [AFTER INSERT] trigger. *)
Definition store_orders_row (id : uuid) (NEW : orders.row) (db : database)
  : result database :=
  match orders_table db !! id with
  | Some _ => Err (unique_violation "orders_pkey")
  | None =>
      _ ← orders_constraints id NEW db;
      Ok (with_orders db (<[id := NEW]> (orders_table db)))
  end.

Definition INSERT_orders (tz : Z) (now : timestamptz) (id : uuid) (NEW : orders.row)
    (db : database) : result database :=
  NEW' ← set_order_number tz now NEW (orders_table db);
  store_orders_row id NEW' db.

(** The columns an [UPDATE orders SET ...] names; [None] leaves a column
    as it is. *)
Module orders_changes.
Record t : Set := mk {
  customer_id : option (option uuid);
  order_number : option (option string);
  status : option (option order_status);
  total_amount : option Z
}.
End orders_changes.

Definition SET_orders (u : orders_changes.t) (OLD : orders.row) : orders.row :=
  orders.mk (orders.restaurant_id OLD)
    (default (orders.customer_id OLD) (orders_changes.customer_id u))
    (default (orders.order_number OLD) (orders_changes.order_number u))
    (default (orders.status OLD) (orders_changes.status u))
    (default (orders.total_amount OLD) (orders_changes.total_amount u))
    (orders.created_at OLD) (orders.updated_at OLD).

(** [UPDATE orders SET ... WHERE id = id]: [BEFORE UPDATE] trigger,
    constraints, the write, then the [AFTER UPDATE] trigger, all in one
    statement. No row with that key: nothing happens. *)
Definition UPDATE_orders (now : timestamptz) (id : uuid) (u : orders_changes.t)
    (db : database) : result database :=
  match orders_table db !! id with
  | None => Ok db
  | Some OLD =>
      let NEW := update_orders_updated_at now (SET_orders u OLD) in
      _ ← orders_constraints id NEW db;
      let db' := with_orders db (<[id := NEW]> (orders_table db)) in
      table ← update_customer_stats_trigger now OLD NEW (customers_table db');
      Ok (with_customers db' table)
  end.

(** [DELETE FROM orders WHERE id = id] *)
Definition DELETE_orders (id : uuid) (db : database) : result database :=
  Ok (with_orders db (delete id (orders_table db))).

(** The column types of [customers] on a row about to be stored. *)
Definition customers_constraints (NEW : customers.row) : result unit :=
  _ ← match customers.total_orders NEW with
      | Some n => _ ← int4 n; Ok ()
      | None => Ok ()
      end;
  _ ← decimal_10_2 (customers.total_spent NEW);
  Ok ().

(** [INSERT INTO customers] of one row with every column given. *)
Definition INSERT_customers (id : uuid) (NEW : customers.row) (db : database)
  : result database :=
  match customers_table db !! id with
  | Some _ => Err (unique_violation "customers_pkey")
  | None =>
      _ ← customers_constraints NEW;
      Ok (with_customers db (<[id := NEW]> (customers_table db)))
  end.

(** The columns an [UPDATE customers SET ...] names. *)
Module customers_changes.
Record t : Set := mk {
  name : option (option string);
  email : option (option string);
  phone : option (option string);
  total_orders : option (option Z);
  total_spent : option (option Z);
  last_order_at : option (option timestamptz)
}.
End customers_changes.

Definition SET_customers (u : customers_changes.t) (OLD : customers.row) : customers.row :=
  customers.mk (customers.restaurant_id OLD)
    (default (customers.name OLD) (customers_changes.name u))
    (default (customers.email OLD) (customers_changes.email u))
    (default (customers.phone OLD) (customers_changes.phone u))
    (default (customers.total_orders OLD) (customers_changes.total_orders u))
    (default (customers.total_spent OLD) (customers_changes.total_spent u))
    (default (customers.last_order_at OLD) (customers_changes.last_order_at u))
    (customers.updated_at OLD).

(** [UPDATE customers SET ... WHERE id = id] *)
Definition UPDATE_customers (now : timestamptz) (id : uuid) (u : customers_changes.t)
    (db : database) : result database :=
  table ← UPDATE_customers_WHERE_id now (Some id)
             (fun c => let c' := SET_customers u c in
                       _ ← customers_constraints c'; Ok c')
             (customers_table db);
  Ok (with_customers db table).

(** [DELETE FROM customers WHERE id = id]. [orders.customer_id] is
    declared [ON DELETE SET NULL]: the orders of the customer are updated
    to a NULL reference, which runs their [BEFORE UPDATE] trigger; their
    [AFTER UPDATE] trigger is skipped by its [WHEN] clause. *)
Definition DELETE_customers (now : timestamptz) (id : uuid) (db : database)
  : result database :=
  let detach (o : orders.row) : orders.row :=
    if holds (sql_eq N.eqb (orders.customer_id o) (Some id))
    then update_orders_updated_at now
           (orders.mk (orders.restaurant_id o) None (orders.order_number o)
              (orders.status o) (orders.total_amount o)
              (orders.created_at o) (orders.updated_at o))
    else o in
  Ok (mkDatabase (detach <$> orders_table db) (delete id (customers_table db))).

End Statements.

(* ===================================================================== *)
(** * Domain services ([src/services/*.ts]) *)
(* ===================================================================== *)

(** Every service call is one request to the store: it runs a single
    statement, and a failed request leaves the store as it was. The
    store's clock gives [now] (microseconds), the caller's clock gives
    [today] (milliseconds). *)

Module OrderService.
Import Sql Triggers Statements.

(** [CreateOrderData], the modelled columns. *)
Record CreateOrderData : Set := mkCreateOrderData {
  restaurant_id : uuid;
  customer_id : option uuid;
  order_number : string;
  total_amount : Z
}.

(** [createOrder(orderData)]: [status], [created_at] and [updated_at] are
    not sent and take their column defaults. *)
Definition createOrder (tz : Z) (now : timestamptz) (id : uuid) (orderData : CreateOrderData)
    (db : database) : result database :=
  INSERT_orders tz now id
    (orders.mk (restaurant_id orderData) (customer_id orderData)
       (Some (order_number orderData)) (Some pending) (total_amount orderData)
       (Some now) (Some now))
    db.

(** [updateOrder(orderId, updates)]: [.single()] fails on no row. *)
Definition updateOrder (now : timestamptz) (orderId : uuid) (updates : orders_changes.t)
    (db : database) : result database :=
  match orders_table db !! orderId with
  | None => Err PGRST116
  | Some _ => UPDATE_orders now orderId updates db
  end.

(** [updateOrderStatus(orderId, status)] *)
Definition updateOrderStatus (now : timestamptz) (orderId : uuid) (status : order_status)
    (db : database) : result database :=
  updateOrder now orderId (orders_changes.mk None None (Some (Some status)) None) db.

(** [deleteOrder(orderId)] *)
Definition deleteOrder (orderId : uuid) (db : database) : result database :=
  DELETE_orders orderId db.

(** [s.padStart(n, fill)]: never shortens [s]. *)
Definition padStart (s : string) (n : nat) (fill : string) : string :=
  let len := String.length s in
  if (n <=? len)%nat then s
  else substring 0 (n - len) (copies (n - len) fill) ++ s.

(** [generateOrderNumber(restaurantId)], called when the caller's clock
    reads [today]. The two bounds of the query are the instants
    [<date>T00:00:00.000Z] and [<date>T23:59:59.999Z] of the UTC date of
    [today]. *)
Definition generateOrderNumber (today : Z) (restaurantId : uuid)
    (table : gmap uuid orders.row) : string :=
  let datePrefix := Clock.remove_dashes (Clock.toISOString_date today) in
  let day_start := Clock.DATE 0 (today * Clock.usec_per_msec) * Clock.usec_per_day in
  let T00_00_00_000Z := day_start in
  let T23_59_59_999Z := day_start + 86399999000 in
  let count :=
    COUNT (fun o =>
      holds (sql_and (Some (N.eqb (orders.restaurant_id o) restaurantId))
               (sql_and ((fun c => T00_00_00_000Z <=? c) <$> orders.created_at o)
                        ((fun c => c <? T23_59_59_999Z) <$> orders.created_at o))))
      table in
  datePrefix ++ "-" ++ padStart (Clock.digits (count + 1)) 4 "0".

End OrderService.

Module CustomerService.
Import Sql Triggers Statements.

Record CreateCustomerData : Set := mkCreateCustomerData {
  restaurant_id : uuid;
  name : option string;
  email : option string;
  phone : option string
}.

(** [createCustomer(customerData)]: the aggregates take their column
    defaults, 0, 0.00 and NULL. *)
Definition createCustomer (now : timestamptz) (id : uuid) (customerData : CreateCustomerData)
    (db : database) : result database :=
  INSERT_customers id
    (customers.mk (restaurant_id customerData) (name customerData)
       (email customerData) (phone customerData)
       (Some 0) (Some 0) None (Some now))
    db.

(** [updateCustomer(customerId, updates)], [updates : Partial<Customer>]. *)
Definition updateCustomer (now : timestamptz) (customerId : uuid)
    (updates : customers_changes.t) (db : database) : result database :=
  match customers_table db !! customerId with
  | None => Err PGRST116
  | Some _ => UPDATE_customers now customerId updates db
  end.

(** [deleteCustomer(customerId)] *)
Definition deleteCustomer (now : timestamptz) (customerId : uuid) (db : database)
  : result database :=
  DELETE_customers now customerId db.

(** [updateCustomerOrderStats(customerId, orderAmount)]. In JavaScript
    [null + 1] is 1 and [Number(null)] is 0. [orderAmount] is counted in
    hundredths; sums of such amounts below 10^8 survive the trip through
    a binary64 number and the column's rounding to two places. *)
Definition updateCustomerOrderStats (now : timestamptz) (today : Z) (customerId : uuid)
    (orderAmount : Z) (db : database) : result database :=
  match customers_table db !! customerId with
  | None => Err PGRST116
  | Some customer =>
      let updates :=
        customers_changes.mk None None None
          (Some (Some (default 0 (customers.total_orders customer) + 1)))
          (Some (Some (default 0 (customers.total_spent customer) + orderAmount)))
          (Some (Some (today * Clock.usec_per_msec))) in
      updateCustomer now customerId updates db
  end.

End CustomerService.

(** The write requests of the two services, with what each draws from
    the store's clock, the caller's clock and the key generator. *)
Module Requests.
Import Statements.

Inductive request : Type :=
  | createOrder (tz : Z) (now : timestamptz) (id : uuid)
      (orderData : OrderService.CreateOrderData)
  | updateOrder (now : timestamptz) (orderId : uuid) (updates : orders_changes.t)
  | deleteOrder (orderId : uuid)
  | createCustomer (now : timestamptz) (id : uuid)
      (customerData : CustomerService.CreateCustomerData)
  | updateCustomer (now : timestamptz) (customerId : uuid) (updates : customers_changes.t)
  | deleteCustomer (now : timestamptz) (customerId : uuid)
  | updateCustomerOrderStats (now : timestamptz) (today : Z) (customerId : uuid)
      (orderAmount : Z).

Definition answer (r : request) (db : database) : Sql.result database :=
  match r with
  | createOrder tz now id orderData => OrderService.createOrder tz now id orderData db
  | updateOrder now orderId updates => OrderService.updateOrder now orderId updates db
  | deleteOrder orderId => OrderService.deleteOrder orderId db
  | createCustomer now id customerData =>
      CustomerService.createCustomer now id customerData db
  | updateCustomer now customerId updates =>
      CustomerService.updateCustomer now customerId updates db
  | deleteCustomer now customerId => CustomerService.deleteCustomer now customerId db
  | updateCustomerOrderStats now today customerId orderAmount =>
      CustomerService.updateCustomerOrderStats now today customerId orderAmount db
  end.

(** The store after the request. *)
Definition perform (r : request) (db : database) : database := after db (answer r db).



End Requests.

(* ===================================================================== *)
(** * Order items: [validate_order_item] and [check_item_reference] *)
(* ===================================================================== *)

Module menu_items.
Record row : Set := mk {
  restaurant_id : uuid;                 (* uuid NOT NULL *)
  price : Z                             (* decimal(10,2) NOT NULL *)
}.
End menu_items.

Module combo_meals.
Record row : Set := mk {
  restaurant_id : uuid;                 (* uuid NOT NULL *)
  price : Z                             (* decimal(10,2) NOT NULL *)
}.
End combo_meals.

Module order_items.
Record row : Set := mk {
  order_id : uuid;                      (* uuid NOT NULL REFERENCES orders *)
  menu_item_id : option uuid;           (* REFERENCES menu_items ON DELETE SET NULL *)
  combo_meal_id : option uuid;          (* REFERENCES combo_meals ON DELETE SET NULL *)
  revenue_center_id : uuid;
  quantity : Z;                         (* integer NOT NULL CHECK (quantity > 0) *)
  unit_price : Z;
  total_price : Z
}.
End order_items.

(** What [validate_order_item] and the table constraints read, and the
    table they guard. *)
Record catalog : Type := mkCatalog {
  menu_items_table : gmap uuid menu_items.row;
  combo_meals_table : gmap uuid combo_meals.row;
  orders_of_items : gmap uuid orders.row;
  order_items_table : gmap uuid order_items.row
}.

Module OrderItems.
Import Sql.

Definition must_reference_one : string :=
  "Order item must reference either a menu item or combo meal, but not both".
Definition menu_item_elsewhere : string :=
  "Menu item does not belong to the same restaurant as the order".
Definition combo_meal_elsewhere : string :=
  "Combo meal does not belong to the same restaurant as the order".

(** [EXISTS (SELECT 1 FROM <items> x JOIN orders o ON o.id = NEW.order_id
    WHERE x.id = <ref> AND x.restaurant_id = o.restaurant_id)], given the
    restaurant of the referenced row when there is such a row. *)
Definition EXISTS_in_order_restaurant (item_restaurant : option uuid)
    (order : option orders.row) : bool :=
  match item_restaurant, order with
  | Some r, Some o => N.eqb r (orders.restaurant_id o)
  | _, _ => false
  end.

(** [validate_order_item()] *)
Definition validate_order_item (NEW : order_items.row) (c : catalog)
  : result order_items.row :=
  let menu_item_id := order_items.menu_item_id NEW in
  let combo_meal_id := order_items.combo_meal_id NEW in
  let order := orders_of_items c !! order_items.order_id NEW in
  if holds (sql_or (sql_and (is_null menu_item_id) (is_null combo_meal_id))
                   (sql_and (is_not_null menu_item_id) (is_not_null combo_meal_id)))
  then Err (raise_exception must_reference_one)
  else
    _ ← match menu_item_id with
        | Some m =>
            if negb (EXISTS_in_order_restaurant
                       (menu_items.restaurant_id <$> menu_items_table c !! m) order)
            then Err (raise_exception menu_item_elsewhere)
            else Ok ()
        | None => Ok ()
        end;
    _ ← match combo_meal_id with
        | Some m =>
            if negb (EXISTS_in_order_restaurant
                       (combo_meals.restaurant_id <$> combo_meals_table c !! m) order)
            then Err (raise_exception combo_meal_elsewhere)
            else Ok ()
        | None => Ok ()
        end;
    Ok NEW.

(** [CONSTRAINT check_item_reference CHECK (...)] and
    [CHECK (quantity > 0)] of [order_items]. *)
Definition check_item_reference (NEW : order_items.row) : bool :=
  holds (sql_or
           (sql_and (is_not_null (order_items.menu_item_id NEW))
                    (is_null (order_items.combo_meal_id NEW)))
           (sql_and (is_null (order_items.menu_item_id NEW))
                    (is_not_null (order_items.combo_meal_id NEW)))).

Definition order_items_constraints (NEW : order_items.row) (c : catalog) : result unit :=
  if negb (0 <? order_items.quantity NEW)
  then Err (check_violation "order_items_quantity_check")
  else if negb (check_item_reference NEW)
  then Err (check_violation "check_item_reference")
  else match orders_of_items c !! order_items.order_id NEW with
       | None => Err (foreign_key_violation "order_items_order_id_fkey")
       | Some _ => Ok ()
       end.

Definition with_order_items (c : catalog) (t : gmap uuid order_items.row) : catalog :=
  mkCatalog (menu_items_table c) (combo_meals_table c) (orders_of_items c) t.

(** [INSERT INTO order_items] and [UPDATE order_items ... WHERE id = id]:
    [validate_order_item_trigger BEFORE INSERT OR UPDATE ... FOR EACH
    ROW], then the constraints, then the write. The insert looks at the
    primary key before the [CHECK] constraints; the store looks at the
    [CHECK] constraints first, so that for a row that fails both the
    error reported differs. *)
Definition INSERT_order_items (id : uuid) (NEW : order_items.row) (c : catalog)
  : result catalog :=
  NEW' ← validate_order_item NEW c;
  match order_items_table c !! id with
  | Some _ => Err (unique_violation "order_items_pkey")
  | None =>
      _ ← order_items_constraints NEW' c;
      Ok (with_order_items c (<[id := NEW']> (order_items_table c)))
  end.

Definition UPDATE_order_items (id : uuid) (set : order_items.row -> order_items.row)
    (c : catalog) : result catalog :=
  match order_items_table c !! id with
  | None => Ok c
  | Some OLD =>
      NEW' ← validate_order_item (set OLD) c;
      _ ← order_items_constraints NEW' c;
      Ok (with_order_items c (<[id := NEW']> (order_items_table c)))
  end.

(** Modelled from the spec: the source declares no error classes; the
    taxonomy of the specification's error-handling section is applied to
    the errors the store raises. A dual or absent item reference is a
    [ValidationError], a cross-tenant reference or an unresolvable
    foreign key a [ReferentialError], a uniqueness violation a
    [ConflictError], a missing row a [NotFoundError]. *)
Inductive error_kind : Set :=
  | ValidationError | ReferentialError | ConflictError
  | AuthorizationError | NotFoundError.

Definition kind_of (e : sql_error) : option error_kind :=
  match e with
  | raise_exception m =>
      if String.eqb m must_reference_one then Some ValidationError
      else if String.eqb m menu_item_elsewhere || String.eqb m combo_meal_elsewhere
      then Some ReferentialError
      else None
  | check_violation _ | not_null_violation _ => Some ValidationError
  | foreign_key_violation _ => Some ReferentialError
  | unique_violation _ => Some ConflictError
  | PGRST116 => Some NotFoundError
  | integer_out_of_range | numeric_field_overflow => Some ValidationError
  end.

(** The kind of error a statement failed with, if it failed. *)
Definition fails_with {A : Type} (r : result A) : option error_kind :=
  match r with
  | Ok _ => None
  | Err e => kind_of e
  end.

End OrderItems.

(* ===================================================================== *)
(** * Opening hours: [is_revenue_center_open] and [isRevenueCenterOpen] *)
(* ===================================================================== *)

Module business_hours.
Record row : Set := mk {
  revenue_center_id : uuid;             (* uuid NOT NULL *)
  day_of_week : Z;                      (* integer NOT NULL CHECK (0..6) *)
  open_time : option Z;                 (* time *)
  close_time : option Z;                (* time *)
  is_closed : option bool               (* boolean DEFAULT false *)
}.
End business_hours.

Module BusinessHours.
Import Sql.

(** The rows [WHERE revenue_center_id = center AND day_of_week = dow], in
    the order the store returns them; [UNIQUE(revenue_center_id,
    day_of_week)] allows at most one. *)
Definition for_center_day (center : uuid) (dow : Z) (h : business_hours.row) : bool :=
  N.eqb (business_hours.revenue_center_id h) center
  && Z.eqb (business_hours.day_of_week h) dow.

Definition SELECT_hours (center : uuid) (dow : Z) (table : gmap uuid business_hours.row)
  : list business_hours.row :=
  List.filter (for_center_day center dow) (snd <$> map_to_list table).

(** [UNIQUE(revenue_center_id, day_of_week)] *)
Definition unique_center_day (table : gmap uuid business_hours.row) : Prop :=
  forall i j h h',
    table !! i = Some h -> table !! j = Some h' ->
    business_hours.revenue_center_id h = business_hours.revenue_center_id h' ->
    business_hours.day_of_week h = business_hours.day_of_week h' ->
    i = j.




(** A JavaScript string is falsy when it is [null] or empty. *)
Definition falsy (s : option string) : bool :=
  match s with
  | None => true
  | Some s' => String.eqb s' ""
  end.

(** [BusinessHoursService.isRevenueCenterOpen(revenueCenterId, dateTime)]
    on a machine of time zone [tz] whose clock reads [clock]. The row
    arrives as JSON: a [time] column is the text [Clock.time_out] gives.
    [.single()] is an error unless exactly one row matches. *)
Definition isRevenueCenterOpen (tz : Z) (clock : Z) (revenueCenterId : uuid)
    (dateTime : option Z) (table : gmap uuid business_hours.row) : bool :=
  let checkTime := default clock dateTime in
  let dayOfWeek := Clock.DOW tz (checkTime * Clock.usec_per_msec) in
  let currentTime := Clock.toTimeString_HHMM tz checkTime in
  match SELECT_hours revenueCenterId dayOfWeek table with
  | [data] =>
      let open_time := Clock.time_out <$> business_hours.open_time data in
      let close_time := Clock.time_out <$> business_hours.close_time data in
      if holds (business_hours.is_closed data) then false
      else if falsy open_time || falsy close_time then false
      else
        match open_time, close_time with
        | Some open_time, Some close_time =>
            if String.ltb close_time open_time
            then String.leb open_time currentTime || String.leb currentTime close_time
            else String.leb open_time currentTime && String.leb currentTime close_time
        | _, _ => false
        end
  | _ => false
  end.

(** The evaluator in the words of the specification, for the hours row of
    the centre and day ([None] when there is none) and a time of day. *)
Definition rule_open (hours : option business_hours.row) (time_of_day : Z) : bool :=
  match hours with
  | None => false
  | Some h =>
      match business_hours.is_closed h with
      | Some true => false
      | _ =>
          match business_hours.open_time h, business_hours.close_time h with
          | Some o, Some c =>
              if c <? o
              then (o <=? time_of_day) || (time_of_day <=? c)
              else (o <=? time_of_day) && (time_of_day <=? c)
          | _, _ => false
          end
      end
  end.

(** The day of the week of the specification, 0 for Sunday. *)
Inductive weekday : Set :=
  | Sunday | Monday | Tuesday | Wednesday | Thursday | Friday | Saturday.

Definition weekday_number (d : weekday) : Z :=
  match d with
  | Sunday => 0 | Monday => 1 | Tuesday => 2 | Wednesday => 3
  | Thursday => 4 | Friday => 5 | Saturday => 6
  end.

End BusinessHours.

(* ===================================================================== *)
(** * Tenant provisioning ([supabase/functions/create-kitchen-owner]) *)
(* ===================================================================== *)

Module kitchen_owners.
Record row : Set := mk {
  user_id : option uuid;                (* uuid REFERENCES auth.users(id) *)
  email : string;                       (* text UNIQUE NOT NULL *)
  full_name : string;
  subscription_plan : string;           (* subscription_plan_type *)
  payment_id : string;
  subscription_amount : Z;
  subscription_expires_at : string;
  password_hash : string;
  is_setup_completed : option bool
}.
End kitchen_owners.

(** An account of the identity provider ([auth.users]). *)
Module auth_users.
Record row : Set := mk {
  email : string;
  password : string;
  full_name : string;
  role : string
}.
End auth_users.

Module users.
Record row : Set := mk {
  auth_user_id : option uuid;           (* uuid UNIQUE REFERENCES auth.users(id) *)
  email : string;                       (* text UNIQUE NOT NULL *)
  full_name : string;
  role : string
}.
End users.

Record platform : Type := mkPlatform {
  kitchen_owners_table : gmap uuid kitchen_owners.row;
  auth_users_table : gmap uuid auth_users.row;
  users_table : gmap uuid users.row
}.

Module Provisioning.

(** The JSON body: any field may be missing. *)
Record CreateKitchenOwnerRequest : Set := mkRequest {
  email : option string;
  full_name : option string;
  subscription_plan : option string;
  payment_id : option string;
  subscription_amount : option Z;
  subscription_expires_at : option string
}.

(** [method] and parsed body of the HTTP request; the body is [None] when
    [req.json()] throws. *)
Record Request : Set := mkHttp {
  method : string;
  json : option CreateKitchenOwnerRequest
}.

(** Status and message of the response: the [error] of an error body, or
    the [message] of the success body. *)
Record Response : Set := mkResponse {
  status : Z;
  body : string
}.

(** What the run draws from outside: the generated password, its hash,
    and the keys the store and the identity provider hand out. *)
Record draws : Set := mkDraws {
  randomPassword : string;
  hashedPassword : string;
  owner_key : uuid;
  auth_key : uuid;
  user_key : uuid
}.

Definition falsy_string (s : option string) : bool :=
  match s with
  | None => true
  | Some s' => String.eqb s' ""
  end.

Definition falsy_number (n : option Z) : bool :=
  match n with
  | None => true
  | Some z => z =? 0
  end.

(** The first of [requiredFields] whose value is falsy. *)
Definition first_missing_field (d : CreateKitchenOwnerRequest) : option string :=
  if falsy_string (email d) then Some "email"
  else if falsy_string (full_name d) then Some "full_name"
  else if falsy_string (subscription_plan d) then Some "subscription_plan"
  else if falsy_string (payment_id d) then Some "payment_id"
  else if falsy_number (subscription_amount d) then Some "subscription_amount"
  else if falsy_string (subscription_expires_at d) then Some "subscription_expires_at"
  else None.

(** [from('kitchen_owners').select('id').eq('email', e).single()]: the key
    of the row when exactly one row matches. *)
Definition owners_by_email (e : string) (t : gmap uuid kitchen_owners.row) : list uuid :=
  fst <$> List.filter (fun kv => String.eqb (kitchen_owners.email kv.2) e) (map_to_list t).

Definition single {A : Type} (l : list A) : option A :=
  match l with
  | [x] => Some x
  | _ => None
  end.

Definition is_plan (s : string) : bool :=
  String.eqb s "basic" || String.eqb s "premium" || String.eqb s "enterprise".

(** [from('kitchen_owners').insert({...}).select().single()]. The column
    types of [subscription_amount] ([decimal(10,2)]) and
    [subscription_expires_at] ([timestamptz]) are not looked at: the
    store refuses a value outside them, as it refuses a plan outside the
    enum, and the handler then answers 500. *)
Definition insert_kitchen_owner (k : uuid) (r : kitchen_owners.row)
    (t : gmap uuid kitchen_owners.row) : option (gmap uuid kitchen_owners.row) :=
  match t !! k, owners_by_email (kitchen_owners.email r) t with
  | None, [] =>
      if is_plan (kitchen_owners.subscription_plan r) then Some (<[k := r]> t) else None
  | _, _ => None
  end.

(** [auth.admin.createUser({...})]: refused when the address is taken. *)
Definition createUser (k : uuid) (r : auth_users.row) (t : gmap uuid auth_users.row)
  : option (gmap uuid auth_users.row) :=
  match t !! k,
        List.filter (fun kv => String.eqb (auth_users.email kv.2) (auth_users.email r))
          (map_to_list t) with
  | None, [] => Some (<[k := r]> t)
  | _, _ => None
  end.

(** [from('users').insert({...})]: [email] and [auth_user_id] are unique. *)
Definition insert_user (k : uuid) (r : users.row) (t : gmap uuid users.row)
  : option (gmap uuid users.row) :=
  match t !! k,
        List.filter
          (fun kv => String.eqb (users.email kv.2) (users.email r)
                     || bool_decide (users.auth_user_id kv.2 = users.auth_user_id r))
          (map_to_list t) with
  | None, [] => Some (<[k := r]> t)
  | _, _ => None
  end.

Definition link_owner (auth : uuid) (r : kitchen_owners.row) : kitchen_owners.row :=
  kitchen_owners.mk (Some auth) (kitchen_owners.email r) (kitchen_owners.full_name r)
    (kitchen_owners.subscription_plan r) (kitchen_owners.payment_id r)
    (kitchen_owners.subscription_amount r) (kitchen_owners.subscription_expires_at r)
    (kitchen_owners.password_hash r) (kitchen_owners.is_setup_completed r).

(** The handler passed to [Deno.serve]. *)
Definition serve (d : draws) (req : Request) (p : platform) : Response * platform :=
  if String.eqb (method req) "OPTIONS" then (mkResponse 200 "", p)
  else if negb (String.eqb (method req) "POST") then (mkResponse 405 "Method not allowed", p)
  else
    match json req with
    | None => (mkResponse 500 "Internal server error", p)
    | Some requestData =>
        match first_missing_field requestData with
        | Some field => (mkResponse 400 ("Missing required field: " ++ field), p)
        | None =>
            let email := default "" (email requestData) in
            let full_name := default "" (full_name requestData) in
            match single (owners_by_email email (kitchen_owners_table p)) with
            | Some existingOwner =>
                (mkResponse 409 "Kitchen owner with this email already exists", p)
            | None =>
                let owner :=
                  kitchen_owners.mk None email full_name
                    (default "" (subscription_plan requestData))
                    (default "" (payment_id requestData))
                    (default 0 (subscription_amount requestData))
                    (default "" (subscription_expires_at requestData))
                    (hashedPassword d) (Some false) in
                match insert_kitchen_owner (owner_key d) owner (kitchen_owners_table p) with
                | None => (mkResponse 500 "Failed to create kitchen owner", p)
                | Some owners =>
                    match createUser (auth_key d)
                            (auth_users.mk email (randomPassword d) full_name "kitchen_owner")
                            (auth_users_table p) with
                    | None =>
                        (mkResponse 500 "Failed to create user account",
                         mkPlatform (delete (owner_key d) owners)
                           (auth_users_table p) (users_table p))
                    | Some accounts =>
                        let users' :=
                          default (users_table p)
                            (insert_user (user_key d)
                               (users.mk (Some (auth_key d)) email full_name "kitchen_owner")
                               (users_table p)) in
                        (mkResponse 201 "Kitchen owner created successfully",
                         mkPlatform (alter (link_owner (auth_key d)) (owner_key d) owners)
                           accounts users')
                    end
                end
            end
        end
    end.

(** [email text UNIQUE] on [kitchen_owners]. *)
Definition unique_owner_email (t : gmap uuid kitchen_owners.row) : Prop :=
  forall i j r r',
    t !! i = Some r -> t !! j = Some r' ->
    kitchen_owners.email r = kitchen_owners.email r' -> i = j.

(** The outcome the specification asks of a repeated run for [e]: an
    identity-provider account for [e] exists, the owner record of [e] is
    linked to it, and there is exactly one owner record of [e]. *)
Definition repaired (e : string) (p : platform) : bool :=
  match owners_by_email e (kitchen_owners_table p) with
  | [k] =>
      match kitchen_owners_table p !! k with
      | Some r =>
          match kitchen_owners.user_id r with
          | Some a =>
              match auth_users_table p !! a with
              | Some account => String.eqb (auth_users.email account) e
              | None => false
              end
          | None => false
          end
      | None => false
      end
  | _ => false
  end.

End Provisioning.

(* ===================================================================== *)
(** * Order creations that overlap in time *)
(* ===================================================================== *)

(** An insert into [orders] is two steps of its transaction: the
    [BEFORE INSERT] trigger reads the table and numbers the row, then the
    row is checked against the constraints and stored. A transaction
    reads the rows stored by the transactions that finished before its
    read; steps of different transactions may alternate. The client-side
    path has the same shape with two requests: [generateOrderNumber],
    then [createOrder] with the number it returned. *)
Module Overlap.
Import Sql Triggers Statements.

Inductive event : Set :=
  | number (i : nat)      (* creation [i] computes its order number *)
  | store (i : nat).      (* creation [i] stores its row *)

(** The committed store, and the numbered rows not stored yet. *)
Record state : Type := mkState {
  committed : database;
  in_flight : gmap nat orders.row
}.

Inductive path : Set := store_side | client_side.

Definition numbered (n : string) (r : orders.row) : orders.row :=
  orders.mk (orders.restaurant_id r) (orders.customer_id r) (Some n)
    (orders.status r) (orders.total_amount r) (orders.created_at r)
    (orders.updated_at r).

(** One step. [requests] lists the key and the row of each creation; a
    store-side row arrives without a number. A step that fails (or whose
    creation does not exist, or is out of turn) leaves the state alone. *)
Definition step (via : path) (tz : Z) (now : timestamptz)
    (requests : list (uuid * orders.row)) (e : event) (s : state) : state :=
  match e with
  | number i =>
      match requests !! i with
      | Some (_, NEW) =>
          let table := orders_table (committed s) in
          match via with
          | store_side =>
              match set_order_number tz now NEW table with
              | Ok NEW' => mkState (committed s) (<[i := NEW']> (in_flight s))
              | Err _ => s
              end
          | client_side =>
              let n := OrderService.generateOrderNumber (now / Clock.usec_per_msec)
                         (orders.restaurant_id NEW) table in
              mkState (committed s) (<[i := numbered n NEW]> (in_flight s))
          end
      | None => s
      end
  | store i =>
      match requests !! i, in_flight s !! i with
      | Some (id, _), Some NEW' =>
          let r :=
            match via with
            | store_side => store_orders_row id NEW' (committed s)
            | client_side => INSERT_orders tz now id NEW' (committed s)
            end in
          mkState (after (committed s) r) (delete i (in_flight s))
      | _, _ => s
      end
  end.

Definition run (via : path) (tz : Z) (now : timestamptz)
    (requests : list (uuid * orders.row)) (schedule : list event) (s : state) : state :=
  fold_left (fun s e => step via tz now requests e s) schedule s.

(** The order numbers stored for a restaurant, in the table's order. *)
Definition numbers_of (restaurant : uuid) (db : database) : list (option string) :=
  orders.order_number <$>
    List.filter (fun o => N.eqb (orders.restaurant_id o) restaurant)
      (snd <$> map_to_list (orders_table db)).

End Overlap.

(* ===================================================================== *)
(** * The rules of the specification, stated on the model *)
(* ===================================================================== *)

Module Rules.

(** The three kinds of order status transition the customer statistics
    aggregator distinguishes. A NULL status is a status other than
    [served]. *)
Inductive transition : Set :=
  | into_served              (* from any non-served status into served *)
  | served_to_cancelled
  | other_transition.

Definition transition_of (old new : option order_status) : transition :=
  match old, new with
  | Some served, Some served => other_transition
  | _, Some served => into_served
  | Some served, Some cancelled => served_to_cancelled
  | _, _ => other_transition
  end.

(** The customer's aggregates after a transition of an order of total
    [amount] updated at [at_]: the new [total_orders], [total_spent] and
    [last_order_at]. *)
Definition aggregates_after (k : transition) (amount : Z) (at_ : option timestamptz)
    (n s : Z) (last : option timestamptz) : option Z * option Z * option timestamptz :=
  match k with
  | into_served => (Some (n + 1), Some (s + amount), at_)
  | served_to_cancelled => (Some (Z.max (n - 1) 0), Some (Z.max (s - amount) 0), last)
  | other_transition => (Some n, Some s, last)
  end.

(** The aggregates of a customer row, as the store holds them. *)
Definition aggregates (c : customers.row) : option Z * option Z * option timestamptz :=
  (customers.total_orders c, customers.total_spent c, customers.last_order_at c).






(** A sequence of order status transitions, each a call of
    [OrderService.updateOrderStatus] at some instant; a call that fails
    changes nothing. *)
Definition run_transitions (calls : list (timestamptz * uuid * order_status))
    (db : database) : database :=
  fold_left
    (fun db call =>
       Statements.after db
         (OrderService.updateOrderStatus call.1.1 call.1.2 call.2 db))
    calls db.

(** The number of a restaurant's orders created on a day, in the time
    zone [tz]. *)
Definition orders_created_on (tz : Z) (restaurant : uuid) (day_number : Z)
    (table : gmap uuid orders.row) : Z :=
  Triggers.COUNT
    (fun o =>
       N.eqb (orders.restaurant_id o) restaurant
       && match orders.created_at o with
          | Some c => Z.eqb (Clock.DATE tz c) day_number
          | None => false
          end)
    table.

(** The order number of the specification: the date, a dash, and the
    count plus one in at least four digits. *)
Definition order_number_for (day_number count : Z) : string :=
  Clock.to_char_YYYYMMDD day_number ++ "-" ++ Clock.zero_padded 4 (count + 1).

(** A count whose decimal form has at most four digits. *)
Definition at_most_four_digits (k : nat) : bool :=
  (String.length (Clock.digits (Z.of_nat k)) <=? 4)%nat.

End Rules.

(* ===================================================================== *)
(** * Worked examples of the specification *)
(* ===================================================================== *)

Module Examples.

(** 2025-08-11, a Monday, as a day number, and instants on that day. *)
Definition day_2025_08_11 : Z := 20311.

Definition on_2025_08_11 (h m : Z) : timestamptz :=
  Clock.instant day_2025_08_11 (Clock.hhmm h m).

(** Customer C of restaurant 1, with no order yet. *)
Definition customer_C : customers.row :=
  customers.mk 1%N (Some "C") None None (Some 0) (Some 0) None None.

(** An order of C's of 25.50, by status. *)
Definition order_25_50 (status : order_status) (updated_at : timestamptz) : orders.row :=
  orders.mk 1%N (Some 7%N) (Some "20250811-0001") (Some status) 2550
    (Some (on_2025_08_11 12 0)) (Some updated_at).

Definition only_C : gmap uuid customers.row := {[ 7%N := customer_C ]}.



(** The store with C and no order. *)
Definition store_of_C : database := mkDatabase ∅ only_C.

(** A new order of C's of 25.50 that is already served when inserted,
    without an order number. *)
Definition new_served_order : orders.row :=
  orders.mk 1%N (Some 7%N) None (Some served) 2550
    (Some (on_2025_08_11 12 0)) (Some (on_2025_08_11 12 0)).

(** Revenue centre 5 on Mondays: open overnight from 22:00 to 02:00, or
    by day from 09:00 to 22:00. *)
Definition overnight_hours : gmap uuid business_hours.row :=
  {[ 9%N := business_hours.mk 5%N 1 (Some (Clock.hhmm 22 0)) (Some (Clock.hhmm 2 0))
              (Some false) ]}.

Definition day_hours : gmap uuid business_hours.row :=
  {[ 9%N := business_hours.mk 5%N 1 (Some (Clock.hhmm 9 0)) (Some (Clock.hhmm 22 0))
              (Some false) ]}.

(** Monday 2025-08-11 at [h]:[m]:[sec] UTC, as a [timestamptz] and as a
    JavaScript [Date]. *)
Definition monday (h m sec : Z) : timestamptz :=
  on_2025_08_11 h m + sec * Clock.usec_per_second.

Definition monday_Date (h m sec : Z) : Z := monday h m sec / Clock.usec_per_msec.

(** [n] orders of restaurant 1 created at noon on 2025-08-11, numbered
    as the generator numbers them, under the keys 1 to [n]. *)
Fixpoint orders_at_noon (n : nat) : gmap uuid orders.row :=
  match n with
  | O => ∅
  | S k =>
      <[N.of_nat n :=
          orders.mk 1%N None (Some (Rules.order_number_for day_2025_08_11 (Z.of_nat k)))
            (Some pending) 1000 (Some (on_2025_08_11 12 0)) (Some (on_2025_08_11 12 0))]>
        (orders_at_noon k)
  end.

(** One order of restaurant 1 created half a millisecond before the end
    of 2025-08-11 (UTC). *)
Definition order_at_midnight : gmap uuid orders.row :=
  {[ 1%N := orders.mk 1%N None (Some "20250811-0001") (Some pending) 1000
              (Some (on_2025_08_11 23 59 + 59999500)) (Some (on_2025_08_11 23 59 + 59999500)) ]}.

(** A platform whose only owner record, of owner@example.com, has no
    identity-provider account; the request that provisioned it, sent
    again; and what a run draws. *)
Definition half_provisioned : platform :=
  mkPlatform
    {[ 40%N := kitchen_owners.mk None "owner@example.com" "Olive Owner" "basic"
                 "pay_1" 4900 "2026-08-11T00:00:00Z" "5e88" (Some false) ]}
    ∅ ∅.

Definition provision_again : Provisioning.Request :=
  Provisioning.mkHttp "POST"
    (Some (Provisioning.mkRequest (Some "owner@example.com") (Some "Olive Owner")
             (Some "basic") (Some "pay_1") (Some 4900) (Some "2026-08-11T00:00:00Z"))).

Definition some_draws : Provisioning.draws :=
  Provisioning.mkDraws "s3cretPassw0rd" "9f86" 41%N 42%N 43%N.

(** Two creations of an order of restaurant 1 at noon on 2025-08-11,
    under the keys 1 and 2, and the empty store they start from. *)
Definition two_creations : list (uuid * orders.row) :=
  [ (1%N, orders.mk 1%N None None (Some pending) 1000
            (Some (on_2025_08_11 12 0)) (Some (on_2025_08_11 12 0)));
    (2%N, orders.mk 1%N None None (Some pending) 2000
            (Some (on_2025_08_11 12 0)) (Some (on_2025_08_11 12 0))) ].

Definition nothing_stored : Overlap.state :=
  Overlap.mkState (mkDatabase ∅ ∅) ∅.

(** A catalog of two restaurants: menu item 10 and combo meal 20 belong
    to restaurant 1, menu item 11 to restaurant 2; order 3 is an order of
    restaurant 1. *)
Definition two_restaurants : catalog :=
  mkCatalog
    {[ 10%N := menu_items.mk 1%N 950; 11%N := menu_items.mk 2%N 700 ]}
    {[ 20%N := combo_meals.mk 1%N 1500 ]}
    {[ 3%N := order_25_50 pending (on_2025_08_11 12 0) ]}
    ∅.

(** A line of order 3 with the given references. *)
Definition line (menu_item_id combo_meal_id : option uuid) : order_items.row :=
  order_items.mk 3%N menu_item_id combo_meal_id 5%N 1 950 950.

(** C's order of 25.50, pending, and a run of transitions in which it is
    served and cancelled three times over and one call names no order. *)
Definition store_25_50 : database :=
  mkDatabase {[ 3%N := order_25_50 pending (on_2025_08_11 12 0) ]} only_C.


End Examples.

(* ===================================================================== *)
(** * The constraints of [orders] as properties of a store *)
(* ===================================================================== *)

Module Constraints.

(** [order_number text UNIQUE NOT NULL] *)
Definition order_numbers_unique (db : database) : Prop :=
  forall i j o o' n,
    orders_table db !! i = Some o -> orders_table db !! j = Some o' ->
    orders.order_number o = Some n -> orders.order_number o' = Some n ->
    i = j.

Definition order_numbers_not_null (db : database) : Prop :=
  forall i o, orders_table db !! i = Some o -> orders.order_number o <> None.

(** [customer_id uuid REFERENCES customers(id)] *)
Definition customer_references_resolve (db : database) : Prop :=
  forall i o c,
    orders_table db !! i = Some o -> orders.customer_id o = Some c ->
    is_Some (customers_table db !! c).

Definition consistent (db : database) : Prop :=
  order_numbers_unique db /\ order_numbers_not_null db /\ customer_references_resolve db.

End Constraints.

(* ===================================================================== *)
(** * Deleting a menu item ([menuService.ts], [ON DELETE SET NULL]) *)
(* ===================================================================== *)

Module MenuService.
Import Sql OrderItems.

(** The order items whose [menu_item_id] is [m], in the table's order. *)
Definition referencing_items (m : uuid) (t : gmap uuid order_items.row) : list uuid :=
  fst <$>
    List.filter
      (fun kv : uuid * order_items.row =>
         holds (sql_eq N.eqb (order_items.menu_item_id kv.2) (Some m)))
      (map_to_list t).

(** [SET menu_item_id = NULL], the referential action on an order item. *)
Definition SET_NULL_menu_item_id (r : order_items.row) : order_items.row :=
  order_items.mk (order_items.order_id r) None (order_items.combo_meal_id r)
    (order_items.revenue_center_id r) (order_items.quantity r)
    (order_items.unit_price r) (order_items.total_price r).

(** [DELETE FROM menu_items WHERE id = m]. [order_items.menu_item_id] is
    declared [REFERENCES menu_items(id) ON DELETE SET NULL]: once the row
    is gone, each order item that referred to it is updated to a NULL
    reference, an [UPDATE] of [order_items] like any other, with its
    trigger and constraints; if one of them fails, the whole statement
    fails. *)
Definition DELETE_menu_items (m : uuid) (c : catalog) : result catalog :=
  match menu_items_table c !! m with
  | None => Ok c
  | Some _ =>
      fold_left
        (fun acc k => c' ← acc; UPDATE_order_items k SET_NULL_menu_item_id c')
        (referencing_items m (order_items_table c))
        (Ok (mkCatalog (delete m (menu_items_table c)) (combo_meals_table c)
               (orders_of_items c) (order_items_table c)))
  end.

(** [MenuService.deleteMenuItem(id)] *)
Definition deleteMenuItem (id : uuid) (c : catalog) : result catalog :=
  DELETE_menu_items id c.

(** An order item that refers to exactly one of a menu item and a combo
    meal, which exists and belongs to the restaurant of the item's
    order. *)
Definition well_referenced (c : catalog) (r : order_items.row) : Prop :=
  exists o, orders_of_items c !! order_items.order_id r = Some o /\
    ((exists m item,
        order_items.menu_item_id r = Some m /\ order_items.combo_meal_id r = None /\
        menu_items_table c !! m = Some item /\
        menu_items.restaurant_id item = orders.restaurant_id o) \/
     (exists m meal,
        order_items.menu_item_id r = None /\ order_items.combo_meal_id r = Some m /\
        combo_meals_table c !! m = Some meal /\
        combo_meals.restaurant_id meal = orders.restaurant_id o)).

Definition items_well_referenced (c : catalog) : Prop :=
  forall k r, order_items_table c !! k = Some r -> well_referenced c r.

End MenuService.

(* ===================================================================== *)
(** * Finding or creating a customer ([customerService.ts]) *)
(* ===================================================================== *)

Module CustomerLookup.
Import Sql Statements.

(** [customerInfo: { name?: string; email?: string; phone?: string }] *)
Record customerInfo : Set := mkCustomerInfo {
  name : option string;
  email : option string;
  phone : option string
}.

(** A JavaScript string value in a condition: [undefined], [null] and the
    empty string are falsy. *)
Definition truthy (s : option string) : bool :=
  match s with
  | Some s => negb (String.eqb s EmptyString)
  | None => false
  end.

(** [.eq('restaurant_id', restaurantId).eq(column, value)] *)
Definition of_restaurant_with (column : customers.row -> option string)
    (restaurantId : uuid) (value : string) (c : customers.row) : bool :=
  holds (sql_and (Some (N.eqb (customers.restaurant_id c) restaurantId))
                 (sql_eq String.eqb (column c) (Some value))).

(** [getCustomerByEmail] and [getCustomerByPhone]: [.single()] answers
    with the error PGRST116 unless exactly one row matches, and that
    error is turned into [null]. *)
Definition getCustomerByEmail (restaurantId : uuid) (email : string)
    (db : database) : option (uuid * customers.row) :=
  Provisioning.single
    (List.filter (fun kv => of_restaurant_with customers.email restaurantId email kv.2)
       (map_to_list (customers_table db))).

Definition getCustomerByPhone (restaurantId : uuid) (phone : string)
    (db : database) : option (uuid * customers.row) :=
  Provisioning.single
    (List.filter (fun kv => of_restaurant_with customers.phone restaurantId phone kv.2)
       (map_to_list (customers_table db))).

(** [if (info.x && !customer.x) updates.x = info.x] *)
Definition fill (given stored : option string) : option (option string) :=
  if truthy given && negb (truthy stored) then Some given else None.

(** [findOrCreateCustomer(restaurantId, customerInfo)]: the key of the
    customer it returns and the store it leaves. [id] is the key the
    store draws if a row is inserted. *)
Definition findOrCreateCustomer (now : timestamptz) (id : uuid) (restaurantId : uuid)
    (info : customerInfo) (db : database) : result (uuid * database) :=
  let customer :=
    if truthy (email info)
    then getCustomerByEmail restaurantId (default EmptyString (email info)) db
    else None in
  let customer :=
    match customer with
    | Some c => Some c
    | None =>
        if truthy (phone info)
        then getCustomerByPhone restaurantId (default EmptyString (phone info)) db
        else None
    end in
  match customer with
  | None =>
      db' ← CustomerService.createCustomer now id
               (CustomerService.mkCreateCustomerData restaurantId
                  (name info) (email info) (phone info)) db;
      Ok (id, db')
  | Some (k, c) =>
      if truthy (name info) || truthy (email info) || truthy (phone info)
      then
        let updates :=
          customers_changes.mk (fill (name info) (customers.name c))
            (fill (email info) (customers.email c))
            (fill (phone info) (customers.phone c)) None None None in
        match customers_changes.name updates, customers_changes.email updates,
              customers_changes.phone updates with
        | None, None, None => Ok (k, db)
        | _, _, _ =>
            db' ← CustomerService.updateCustomer now k updates db;
            Ok (k, db')
        end
      else Ok (k, db)
  end.

End CustomerLookup.

(* ===================================================================== *)
(** * Writing opening hours ([businessHoursService.ts]) *)
(* ===================================================================== *)

Module BusinessHoursWrites.
Import Sql BusinessHours.

(** [CHECK (day_of_week >= 0 AND day_of_week <= 6)] and
    [UNIQUE(revenue_center_id, day_of_week)] on a row about to be
    stored. *)
Definition business_hours_constraints (NEW : business_hours.row)
    (table : gmap uuid business_hours.row) : result unit :=
  if negb ((0 <=? business_hours.day_of_week NEW) && (business_hours.day_of_week NEW <=? 6))
  then Err (check_violation "business_hours_day_of_week_check")
  else
    match SELECT_hours (business_hours.revenue_center_id NEW)
            (business_hours.day_of_week NEW) table with
    | [] => Ok ()
    | _ :: _ => Err (unique_violation "business_hours_revenue_center_id_day_of_week_key")
    end.

(** [INSERT INTO business_hours] of one row under the key [id]. *)
Definition INSERT_business_hours (id : uuid) (NEW : business_hours.row)
    (table : gmap uuid business_hours.row) : result (gmap uuid business_hours.row) :=
  match table !! id with
  | Some _ => Err (unique_violation "business_hours_pkey")
  | None =>
      _ ← business_hours_constraints NEW table;
      Ok (<[id := NEW]> table)
  end.

(** [createBusinessHours(hoursData)]: one [INSERT] of all the rows, in
    their order; the store draws the key [keys i] for the [i]-th row. The
    statement stores every row or, when one of them is refused, none. *)
Fixpoint createBusinessHours (keys : nat -> uuid) (hoursData : list business_hours.row)
    (table : gmap uuid business_hours.row) : result (gmap uuid business_hours.row) :=
  match hoursData with
  | [] => Ok table
  | hour :: rest =>
      table' ← INSERT_business_hours (keys 0%nat) hour table;
      createBusinessHours (fun i => keys (S i)) rest table'
  end.

(** [for (let day = 0; day < 7; day++)] *)
Definition days : list Z := [0; 1; 2; 3; 4; 5; 6].

(** [initializeBusinessHours(restaurantId, revenueCenterIds)]: for each
    centre and each day of the week the hours 09:00 to 22:00, not closed.
    [restaurantId] goes into a column that the evaluators do not read. *)
Definition initializeBusinessHours (keys : nat -> uuid) (restaurantId : uuid)
    (revenueCenterIds : list uuid) (table : gmap uuid business_hours.row)
  : result (gmap uuid business_hours.row) :=
  let defaultHours :=
    flat_map
      (fun centerId =>
         (fun day => business_hours.mk centerId day (Some (Clock.hhmm 9 0))
                       (Some (Clock.hhmm 22 0)) (Some false)) <$> days)
      revenueCenterIds in
  createBusinessHours keys defaultHours table.

(** [.order('day_of_week')] *)
Definition by_day_of_week (a b : business_hours.row) : Prop :=
  business_hours.day_of_week a <= business_hours.day_of_week b.

#[global] Instance by_day_of_week_dec : RelDecision by_day_of_week :=
  fun a b => Z_le_dec (business_hours.day_of_week a) (business_hours.day_of_week b).

(** [getBusinessHoursByRevenueCenter(revenueCenterId)]:
    [.eq('revenue_center_id', revenueCenterId).order('day_of_week')] *)
Definition getBusinessHoursByRevenueCenter (revenueCenterId : uuid)
    (table : gmap uuid business_hours.row) : list business_hours.row :=
  merge_sort by_day_of_week
    (List.filter (fun h => N.eqb (business_hours.revenue_center_id h) revenueCenterId)
       (snd <$> map_to_list table)).

(** [copyHoursToRevenueCenter(fromCenterId, toCenterId, restaurantId)]:
    the hours of the source are read, the hours of the target deleted
    (the outcome of the delete is not looked at), and a copy of each
    source row stored for the target. *)
Definition copyHoursToRevenueCenter (keys : nat -> uuid) (fromCenterId toCenterId : uuid)
    (restaurantId : uuid) (table : gmap uuid business_hours.row)
  : result (gmap uuid business_hours.row) :=
  let sourceHours := getBusinessHoursByRevenueCenter fromCenterId table in
  let table' :=
    filter (fun kv => business_hours.revenue_center_id kv.2 <> toCenterId) table in
  let newHours :=
    (fun hour =>
       business_hours.mk toCenterId (business_hours.day_of_week hour)
         (business_hours.open_time hour) (business_hours.close_time hour)
         (business_hours.is_closed hour)) <$> sourceHours in
  createBusinessHours keys newHours table'.

End BusinessHoursWrites.

(* ===================================================================== *)
(** * Texts of times of day, compared as the client compares them *)
(* ===================================================================== *)

Module TimeTexts.

(** Two numbers below 100, written in two digits, compare as texts the
    way they compare as numbers. *)
Definition two_digits_compare (a b : nat) : bool :=
  match Clock.zero_padded 2 (Z.of_nat a), Clock.zero_padded 2 (Z.of_nat b) with
  | String x (String y EmptyString), String x' (String y' EmptyString) =>
      match (match Ascii.compare x x' with Eq => Ascii.compare y y' | ne => ne end),
            (Z.of_nat a ?= Z.of_nat b) with
      | Eq, Eq | Lt, Lt | Gt, Gt => true
      | _, _ => false
      end
  | _, _ => false
  end.

(** The minute of the day a time of day falls in. *)
Definition minute_of (t : Z) : Z := t / Clock.usec_per_minute.

End TimeTexts.

(* ===================================================================== *)
(** * Further worked examples *)
(* ===================================================================== *)

Module MoreExamples.

(** Restaurant 1 has stored its first order of 2025-08-11; restaurant 2
    sends its own first order of the day, without a number. *)
Definition one_order_of_restaurant_1 : database :=
  mkDatabase (Examples.orders_at_noon 1) ∅.

Definition first_order_of_restaurant_2 : orders.row :=
  orders.mk 2%N None None (Some pending) 1800
    (Some (Examples.on_2025_08_11 12 5)) (Some (Examples.on_2025_08_11 12 5)).

(** A platform with no owner, account or user. *)
Definition empty_platform : platform := mkPlatform ∅ ∅ ∅.

(** The request of [Examples.provision_again] with a subscription amount
    of zero. *)
Definition provision_for_free : Provisioning.Request :=
  Provisioning.mkHttp "POST"
    (Some (Provisioning.mkRequest (Some "owner@example.com") (Some "Olive Owner")
             (Some "basic") (Some "pay_1") (Some 0) (Some "2026-08-11T00:00:00Z"))).

(** A later request for owner@example.com, under another name and plan. *)
Definition provision_under_another_name : Provisioning.Request :=
  Provisioning.mkHttp "POST"
    (Some (Provisioning.mkRequest (Some "owner@example.com") (Some "Someone Else")
             (Some "premium") (Some "pay_2") (Some 9900)
             (Some "2027-01-01T00:00:00Z"))).

(** Customer N of restaurant 1, stored with NULL for [total_orders] and
    [total_spent] (both columns are nullable), and N's pending order of
    25.50. *)
Definition customer_N : customers.row :=
  customers.mk 1%N (Some "N") None None None None None None.

Definition store_of_N : database :=
  mkDatabase {[ 3%N := Examples.order_25_50 pending (Examples.on_2025_08_11 12 0) ]}
    {[ 7%N := customer_N ]}.

(** [UPDATE orders SET status = ...] *)
Definition SET_status (st : order_status) : Statements.orders_changes.t :=
  Statements.orders_changes.mk None None (Some (Some st)) None.

(** A caller who gives a name and an e-mail address, and no phone. *)
Definition dana : CustomerLookup.customerInfo :=
  CustomerLookup.mkCustomerInfo (Some "Dana") (Some "dana@example.com") None.

(** The catalog of two restaurants with one line of order 3 stored, for
    menu item 10. *)
Definition one_line_stored : catalog :=
  OrderItems.with_order_items Examples.two_restaurants
    {[ 1%N := Examples.line (Some 10%N) None ]}.

End MoreExamples.

(* ===================================================================== *)
(** * Theorems: payment aggregation *)
(* ===================================================================== *)

Section PaymentAggregation.
Import Payments.

Lemma rule_payment_status_nonempty (t : float) (p : payment) (ps : list payment) :
  rule_payment_status t (p :: ps)
  = if js_ge (sum_where (status_is completed) (p :: ps)) t then "completed"
    else if existsb (status_is completed) (p :: ps)
            && existsb (status_is pending) (p :: ps)
         then "partial"
    else "pending".
Proof. reflexivity. Qed.

(** C1, as stated, fails: the function never sees the order's total. For
    an order of 100.00 with a single completed payment of 40.00 the rule
    of the specification gives pending, the code gives completed. *)
Lemma calculateOrderPaymentStatus_ignores_order_total :
  calculateOrderPaymentStatus (Some [paid 40]) = "completed" /\
  rule_payment_status 100 [paid 40] = "pending" /\
  calculateOrderPaymentStatus (Some [paid 40]) <> rule_payment_status 100 [paid 40].
Proof. repeat split; vm_compute; (reflexivity || discriminate). Qed.

(** C1, amended: the derived status follows the stated rule with the sum
    of the amounts of all the payments of the list in the place of the
    order's total; an absent list is pending; the two worked examples
    (40 completed and 60 pending, then both completed) give partial and
    completed. *)
Theorem calculateOrderPaymentStatus_rule_on_payment_sum :
  (forall ps : list payment,
      calculateOrderPaymentStatus (Some ps)
      = rule_payment_status (reduce_amounts ps) ps) /\
  calculateOrderPaymentStatus None = "pending" /\
  calculateOrderPaymentStatus (Some [paid 40; owed 60]) = "partial" /\
  calculateOrderPaymentStatus (Some [paid 40; paid 60]) = "completed".
Proof.
  split.
  - intros [| p ps].
    + reflexivity.
    + rewrite rule_payment_status_nonempty. reflexivity.
  - repeat split; vm_compute; reflexivity.
Qed.

End PaymentAggregation.

(* ===================================================================== *)
(** * Theorems: SQL values *)
(* ===================================================================== *)

Import Sql.

Lemma Ok_inj {A : Type} (a b : A) : Ok a = Ok b -> a = b.
Proof. intros H. inversion H. reflexivity. Qed.

(** A statement that stored [c']: name the stored row. *)
Ltac stored :=
  let H := fresh "Hstored" in
  intros H; first [ discriminate H | apply Ok_inj in H; subst; cbn ].

Lemma result_bind_Ok {A : Type} (m : result A) : (m ≫= fun a => Ok a) = m.
Proof. destruct m; reflexivity. Qed.

Lemma int4_Ok (z r : Z) : int4 z = Ok r -> r = z /\ int4_min <= z <= int4_max.
Proof.
  unfold int4. destruct (int4_min <=? z) eqn:Hlo; destruct (z <=? int4_max) eqn:Hhi;
    simpl; intros H; inversion H; subst. lia.
Qed.

Lemma int4_in_range (z : Z) : int4_min <= z <= int4_max -> int4 z = Ok z.
Proof.
  intros [Hlo Hhi]. unfold int4.
  apply Z.leb_le in Hlo, Hhi. rewrite Hlo, Hhi. reflexivity.
Qed.


Lemma decimal_10_2_in_range (x : Z) :
  Z.abs x < decimal_10_2_limit -> decimal_10_2 (Some x) = Ok (Some x).
Proof. intros H. simpl. apply Z.ltb_lt in H. rewrite H. reflexivity. Qed.

(* ===================================================================== *)
(** * Theorems: customer statistics *)
(* ===================================================================== *)

Section CustomerStatistics.
Import Sql Triggers Rules.

(** What the first [SET] list stores. *)
Lemma SET_served_Ok (NEW : orders.row) (c c' : customers.row) (n s : Z) :
  customers.total_orders c = Some n ->
  customers.total_spent c = Some s ->
  SET_served NEW c = Ok c' ->
  aggregates c' = (Some (n + 1), Some (s + orders.total_amount NEW), orders.updated_at NEW).
Proof.
  intros Hn Hs. unfold SET_served. rewrite Hn, Hs. simpl.
  destruct (int4 (n + 1)) as [z |] eqn:Hz; simpl; [| discriminate].
  apply int4_Ok in Hz as [-> _].
  destruct (Z.abs (s + orders.total_amount NEW) <? decimal_10_2_limit); simpl;
    intros H; inversion H; reflexivity.
Qed.

(** What the second [SET] list stores. *)
Lemma SET_cancelled_Ok (NEW : orders.row) (c c' : customers.row) (n s : Z) :
  customers.total_orders c = Some n ->
  customers.total_spent c = Some s ->
  SET_cancelled NEW c = Ok c' ->
  aggregates c'
  = (Some (Z.max (n - 1) 0), Some (Z.max (s - orders.total_amount NEW) 0),
     customers.last_order_at c).
Proof.
  intros Hn Hs. unfold SET_cancelled. rewrite Hn, Hs. simpl.
  destruct (int4 (n - 1)) as [z |] eqn:Hz; simpl; [| discriminate].
  apply int4_Ok in Hz as [-> _].
  destruct (Z.abs (Z.max (s - orders.total_amount NEW) 0) <? decimal_10_2_limit); simpl;
    intros H; inversion H; reflexivity.
Qed.

(** An [UPDATE ... WHERE id] of an existing row replaces that row and no
    other. *)
Lemma UPDATE_customers_WHERE_id_Ok (now : timestamptz) (id : uuid)
    (set : customers.row -> result customers.row)
    (table table' : gmap uuid customers.row) (c : customers.row) :
  table !! id = Some c ->
  UPDATE_customers_WHERE_id now (Some id) set table = Ok table' ->
  exists c', set c = Ok c' /\
             table' = <[id := update_customers_updated_at now c']> table.
Proof.
  intros Hc. unfold UPDATE_customers_WHERE_id. rewrite Hc.
  destruct (set c) as [c' |]; simpl; intros H; inversion H.
  exists c'. split; reflexivity.
Qed.

Lemma aggregates_update_customers_updated_at (now : timestamptz) (c : customers.row) :
  aggregates (update_customers_updated_at now c) = aggregates c.
Proof. reflexivity. Qed.

(** The two [IF] blocks of [update_customer_stats], by kind of
    transition: at most one of them runs. *)
Lemma update_customer_stats_cases (now : timestamptz) (OLD NEW : orders.row)
    (table : gmap uuid customers.row) :
  update_customer_stats now OLD NEW table
  = match transition_of (orders.status OLD) (orders.status NEW) with
    | into_served =>
        UPDATE_customers_WHERE_id now (orders.customer_id NEW) (SET_served NEW) table
    | served_to_cancelled =>
        UPDATE_customers_WHERE_id now (orders.customer_id NEW) (SET_cancelled NEW) table
    | other_transition => Ok table
    end.
Proof.
  unfold update_customer_stats.
  destruct (orders.status OLD) as [[] |], (orders.status NEW) as [[] |];
    cbn [transition_of sql_and sql_or sql_eq sql_ne sql_not is_null holds
         order_status_eqb fmap option_fmap option_map negb];
    first [ reflexivity | apply result_bind_Ok ].
Qed.

(** The trigger on an order that refers to a customer whose aggregates
    are numbers: whenever it goes through, the customer's aggregates are
    those of the rule and no other customer changes; and it does go
    through while the sums stay within the column types. *)
Lemma update_customer_stats_trigger_by_transition
    (now : timestamptz) (OLD NEW : orders.row) (table : gmap uuid customers.row)
    (id : uuid) (c : customers.row) (n s : Z) :
  orders.customer_id NEW = Some id ->
  table !! id = Some c ->
  customers.total_orders c = Some n ->
  customers.total_spent c = Some s ->
  (forall table',
      update_customer_stats_trigger now OLD NEW table = Ok table' ->
      (exists c', table' !! id = Some c' /\
         aggregates c'
         = aggregates_after (transition_of (orders.status OLD) (orders.status NEW))
             (orders.total_amount NEW) (orders.updated_at NEW)
             n s (customers.last_order_at c)) /\
      (forall j, j <> id -> table' !! j = table !! j)) /\
  (int4_min < n < int4_max ->
   Z.abs s + Z.abs (orders.total_amount NEW) < decimal_10_2_limit ->
   exists table', update_customer_stats_trigger now OLD NEW table = Ok table').
Proof.
  intros Hid Hc Hn Hs.
  unfold update_customer_stats_trigger.
  rewrite update_customer_stats_cases, Hid.
  cbn [is_not_null holds].
  split.
  - intros table' H.
    destruct (transition_of (orders.status OLD) (orders.status NEW)).
    + destruct (UPDATE_customers_WHERE_id_Ok _ _ _ _ _ _ Hc H) as (c1 & Hset & ->).
      split.
      * exists (update_customers_updated_at now c1). split.
        -- apply lookup_insert_eq.
        -- rewrite aggregates_update_customers_updated_at.
           apply (SET_served_Ok _ _ _ _ _ Hn Hs Hset).
      * intros j Hj. apply lookup_insert_ne. congruence.
    + destruct (UPDATE_customers_WHERE_id_Ok _ _ _ _ _ _ Hc H) as (c1 & Hset & ->).
      split.
      * exists (update_customers_updated_at now c1). split.
        -- apply lookup_insert_eq.
        -- rewrite aggregates_update_customers_updated_at.
           apply (SET_cancelled_Ok _ _ _ _ _ Hn Hs Hset).
      * intros j Hj. apply lookup_insert_ne. congruence.
    + inversion H; subst table'. split; [| reflexivity].
      exists c. split; [assumption |].
      unfold aggregates, aggregates_after. rewrite Hn, Hs. reflexivity.
  - intros Hrange Hmoney.
    unfold UPDATE_customers_WHERE_id. rewrite Hc.
    destruct (transition_of (orders.status OLD) (orders.status NEW)).
    + unfold SET_served. rewrite Hn, Hs. cbn [int4_add numeric_add].
      rewrite int4_in_range by (unfold int4_min, int4_max in *; lia).
      rewrite decimal_10_2_in_range by lia.
      eexists. reflexivity.
    + unfold SET_cancelled. rewrite Hn, Hs. cbn [int4_sub numeric_sub GREATEST].
      rewrite int4_in_range by (unfold int4_min, int4_max in *; lia).
      rewrite decimal_10_2_in_range by lia.
      eexists. reflexivity.
    + eexists. reflexivity.
Qed.

(** C2, as stated, fails: [total_orders] and [total_spent] are nullable
    columns, and [NULL + 1] is [NULL]. The pending order of customer N,
    whose aggregates are NULL, is updated to served: the update goes
    through, [last_order_at] is set, and [total_orders] and [total_spent]
    are NULL as before, not incremented. *)
Lemma NULL_aggregates_are_not_incremented :
  (aggregates <$> customers_table MoreExamples.store_of_N !! 7%N)
  = Some (None, None, None) /\
  exists db',
    Statements.UPDATE_orders (Examples.on_2025_08_11 12 30) 3%N
      (MoreExamples.SET_status served) MoreExamples.store_of_N = Ok db' /\
    (orders.status <$> orders_table db' !! 3%N) = Some (Some served) /\
    (aggregates <$> customers_table db' !! 7%N)
    = Some (None, None, Some (Examples.on_2025_08_11 12 30)).
Proof.
  split; [vm_compute; reflexivity |].
  eexists. split; [vm_compute; reflexivity |].
  split; vm_compute; reflexivity.
Qed.

(** C2, amended. An [UPDATE] of an order whose row, as updated, refers to
    a customer whose [total_orders] and [total_spent] are not NULL:
    whenever the update goes through, the customer's aggregates are those
    of the rule (plus one order, plus the order's total, last order at
    the update time when the status enters served; minus one and minus
    the total, each floored at zero, when it goes from served to
    cancelled; unchanged otherwise) and no other customer changes; and
    the update does go through when the order's own constraints hold and
    the sums stay within the column types. *)
Theorem UPDATE_orders_moves_customer_stats
    (now : timestamptz) (orderId : uuid) (updates : Statements.orders_changes.t)
    (db : database) (OLD : orders.row) (id : uuid) (c : customers.row) (n s : Z) :
  orders_table db !! orderId = Some OLD ->
  orders.customer_id (Statements.SET_orders updates OLD) = Some id ->
  customers_table db !! id = Some c ->
  customers.total_orders c = Some n ->
  customers.total_spent c = Some s ->
  (forall db',
      Statements.UPDATE_orders now orderId updates db = Ok db' ->
      orders_table db' !! orderId
      = Some (update_orders_updated_at now (Statements.SET_orders updates OLD)) /\
      (exists c', customers_table db' !! id = Some c' /\
         aggregates c'
         = aggregates_after
             (transition_of (orders.status OLD)
                (orders.status (Statements.SET_orders updates OLD)))
             (orders.total_amount (Statements.SET_orders updates OLD)) (Some now)
             n s (customers.last_order_at c)) /\
      (forall j, j <> id -> customers_table db' !! j = customers_table db !! j)) /\
  (Statements.orders_constraints orderId
     (update_orders_updated_at now (Statements.SET_orders updates OLD)) db = Ok () ->
   int4_min < n < int4_max ->
   Z.abs s + Z.abs (orders.total_amount (Statements.SET_orders updates OLD))
     < decimal_10_2_limit ->
   exists db', Statements.UPDATE_orders now orderId updates db = Ok db').
Proof.
  intros Hold Hid Hc Hn Hs.
  unfold Statements.UPDATE_orders. rewrite Hold. cbv zeta.
  set (NEW := update_orders_updated_at now (Statements.SET_orders updates OLD)).
  assert (Hid' : orders.customer_id NEW = Some id) by exact Hid.
  destruct (update_customer_stats_trigger_by_transition now OLD NEW (customers_table db)
              id c n s Hid' Hc Hn Hs) as [Hsound Hlive].
  split.
  - intros db'.
    destruct (Statements.orders_constraints orderId NEW db) as [[] | e];
      cbn [mbind result_bind]; [| discriminate].
    cbn [customers_table Statements.with_orders].
    destruct (update_customer_stats_trigger now OLD NEW (customers_table db))
      as [table |] eqn:Htrig; cbn [mbind result_bind]; [| discriminate].
    intros H. apply Ok_inj in H. subst db'.
    destruct (Hsound table eq_refl) as [Hagg Hothers].
    cbn [orders_table customers_table Statements.with_customers Statements.with_orders].
    split; [apply lookup_insert_eq |]. split; [exact Hagg | exact Hothers].
  - intros Hcons Hrange Hmoney. rewrite Hcons. cbn [mbind result_bind].
    cbn [customers_table Statements.with_orders].
    destruct (Hlive Hrange Hmoney) as [table Htrig]. rewrite Htrig.
    cbn [mbind result_bind]. eexists. reflexivity.
Qed.

(** The worked example of C2: from no order and 0.00 spent, the order of
    25.50 updated from pending to served gives one order and 25.50, and
    the same order updated from served to cancelled gives no order and
    0.00. *)
Lemma UPDATE_orders_moves_customer_stats_example :
  exists db1 db2,
    Statements.UPDATE_orders (Examples.on_2025_08_11 12 30) 3%N
      (MoreExamples.SET_status served) Examples.store_25_50 = Ok db1 /\
    (aggregates <$> customers_table db1 !! 7%N)
    = Some (Some 1, Some 2550, Some (Examples.on_2025_08_11 12 30)) /\
    Statements.UPDATE_orders (Examples.on_2025_08_11 13 0) 3%N
      (MoreExamples.SET_status cancelled) db1 = Ok db2 /\
    (aggregates <$> customers_table db2 !! 7%N)
    = Some (Some 0, Some 0, Some (Examples.on_2025_08_11 12 30)).
Proof.
  destruct (UPDATE_orders_moves_customer_stats (Examples.on_2025_08_11 12 30) 3%N
              (MoreExamples.SET_status served) Examples.store_25_50
              (Examples.order_25_50 pending (Examples.on_2025_08_11 12 0))
              7%N Examples.customer_C 0 0
              (lookup_singleton_eq _ _) eq_refl (lookup_singleton_eq _ _) eq_refl eq_refl)
    as [Hsound1 Hlive1].
  destruct Hlive1 as [db1 H1];
    [vm_compute; reflexivity | unfold int4_min, int4_max; lia | vm_compute; reflexivity |].
  destruct (Hsound1 db1 H1) as (Ho1 & (c1 & Hc1 & Ha1) & _).
  cbn in Ha1.
  destruct (UPDATE_orders_moves_customer_stats (Examples.on_2025_08_11 13 0) 3%N
              (MoreExamples.SET_status cancelled) db1 _ 7%N c1 1 2550
              Ho1 eq_refl Hc1
              (f_equal (fun a => fst (fst a)) Ha1)
              (f_equal (fun a => snd (fst a)) Ha1))
    as [Hsound2 Hlive2].
  assert (H2 : exists db2,
             Statements.UPDATE_orders (Examples.on_2025_08_11 13 0) 3%N
               (MoreExamples.SET_status cancelled) db1 = Ok db2).
  { apply Hlive2.
    - vm_compute in H1. apply Ok_inj in H1. subst db1. vm_compute. reflexivity.
    - unfold int4_min, int4_max. lia.
    - vm_compute. reflexivity. }
  destruct H2 as [db2 H2].
  destruct (Hsound2 db2 H2) as (_ & (c2 & Hc2 & Ha2) & _).
  cbn in Ha2. rewrite (f_equal snd Ha1 : customers.last_order_at c1 = _) in Ha2.
  exists db1, db2.
  split; [exact H1 |]. split; [rewrite Hc1; cbn; rewrite Ha1; reflexivity |].
  split; [exact H2 |]. rewrite Hc2. cbn. rewrite Ha2. reflexivity.
Defined.












End CustomerStatistics.

(* ===================================================================== *)
(** * Theorems: order creation and the customer aggregates *)
(* ===================================================================== *)

Section OrderCreation.
Import Sql Triggers Statements Rules.

Lemma set_order_number_keeps (tz : Z) (now : timestamptz) (NEW NEW' : orders.row)
    (table : gmap uuid orders.row) :
  set_order_number tz now NEW table = Ok NEW' ->
  orders.status NEW' = orders.status NEW /\
  orders.customer_id NEW' = orders.customer_id NEW /\
  orders.total_amount NEW' = orders.total_amount NEW.
Proof.
  unfold set_order_number.
  destruct (holds _).
  - destruct (generate_order_number tz now (orders.restaurant_id NEW) table); cbn;
      stored; auto.
  - stored. auto.
Qed.

(** C10. An insert into [orders] that goes through stores the row, with
    the status and the customer reference it was given, and leaves the
    [customers] table, hence every customer's total_orders, total_spent
    and last_order_at, exactly as it was: no trigger of [orders] on
    INSERT touches [customers]. *)
Theorem INSERT_orders_leaves_customers (tz : Z) (now : timestamptz) (id : uuid)
    (NEW : orders.row) (db db' : database) :
  INSERT_orders tz now id NEW db = Ok db' ->
  customers_table db' = customers_table db /\
  exists NEW', orders_table db' !! id = Some NEW' /\
               orders.status NEW' = orders.status NEW /\
               orders.customer_id NEW' = orders.customer_id NEW.
Proof.
  unfold INSERT_orders, store_orders_row.
  destruct (set_order_number tz now NEW (orders_table db)) as [NEW' |] eqn:Hnum;
    cbn [mbind result_bind]; [| discriminate].
  destruct (orders_table db !! id); [discriminate |].
  destruct (orders_constraints id NEW' db) as [[] |]; cbn [mbind result_bind];
    [| discriminate].
  stored. split; [reflexivity |].
  exists NEW'. split; [apply lookup_insert_eq |].
  destruct (set_order_number_keeps tz now NEW NEW' _ Hnum) as (Hs & Hc & _).
  split; assumption.
Qed.

(** C10 on an order that is already served when it is inserted for
    customer C: the insert goes through, and C still has no order, 0.00
    spent and no last order. *)
Lemma INSERT_orders_served_example :
  exists db',
    INSERT_orders 0 (Examples.on_2025_08_11 12 0) 3%N Examples.new_served_order
      Examples.store_of_C = Ok db' /\
    (orders.status <$> orders_table db' !! 3%N) = Some (Some served) /\
    (aggregates <$> customers_table db' !! 7%N) = Some (Some 0, Some 0, None).
Proof.
  destruct (INSERT_orders 0 (Examples.on_2025_08_11 12 0) 3%N Examples.new_served_order
              Examples.store_of_C) as [db' |] eqn:Hins;
    [| vm_compute in Hins; discriminate Hins].
  exists db'. split; [reflexivity |].
  destruct (INSERT_orders_leaves_customers _ _ _ _ _ _ Hins)
    as (Hcust & NEW' & Hrow & Hstatus & _).
  split.
  - rewrite Hrow. cbn. rewrite Hstatus. reflexivity.
  - rewrite Hcust. vm_compute. reflexivity.
Defined.

End OrderCreation.

(* ===================================================================== *)
(** * Theorems: who writes the customer aggregates *)
(* ===================================================================== *)

Section AggregateWriters.
Import Triggers Statements Rules Requests.









End AggregateWriters.

(* ===================================================================== *)
(** * Theorems: order item validation *)
(* ===================================================================== *)

Section OrderItemValidation.
Import OrderItems.

Lemma validate_order_item_returns_NEW (NEW r : order_items.row) (c : catalog) :
  validate_order_item NEW c = Ok r -> r = NEW.
Proof.
  unfold validate_order_item.
  destruct (holds _); [discriminate |].
  destruct (order_items.menu_item_id NEW) as [m |];
    [destruct (negb _); cbn [mbind result_bind]; [discriminate |] | cbn [mbind result_bind]];
    (destruct (order_items.combo_meal_id NEW) as [k |];
     [destruct (negb _); cbn [mbind result_bind]; [discriminate |] | cbn [mbind result_bind]]);
    intros H; apply Ok_inj in H; congruence.
Qed.

(** C5. Writing an order item with both references or with neither fails
    with a ValidationError; with exactly one reference whose menu item or
    combo meal belongs to another restaurant than the order, it fails
    with a ReferentialError. The validation runs before the row is
    stored: when it fails, the INSERT or UPDATE fails with the same
    error; when the write goes through, the validated row is stored as
    given and nothing else of the catalog changes. *)
Theorem validate_order_item_rejects (NEW : order_items.row) (c : catalog) :
  (order_items.menu_item_id NEW <> None /\ order_items.combo_meal_id NEW <> None ->
   fails_with (validate_order_item NEW c) = Some ValidationError) /\
  (order_items.menu_item_id NEW = None /\ order_items.combo_meal_id NEW = None ->
   fails_with (validate_order_item NEW c) = Some ValidationError) /\
  (forall m item o,
      order_items.menu_item_id NEW = Some m ->
      order_items.combo_meal_id NEW = None ->
      menu_items_table c !! m = Some item ->
      orders_of_items c !! order_items.order_id NEW = Some o ->
      menu_items.restaurant_id item <> orders.restaurant_id o ->
      fails_with (validate_order_item NEW c) = Some ReferentialError) /\
  (forall m meal o,
      order_items.menu_item_id NEW = None ->
      order_items.combo_meal_id NEW = Some m ->
      combo_meals_table c !! m = Some meal ->
      orders_of_items c !! order_items.order_id NEW = Some o ->
      combo_meals.restaurant_id meal <> orders.restaurant_id o ->
      fails_with (validate_order_item NEW c) = Some ReferentialError) /\
  (forall id e,
      validate_order_item NEW c = Err e ->
      INSERT_order_items id NEW c = Err e) /\
  (forall id set OLD e,
      order_items_table c !! id = Some OLD ->
      NEW = set OLD ->
      validate_order_item NEW c = Err e ->
      UPDATE_order_items id set c = Err e) /\
  (forall id c',
      INSERT_order_items id NEW c = Ok c' ->
      validate_order_item NEW c = Ok NEW /\
      c' = with_order_items c (<[id := NEW]> (order_items_table c))).
Proof.
  repeat apply conj.
  - intros [Hm Hk]. unfold validate_order_item.
    destruct (order_items.menu_item_id NEW), (order_items.combo_meal_id NEW);
      try congruence.
    reflexivity.
  - intros [Hm Hk]. unfold validate_order_item. rewrite Hm, Hk. reflexivity.
  - intros m item o Hm Hk Hitem Ho Hne. unfold validate_order_item.
    rewrite Hm, Hk, Hitem, Ho. cbn.
    destruct (N.eqb_spec (menu_items.restaurant_id item) (orders.restaurant_id o));
      [contradiction | reflexivity].
  - intros m meal o Hm Hk Hmeal Ho Hne. unfold validate_order_item.
    rewrite Hm, Hk, Hmeal, Ho. cbn.
    destruct (N.eqb_spec (combo_meals.restaurant_id meal) (orders.restaurant_id o));
      [contradiction | reflexivity].
  - intros id e He. unfold INSERT_order_items. rewrite He. reflexivity.
  - intros id set OLD e Hold -> He. unfold UPDATE_order_items. rewrite Hold, He.
    reflexivity.
  - intros id c'. unfold INSERT_order_items.
    destruct (validate_order_item NEW c) as [r |] eqn:Hv; cbn [mbind result_bind];
      [| discriminate].
    apply validate_order_item_returns_NEW in Hv as ->.
    destruct (order_items_table c !! id); [discriminate |].
    destruct (order_items_constraints NEW c) as [[] |]; cbn [mbind result_bind];
      [| discriminate].
    stored. split; reflexivity.
Qed.

(** C5 on order 3 of restaurant 1: both references, no reference, a menu
    item of restaurant 2, and a menu item of restaurant 1 that is
    accepted and stored as given. *)
Lemma validate_order_item_example :
  fails_with (validate_order_item (Examples.line (Some 10%N) (Some 20%N))
                Examples.two_restaurants) = Some ValidationError /\
  fails_with (validate_order_item (Examples.line None None)
                Examples.two_restaurants) = Some ValidationError /\
  fails_with (validate_order_item (Examples.line (Some 11%N) None)
                Examples.two_restaurants) = Some ReferentialError /\
  INSERT_order_items 1%N (Examples.line (Some 11%N) None) Examples.two_restaurants
  = Err (raise_exception menu_item_elsewhere) /\
  INSERT_order_items 1%N (Examples.line (Some 10%N) None) Examples.two_restaurants
  = Ok (with_order_items Examples.two_restaurants
          {[ 1%N := Examples.line (Some 10%N) None ]}).
Proof.
  pose proof (validate_order_item_rejects (Examples.line (Some 10%N) (Some 20%N))
                Examples.two_restaurants) as (Hboth & _).
  pose proof (validate_order_item_rejects (Examples.line None None)
                Examples.two_restaurants) as (_ & Hneither & _).
  pose proof (validate_order_item_rejects (Examples.line (Some 11%N) None)
                Examples.two_restaurants) as (_ & _ & Helsewhere & _ & Hinsert & _).
  split; [| split; [| split; [| split]]].
  - apply Hboth. split; cbn; discriminate.
  - apply Hneither. split; reflexivity.
  - apply (Helsewhere 11%N (menu_items.mk 2%N 700)
             (Examples.order_25_50 pending (Examples.on_2025_08_11 12 0)));
      try reflexivity.
    cbn. discriminate.
  - apply Hinsert. vm_compute. reflexivity.
  - vm_compute. reflexivity.
Defined.

End OrderItemValidation.

(* ===================================================================== *)
(** * Theorems: opening hours *)
(* ===================================================================== *)

Section OpeningHours.
Import BusinessHours.

Lemma filter_none {A : Type} (f : A -> bool) (l : list A) :
  (forall x, x ∈ l -> f x = false) -> List.filter f l = [].
Proof.
  induction l as [| x l IH]; intros H; [reflexivity |].
  cbn. rewrite (H x) by apply list_elem_of_here.
  apply IH. intros y Hy. apply H. apply list_elem_of_further. exact Hy.
Qed.

(** Among rows with distinct keys, if one key alone passes a filter on
    the rows, the filter returns exactly that row. *)
Lemma filter_only {V : Type} (f : V -> bool) (l : list (uuid * V)) (k : uuid) (h : V) :
  NoDup (l.*1) ->
  (k, h) ∈ l ->
  f h = true ->
  (forall k' h', (k', h') ∈ l -> f h' = true -> k' = k) ->
  List.filter f (l.*2) = [h].
Proof.
  induction l as [| [k0 h0] l IH]; intros Hnd Hin Hf Honly.
  - inversion Hin.
  - cbn in Hnd. apply NoDup_cons in Hnd as [Hfresh Hnd].
    apply elem_of_cons in Hin as [Heq | Hin].
    + injection Heq as <- <-. cbn. rewrite Hf. f_equal.
      apply filter_none. intros x Hx.
      apply list_elem_of_fmap in Hx as ([k' h'] & -> & Hx). cbn.
      destruct (f h') eqn:Hfh'; [| reflexivity].
      exfalso. apply Hfresh.
      rewrite <- (Honly k' h' (list_elem_of_further _ _ _ Hx) Hfh').
      apply list_elem_of_fmap. exists (k', h'). split; [reflexivity | exact Hx].
    + assert (Hf0 : f h0 = false).
      { destruct (f h0) eqn:Hfh0; [| reflexivity].
        exfalso. apply Hfresh.
        rewrite (Honly k0 h0 (list_elem_of_here _ _) Hfh0).
        apply list_elem_of_fmap. exists (k, h). split; [reflexivity | exact Hin]. }
      cbn. rewrite Hf0. apply IH; try assumption.
      intros k' h' Hin' Hf'. apply (Honly k' h'); [| assumption].
      apply list_elem_of_further. exact Hin'.
Qed.

Lemma SELECT_hours_the_row (center : uuid) (dow : Z)
    (table : gmap uuid business_hours.row) (k : uuid) (h : business_hours.row) :
  unique_center_day table ->
  table !! k = Some h ->
  business_hours.revenue_center_id h = center ->
  business_hours.day_of_week h = dow ->
  SELECT_hours center dow table = [h].
Proof.
  intros Huniq Hk Hc Hd. unfold SELECT_hours.
  apply (filter_only (for_center_day center dow) (map_to_list table) k h).
  - apply NoDup_fst_map_to_list.
  - apply elem_of_map_to_list. exact Hk.
  - unfold for_center_day. rewrite Hc, Hd, N.eqb_refl, Z.eqb_refl. reflexivity.
  - intros k' h' Hin Hf. apply elem_of_map_to_list in Hin.
    unfold for_center_day in Hf. apply andb_true_iff in Hf as [Hc' Hd'].
    apply N.eqb_eq in Hc'. apply Z.eqb_eq in Hd'.
    apply (Huniq k' k h' h Hin Hk); congruence.
Qed.

Lemma SELECT_hours_no_row (center : uuid) (dow : Z)
    (table : gmap uuid business_hours.row) :
  (forall k h, table !! k = Some h ->
     ~ (business_hours.revenue_center_id h = center /\ business_hours.day_of_week h = dow)) ->
  SELECT_hours center dow table = [].
Proof.
  intros Hno. unfold SELECT_hours. apply filter_none. intros h Hin.
  apply list_elem_of_fmap in Hin as ([k h'] & -> & Hin). cbn.
  apply elem_of_map_to_list in Hin. unfold for_center_day.
  destruct (N.eqb_spec (business_hours.revenue_center_id h') center) as [Hc |];
    [| reflexivity].
  destruct (Z.eqb_spec (business_hours.day_of_week h') dow) as [Hd |];
    [| reflexivity].
  exfalso. apply (Hno k h' Hin). split; assumption.
Qed.



(** C6. On the worked example (hours 22:00 to 02:00 on Monday) the rule
    of the specification and the client-side evaluator answer alike: open
    at 23:30, closed at 10:00, open at 02:00. At the boundaries the
    client-side evaluator, which compares the text [HH:MM] of the clock
    with the text [HH:MM:SS] of the stored times, leaves the rule: with
    hours 09:00 to 22:00 the rule gives closed at 22:00:30 and open at
    09:00:00, the evaluator answers open at 22:00:30 and closed at
    09:00:00; and with the overnight hours it answers closed at 22:00:00,
    the opening time itself. *)
Theorem isRevenueCenterOpen_misses_the_boundaries :
  (* 2025-08-11 is a Monday *)
  Clock.DOW 0 (Examples.monday 0 0 0) = weekday_number Monday /\
  (* the worked example, by the rule *)
  rule_open (Examples.overnight_hours !! 9%N) (Clock.time_of 0 (Examples.monday 23 30 0))
  = true /\
  rule_open (Examples.overnight_hours !! 9%N) (Clock.time_of 0 (Examples.monday 10 0 0))
  = false /\
  rule_open (Examples.overnight_hours !! 9%N) (Clock.time_of 0 (Examples.monday 2 0 0))
  = true /\
  (* the worked example, client side *)
  isRevenueCenterOpen 0 0 5%N (Some (Examples.monday_Date 23 30 0))
    Examples.overnight_hours = true /\
  isRevenueCenterOpen 0 0 5%N (Some (Examples.monday_Date 10 0 0))
    Examples.overnight_hours = false /\
  isRevenueCenterOpen 0 0 5%N (Some (Examples.monday_Date 2 0 0))
    Examples.overnight_hours = true /\
  (* thirty seconds after closing time *)
  rule_open (Examples.day_hours !! 9%N) (Clock.time_of 0 (Examples.monday 22 0 30)) = false /\
  isRevenueCenterOpen 0 0 5%N (Some (Examples.monday_Date 22 0 30))
    Examples.day_hours = true /\
  (* at opening time *)
  rule_open (Examples.day_hours !! 9%N) (Clock.time_of 0 (Examples.monday 9 0 0)) = true /\
  isRevenueCenterOpen 0 0 5%N (Some (Examples.monday_Date 9 0 0))
    Examples.day_hours = false /\
  (* at the opening time of the overnight span *)
  rule_open (Examples.overnight_hours !! 9%N) (Clock.time_of 0 (Examples.monday 22 0 0))
  = true /\
  isRevenueCenterOpen 0 0 5%N (Some (Examples.monday_Date 22 0 0))
    Examples.overnight_hours = false.
Proof.
  repeat split; vm_compute; reflexivity.
Qed.

End OpeningHours.

(* ===================================================================== *)
(** * Theorems: order numbers *)
(* ===================================================================== *)

Section OrderNumbers.
Import Triggers Rules.

Lemma substring_all (s : string) : substring 0 (String.length s) s = s.
Proof. induction s as [| a s IH]; cbn; [reflexivity | rewrite IH; reflexivity]. Qed.

Lemma copies_zeros (k : nat) : copies k "0" = Clock.zeros k.
Proof. induction k as [| k IH]; cbn; [reflexivity | rewrite IH; reflexivity]. Qed.

Lemma length_zeros (k : nat) : String.length (Clock.zeros k) = k.
Proof. induction k as [| k IH]; cbn; [reflexivity | rewrite IH; reflexivity]. Qed.

Lemma padding_zeros (k : nat) : substring 0 k (copies k "0") = Clock.zeros k.
Proof.
  rewrite copies_zeros. rewrite <- (length_zeros k) at 1. apply substring_all.
Qed.

(** [padStart(4, '0')] pads to at least four digits, whatever the number. *)
Lemma padStart_zero_padded (n : Z) (width : nat) :
  OrderService.padStart (Clock.digits n) width "0" = Clock.zero_padded width n.
Proof.
  unfold OrderService.padStart, Clock.zero_padded.
  destruct (Nat.leb_spec width (String.length (Clock.digits n))) as [Hle | Hlt].
  - replace (width - String.length (Clock.digits n))%nat with 0%nat by lia. reflexivity.
  - rewrite padding_zeros. reflexivity.
Qed.

(** [LPAD(.., 4, '0')] does so only for strings of at most four digits. *)
Lemma LPAD_zero_padded (n : Z) (width : nat) :
  (String.length (Clock.digits n) <= width)%nat ->
  LPAD (Clock.digits n) width "0" = Clock.zero_padded width n.
Proof.
  intros Hlen. unfold LPAD, Clock.zero_padded.
  destruct (Nat.leb_spec width (String.length (Clock.digits n))) as [Hle | Hlt].
  - assert (Heq : width = String.length (Clock.digits n)) by lia.
    rewrite Heq at 1. rewrite substring_all.
    replace (width - String.length (Clock.digits n))%nat with 0%nat by lia. reflexivity.
  - rewrite padding_zeros. reflexivity.
Qed.

Lemma digits_below_10000 (n : Z) :
  0 <= n < 10000 -> (String.length (Clock.digits n) <= 4)%nat.
Proof.
  intros Hn.
  assert (Hall : forallb at_most_four_digits (seq 0 (Z.to_nat 10000)) = true)
    by (vm_compute; reflexivity).
  rewrite forallb_forall in Hall.
  specialize (Hall (Z.to_nat n)).
  unfold at_most_four_digits in Hall. rewrite Z2Nat.id in Hall by lia.
  apply Nat.leb_le. apply Hall. apply in_seq. lia.
Qed.

Lemma COUNT_ext {row : Type} (f g : row -> bool) (table : gmap uuid row) :
  (forall o, f o = g o) -> COUNT f table = COUNT g table.
Proof.
  intros Hfg. unfold COUNT. do 2 f_equal.
  apply map_filter_ext. intros i x _. cbn. rewrite Hfg. reflexivity.
Qed.

Lemma COUNT_empty {row : Type} (f : row -> bool) : COUNT f (∅ : gmap uuid row) = 0.
Proof. unfold COUNT. rewrite map_filter_empty, map_size_empty. reflexivity. Qed.

(** One more row under a fresh key counts when it satisfies the clause. *)
Lemma COUNT_insert_fresh {row : Type} (f : row -> bool) (table : gmap uuid row)
    (k : uuid) (o : row) :
  table !! k = None ->
  COUNT f (<[k := o]> table) = COUNT f table + (if f o then 1 else 0).
Proof.
  intros Hk. unfold COUNT. destruct (f o) eqn:Hf.
  - rewrite map_filter_insert_True by (cbn; rewrite Hf; exact I).
    rewrite map_size_insert_None; [lia |].
    apply map_lookup_filter_None_2. left. exact Hk.
  - rewrite map_filter_insert_False by (cbn; rewrite Hf; intros []).
    rewrite delete_id by exact Hk. lia.
Qed.

Lemma COUNT_not_negative {row : Type} (f : row -> bool) (table : gmap uuid row) :
  0 <= COUNT f table.
Proof. unfold COUNT. lia. Qed.

(** The generator, given the number of the restaurant's orders of the
    day. *)
Lemma generate_order_number_count (tz : Z) (now : timestamptz) (restaurant_uuid : uuid)
    (table : gmap uuid orders.row) :
  generate_order_number tz now restaurant_uuid table
  = (order_count ←
       int4 (orders_created_on tz restaurant_uuid (Clock.DATE tz now) table);
     n ← int4 (order_count + 1);
     Ok (Clock.to_char_YYYYMMDD (Clock.DATE tz now) ++ "-" ++ LPAD (Clock.digits n) 4 "0")).
Proof.
  unfold generate_order_number, orders_created_on.
  rewrite (COUNT_ext _
             (fun o =>
                N.eqb (orders.restaurant_id o) restaurant_uuid
                && match orders.created_at o with
                   | Some c => Z.eqb (Clock.DATE tz c) (Clock.DATE tz now)
                   | None => false
                   end)); [reflexivity |].
  intros o.
  destruct (N.eqb (orders.restaurant_id o) restaurant_uuid),
    (orders.created_at o) as [c |]; cbn; try reflexivity.
  destruct (Clock.DATE tz c =? Clock.DATE tz now); reflexivity.
Qed.

(** Below ten thousand orders a day the store-side generator gives the
    order number of the specification. *)
Lemma generate_order_number_below_10000 (tz : Z) (now : timestamptz)
    (restaurant_uuid : uuid) (table : gmap uuid orders.row) :
  orders_created_on tz restaurant_uuid (Clock.DATE tz now) table + 1 < 10000 ->
  generate_order_number tz now restaurant_uuid table
  = Ok (order_number_for (Clock.DATE tz now)
          (orders_created_on tz restaurant_uuid (Clock.DATE tz now) table)).
Proof.
  intros Hlt. rewrite generate_order_number_count.
  pose proof (COUNT_not_negative
                (fun o =>
                   N.eqb (orders.restaurant_id o) restaurant_uuid
                   && match orders.created_at o with
                      | Some c => Z.eqb (Clock.DATE tz c) (Clock.DATE tz now)
                      | None => false
                      end) table) as Hge.
  fold (orders_created_on tz restaurant_uuid (Clock.DATE tz now) table) in Hge.
  rewrite int4_in_range by (unfold int4_min, int4_max; lia).
  cbn [mbind result_bind].
  rewrite int4_in_range by (unfold int4_min, int4_max; lia).
  cbn [mbind result_bind].
  rewrite LPAD_zero_padded by (apply digits_below_10000; lia).
  reflexivity.
Qed.

(** The client-side generator pads as the specification says, for every
    count; the count is that of its own query. *)
Lemma generateOrderNumber_padded (today : Z) (restaurantId : uuid)
    (table : gmap uuid orders.row) :
  exists count,
    0 <= count /\
    OrderService.generateOrderNumber today restaurantId table
    = Clock.remove_dashes (Clock.toISOString_date today) ++ "-"
      ++ Clock.zero_padded 4 (count + 1).
Proof.
  unfold OrderService.generateOrderNumber.
  eexists. split; cycle 1.
  - rewrite padStart_zero_padded. reflexivity.
  - apply COUNT_not_negative.
Qed.

Lemma orders_at_noon_fresh (n j : nat) :
  (n < j)%nat -> Examples.orders_at_noon n !! N.of_nat j = None.
Proof.
  induction n as [| n IH]; intros Hlt; [apply lookup_empty |].
  cbn [Examples.orders_at_noon]. rewrite lookup_insert_ne by lia.
  apply IH. lia.
Qed.

Lemma orders_created_on_orders_at_noon (n : nat) :
  orders_created_on 0 1%N Examples.day_2025_08_11 (Examples.orders_at_noon n) = Z.of_nat n.
Proof.
  unfold orders_created_on. induction n as [| n IH]; [apply COUNT_empty |].
  cbn [Examples.orders_at_noon].
  rewrite COUNT_insert_fresh by (apply orders_at_noon_fresh; lia).
  rewrite IH. cbn [orders.restaurant_id orders.created_at].
  change (Clock.DATE 0 (Examples.on_2025_08_11 12 0) =? Examples.day_2025_08_11) with true.
  cbn. lia.
Qed.

Lemma orders_at_noon_lookup (n j : nat) :
  (j < n)%nat ->
  orders.order_number <$> Examples.orders_at_noon n !! N.of_nat (S j)
  = Some (Some (order_number_for Examples.day_2025_08_11 (Z.of_nat j))).
Proof.
  induction n as [| n IH]; intros Hlt; [lia |].
  cbn [Examples.orders_at_noon].
  destruct (decide (j = n)) as [-> | Hne].
  - rewrite lookup_insert_eq. reflexivity.
  - rewrite lookup_insert_ne by lia. apply IH. lia.
Qed.

(** The count of the client-side query on the orders created at noon. *)
Lemma generateOrderNumber_orders_at_noon (n : nat) :
  OrderService.generateOrderNumber (Examples.on_2025_08_11 12 0 / Clock.usec_per_msec) 1%N
    (Examples.orders_at_noon n)
  = "20250811-" ++ Clock.zero_padded 4 (Z.of_nat n + 1).
Proof.
  unfold OrderService.generateOrderNumber. rewrite padStart_zero_padded.
  change (Clock.remove_dashes
            (Clock.toISOString_date (Examples.on_2025_08_11 12 0 / Clock.usec_per_msec)))
    with "20250811".
  match goal with
  | |- context [COUNT ?f _] =>
      assert (Hcount : COUNT f (Examples.orders_at_noon n) = Z.of_nat n)
  end.
  { induction n as [| n IH]; [apply COUNT_empty |].
    cbn [Examples.orders_at_noon].
    rewrite COUNT_insert_fresh by (apply orders_at_noon_fresh; lia).
    rewrite IH. cbn [orders.restaurant_id orders.created_at].
    match goal with
    | |- _ + (if ?b then _ else _) = _ => replace b with true by (vm_compute; reflexivity)
    end.
    lia. }
  rewrite Hcount. reflexivity.
Qed.

(** C4. The first order of 2025-08-11 is numbered 20250811-0001 by both
    generators, and below ten thousand orders a day the store-side
    generator gives the date, a dash and the count plus one in four
    digits. The two generators part at ten thousand: with 9999 orders of
    the day the number of the specification and of the client-side
    generator is 20250811-10000, while the store-side generator cuts it
    to 20250811-1000, the number the thousandth order already has. They
    also part in the last millisecond of the day: the client-side query
    stops at 23:59:59.999 and does not count an order created after it,
    so it repeats 20250811-0001 where the store-side generator gives
    20250811-0002. *)
Theorem order_number_generators_part_ways :
  (* the first order of the day *)
  generate_order_number 0 (Examples.on_2025_08_11 12 0) 1%N ∅ = Ok "20250811-0001" /\
  OrderService.generateOrderNumber (Examples.on_2025_08_11 12 0 / Clock.usec_per_msec) 1%N ∅
  = "20250811-0001" /\
  (* the ten-thousandth order of the day *)
  orders_created_on 0 1%N Examples.day_2025_08_11
    (Examples.orders_at_noon (Z.to_nat 9999)) = 9999 /\
  order_number_for Examples.day_2025_08_11 9999 = "20250811-10000" /\
  OrderService.generateOrderNumber (Examples.on_2025_08_11 12 0 / Clock.usec_per_msec) 1%N
    (Examples.orders_at_noon (Z.to_nat 9999)) = "20250811-10000" /\
  generate_order_number 0 (Examples.on_2025_08_11 12 0) 1%N
    (Examples.orders_at_noon (Z.to_nat 9999)) = Ok "20250811-1000" /\
  orders.order_number <$> Examples.orders_at_noon (Z.to_nat 9999) !! 1000%N
  = Some (Some "20250811-1000") /\
  (* an order created in the last millisecond of the day *)
  orders_created_on 0 1%N Examples.day_2025_08_11 Examples.order_at_midnight = 1 /\
  generate_order_number 0 (Examples.on_2025_08_11 23 59 + 59999700) 1%N
    Examples.order_at_midnight = Ok "20250811-0002" /\
  OrderService.generateOrderNumber
    ((Examples.on_2025_08_11 23 59 + 59999700) / Clock.usec_per_msec) 1%N
    Examples.order_at_midnight = "20250811-0001".
Proof.
  split; [vm_compute; reflexivity |].
  split; [vm_compute; reflexivity |].
  split; [rewrite orders_created_on_orders_at_noon; reflexivity |].
  split; [vm_compute; reflexivity |].
  split; [rewrite generateOrderNumber_orders_at_noon; vm_compute; reflexivity |].
  split.
  { rewrite generate_order_number_count.
    change (Clock.DATE 0 (Examples.on_2025_08_11 12 0)) with Examples.day_2025_08_11.
    rewrite orders_created_on_orders_at_noon. vm_compute. reflexivity. }
  split.
  { change 1000%N with (N.of_nat (S (Z.to_nat 999))).
    rewrite orders_at_noon_lookup by lia. vm_compute. reflexivity. }
  repeat split; vm_compute; reflexivity.
Qed.

End OrderNumbers.

(* ===================================================================== *)
(** * Theorems: tenant provisioning *)
(* ===================================================================== *)

Section TenantProvisioning.
Import Provisioning.

(** Among rows with distinct keys, if one key alone passes a filter on
    the rows, the filter returns exactly that key and row. *)
Lemma filter_pairs_only {V : Type} (f : V -> bool) (l : list (uuid * V)) (k : uuid) (h : V) :
  NoDup (l.*1) ->
  (k, h) ∈ l ->
  f h = true ->
  (forall k' h', (k', h') ∈ l -> f h' = true -> k' = k) ->
  List.filter (fun kv => f kv.2) l = [(k, h)].
Proof.
  induction l as [| [k0 h0] l IH]; intros Hnd Hin Hf Honly.
  - inversion Hin.
  - cbn in Hnd. apply NoDup_cons in Hnd as [Hfresh Hnd].
    apply elem_of_cons in Hin as [Heq | Hin].
    + injection Heq as <- <-. cbn. rewrite Hf. f_equal.
      apply filter_none. intros [k' h'] Hx. cbn.
      destruct (f h') eqn:Hfh'; [| reflexivity].
      exfalso. apply Hfresh.
      rewrite <- (Honly k' h' (list_elem_of_further _ _ _ Hx) Hfh').
      apply list_elem_of_fmap. exists (k', h'). split; [reflexivity | exact Hx].
    + assert (Hf0 : f h0 = false).
      { destruct (f h0) eqn:Hfh0; [| reflexivity].
        exfalso. apply Hfresh.
        rewrite (Honly k0 h0 (list_elem_of_here _ _) Hfh0).
        apply list_elem_of_fmap. exists (k, h). split; [reflexivity | exact Hin]. }
      cbn. rewrite Hf0. apply IH; try assumption.
      intros k' h' Hin' Hf'. apply (Honly k' h'); [| assumption].
      apply list_elem_of_further. exact Hin'.
Qed.

(** The existence check finds the owner record of an address. *)
Lemma owners_by_email_the_row (e : string) (t : gmap uuid kitchen_owners.row)
    (k : uuid) (r : kitchen_owners.row) :
  unique_owner_email t ->
  t !! k = Some r ->
  kitchen_owners.email r = e ->
  owners_by_email e t = [k].
Proof.
  intros Huniq Hk He. unfold owners_by_email.
  rewrite (filter_pairs_only (fun r => String.eqb (kitchen_owners.email r) e)
             (map_to_list t) k r).
  - reflexivity.
  - apply NoDup_fst_map_to_list.
  - apply elem_of_map_to_list. exact Hk.
  - rewrite He. apply String.eqb_refl.
  - intros k' r' Hin Hf. apply elem_of_map_to_list in Hin.
    apply String.eqb_eq in Hf. apply (Huniq k' k r' r Hin Hk). congruence.
Qed.

(** C8, as stated, fails: sent again for an address that has an owner
    record and no identity-provider account, the request is answered 409
    and the platform stays as it was, so the account is still missing
    and the record still unlinked. *)
Lemma provisioning_again_repairs_nothing :
  repaired "owner@example.com" Examples.half_provisioned = false /\
  fst (serve Examples.some_draws Examples.provision_again Examples.half_provisioned)
  = mkResponse 409 "Kitchen owner with this email already exists" /\
  repaired "owner@example.com"
    (snd (serve Examples.some_draws Examples.provision_again Examples.half_provisioned))
  = false /\
  auth_users_table
    (snd (serve Examples.some_draws Examples.provision_again Examples.half_provisioned))
  = ∅.
Proof. repeat split; vm_compute; reflexivity. Qed.

(** C8, amended: a POST request with every required field whose address
    already has an owner record is detected and refused with status 409,
    and the platform is left exactly as it was: no identity-provider
    account is created, the record is not linked, and no second owner
    row is created. *)
Theorem serve_refuses_existing_owner (d : draws) (req : Request)
    (data : CreateKitchenOwnerRequest) (e : string) (p : platform)
    (k : uuid) (r : kitchen_owners.row) :
  method req = "POST" ->
  json req = Some data ->
  first_missing_field data = None ->
  email data = Some e ->
  unique_owner_email (kitchen_owners_table p) ->
  kitchen_owners_table p !! k = Some r ->
  kitchen_owners.email r = e ->
  serve d req p = (mkResponse 409 "Kitchen owner with this email already exists", p).
Proof.
  intros Hmethod Hjson Hfields Hemail Huniq Hk Hr.
  unfold serve. rewrite Hmethod, Hjson, Hfields, Hemail.
  change (String.eqb "POST" "OPTIONS") with false.
  change (String.eqb "POST" "POST") with true.
  cbv beta iota zeta delta [negb default from_option id].
  rewrite (owners_by_email_the_row e _ k r Huniq Hk Hr).
  reflexivity.
Qed.

(** C8's refusal on the half-provisioned platform. *)
Lemma serve_refuses_existing_owner_example :
  serve Examples.some_draws Examples.provision_again Examples.half_provisioned
  = (mkResponse 409 "Kitchen owner with this email already exists",
     Examples.half_provisioned).
Proof.
  apply (serve_refuses_existing_owner Examples.some_draws Examples.provision_again
           (mkRequest (Some "owner@example.com") (Some "Olive Owner")
              (Some "basic") (Some "pay_1") (Some 4900) (Some "2026-08-11T00:00:00Z"))
           "owner@example.com" Examples.half_provisioned 40%N
           (kitchen_owners.mk None "owner@example.com" "Olive Owner" "basic"
              "pay_1" 4900 "2026-08-11T00:00:00Z" "5e88" (Some false)));
    try reflexivity.
  intros i j r r' Hi Hj _.
  change (({[40%N := kitchen_owners.mk None "owner@example.com" "Olive Owner" "basic"
                       "pay_1" 4900 "2026-08-11T00:00:00Z" "5e88" (Some false)]}
             : gmap N _) !! i = Some r) in Hi.
  change (({[40%N := kitchen_owners.mk None "owner@example.com" "Olive Owner" "basic"
                       "pay_1" 4900 "2026-08-11T00:00:00Z" "5e88" (Some false)]}
             : gmap N _) !! j = Some r') in Hj.
  apply lookup_singleton_Some in Hi as [<- _].
  apply lookup_singleton_Some in Hj as [<- _].
  reflexivity.
Defined.

End TenantProvisioning.

(* ===================================================================== *)
(** * Theorems: order creations that overlap *)
(* ===================================================================== *)

Section OverlappingCreations.
Import Overlap.

(** C9. Two creations for the same restaurant on the same day, run one
    after the other, are numbered 0001 and 0002. When they overlap, both
    compute their number before either row is stored: both get 0001, the
    second row is refused by [UNIQUE(order_number)], and one order is
    stored instead of two. The same happens on the store-side path (the
    trigger) and on the client-side path ([generateOrderNumber], then
    [createOrder]). *)
Theorem overlapping_creations_collide :
  (* one after the other *)
  numbers_of 1%N
    (committed (run store_side 0 (Examples.on_2025_08_11 12 0) Examples.two_creations
                  [number 0; store 0; number 1; store 1]%nat Examples.nothing_stored))
  = [Some "20250811-0002"; Some "20250811-0001"] /\
  (* overlapping, store side: both rows carry the same number *)
  (orders.order_number <$>
     in_flight (run store_side 0 (Examples.on_2025_08_11 12 0) Examples.two_creations
                  [number 0; number 1]%nat Examples.nothing_stored) !! 0%nat)
  = Some (Some "20250811-0001") /\
  (orders.order_number <$>
     in_flight (run store_side 0 (Examples.on_2025_08_11 12 0) Examples.two_creations
                  [number 0; number 1]%nat Examples.nothing_stored) !! 1%nat)
  = Some (Some "20250811-0001") /\
  (* ... the second row is refused, and one order is stored *)
  (exists NEW' : orders.row,
      Statements.store_orders_row 2%N NEW'
        (committed (run store_side 0 (Examples.on_2025_08_11 12 0) Examples.two_creations
                      [number 0; number 1; store 0]%nat Examples.nothing_stored))
      = Err (unique_violation "orders_order_number_key") /\
      in_flight (run store_side 0 (Examples.on_2025_08_11 12 0) Examples.two_creations
                   [number 0; number 1; store 0]%nat Examples.nothing_stored) !! 1%nat
      = Some NEW') /\
  numbers_of 1%N
    (committed (run store_side 0 (Examples.on_2025_08_11 12 0) Examples.two_creations
                  [number 0; number 1; store 0; store 1]%nat Examples.nothing_stored))
  = [Some "20250811-0001"] /\
  (* overlapping, client side *)
  numbers_of 1%N
    (committed (run client_side 0 (Examples.on_2025_08_11 12 0) Examples.two_creations
                  [number 0; store 0; number 1; store 1]%nat Examples.nothing_stored))
  = [Some "20250811-0002"; Some "20250811-0001"] /\
  numbers_of 1%N
    (committed (run client_side 0 (Examples.on_2025_08_11 12 0) Examples.two_creations
                  [number 0; number 1; store 0; store 1]%nat Examples.nothing_stored))
  = [Some "20250811-0001"].
Proof.
  split; [vm_compute; reflexivity |].
  split; [vm_compute; reflexivity |].
  split; [vm_compute; reflexivity |].
  split; [| repeat split; vm_compute; reflexivity].
  eexists. split; [| vm_compute; reflexivity].
  vm_compute. reflexivity.
Qed.

End OverlappingCreations.

(* ===================================================================== *)
(** * Further theorems: the generators and the evaluator on their own *)
(* ===================================================================== *)

Section GeneratorAndEvaluator.
Import Triggers Rules BusinessHours.

(** The store-side generator on the fourth order of 2025-08-11. *)
Lemma generate_order_number_below_10000_example :
  generate_order_number 0 (Examples.on_2025_08_11 12 0) 1%N
    (Examples.orders_at_noon 3) = Ok "20250811-0004".
Proof.
  rewrite (generate_order_number_below_10000 0 (Examples.on_2025_08_11 12 0) 1%N
             (Examples.orders_at_noon 3)).
  - change (Clock.DATE 0 (Examples.on_2025_08_11 12 0)) with Examples.day_2025_08_11.
    rewrite orders_created_on_orders_at_noon. vm_compute. reflexivity.
  - change (Clock.DATE 0 (Examples.on_2025_08_11 12 0)) with Examples.day_2025_08_11.
    rewrite orders_created_on_orders_at_noon. vm_compute. reflexivity.
Defined.


End GeneratorAndEvaluator.

(* ===================================================================== *)
(** * Further theorems: sequences of status updates of one order *)
(* ===================================================================== *)

Section StatusSequences.
Import Triggers Statements Rules.

(** The aggregates the trigger leaves for the customer of the order. *)
Lemma update_customer_stats_trigger_aggregates (now : timestamptz) (OLD NEW : orders.row)
    (table table' : gmap uuid customers.row) (id : uuid) (c : customers.row) (n s : Z) :
  orders.customer_id NEW = Some id ->
  table !! id = Some c ->
  customers.total_orders c = Some n ->
  customers.total_spent c = Some s ->
  update_customer_stats_trigger now OLD NEW table = Ok table' ->
  exists c', table' !! id = Some c' /\
    aggregates c'
    = aggregates_after (transition_of (orders.status OLD) (orders.status NEW))
        (orders.total_amount NEW) (orders.updated_at NEW) n s (customers.last_order_at c).
Proof.
  intros Hid Hc Hn Hs. unfold update_customer_stats_trigger.
  rewrite update_customer_stats_cases, Hid. cbn [is_not_null holds].
  destruct (transition_of (orders.status OLD) (orders.status NEW)); intros H.
  - destruct (UPDATE_customers_WHERE_id_Ok _ _ _ _ _ _ Hc H) as (c1 & Hset & ->).
    exists (update_customers_updated_at now c1). split; [apply lookup_insert_eq |].
    rewrite aggregates_update_customers_updated_at.
    apply (SET_served_Ok _ _ _ _ _ Hn Hs Hset).
  - destruct (UPDATE_customers_WHERE_id_Ok _ _ _ _ _ _ Hc H) as (c1 & Hset & ->).
    exists (update_customers_updated_at now c1). split; [apply lookup_insert_eq |].
    rewrite aggregates_update_customers_updated_at.
    apply (SET_cancelled_Ok _ _ _ _ _ Hn Hs Hset).
  - apply Ok_inj in H. subst table'. exists c. split; [assumption |].
    unfold aggregates, aggregates_after. rewrite Hn, Hs. reflexivity.
Qed.

(** One call of [updateOrderStatus] that goes through: the order keeps
    its columns but the status and the update time, and its customer's
    aggregates move by the kind of transition. *)
Lemma updateOrderStatus_effect (now : timestamptz) (oid : uuid) (st : order_status)
    (db db' : database) (OLD : orders.row) (id : uuid) (c : customers.row) (n s : Z) :
  orders_table db !! oid = Some OLD ->
  orders.customer_id OLD = Some id ->
  customers_table db !! id = Some c ->
  customers.total_orders c = Some n ->
  customers.total_spent c = Some s ->
  OrderService.updateOrderStatus now oid st db = Ok db' ->
  orders_table db' !! oid
  = Some (orders.mk (orders.restaurant_id OLD) (Some id) (orders.order_number OLD)
            (Some st) (orders.total_amount OLD) (orders.created_at OLD) (Some now)) /\
  exists c', customers_table db' !! id = Some c' /\
    aggregates c'
    = aggregates_after (transition_of (orders.status OLD) (Some st))
        (orders.total_amount OLD) (Some now) n s (customers.last_order_at c).
Proof.
  intros Hold Hid Hc Hn Hs.
  unfold OrderService.updateOrderStatus, OrderService.updateOrder, UPDATE_orders.
  rewrite Hold.
  set (NEW := update_orders_updated_at now _).
  assert (HNEW : NEW = orders.mk (orders.restaurant_id OLD) (Some id)
                         (orders.order_number OLD) (Some st) (orders.total_amount OLD)
                         (orders.created_at OLD) (Some now)).
  { subst NEW. unfold update_orders_updated_at, SET_orders. cbn. rewrite Hid. reflexivity. }
  destruct (orders_constraints oid NEW db) as [[] |]; cbn [mbind result_bind];
    [| discriminate].
  destruct (update_customer_stats_trigger now OLD NEW _) as [table |] eqn:Htrig;
    cbn [mbind result_bind]; [| discriminate].
  intros H. apply Ok_inj in H. subst db'. cbn in Htrig |- *.
  split; [rewrite lookup_insert_eq, HNEW; reflexivity |].
  assert (Hid' : orders.customer_id NEW = Some id) by (rewrite HNEW; reflexivity).
  destruct (update_customer_stats_trigger_aggregates now OLD NEW _ _ id c n s
              Hid' Hc Hn Hs Htrig) as (c' & Hc' & Hagg).
  exists c'. split; [assumption |]. rewrite Hagg, HNEW. reflexivity.
Qed.

(** Serving an order and then cancelling it gives the customer back the
    total_orders and total_spent it had, when the order's total and the
    two aggregates are not negative; last_order_at stays at the time the
    order was served. *)
Theorem serve_then_cancel_restores_totals
    (t1 t2 : timestamptz) (oid : uuid) (db db1 db2 : database)
    (o : orders.row) (id : uuid) (c : customers.row) (n s : Z) :
  orders_table db !! oid = Some o ->
  orders.status o <> Some served ->
  orders.customer_id o = Some id ->
  0 <= orders.total_amount o ->
  customers_table db !! id = Some c ->
  customers.total_orders c = Some n -> 0 <= n ->
  customers.total_spent c = Some s -> 0 <= s ->
  OrderService.updateOrderStatus t1 oid served db = Ok db1 ->
  OrderService.updateOrderStatus t2 oid cancelled db1 = Ok db2 ->
  exists c2, customers_table db2 !! id = Some c2 /\
             aggregates c2 = (Some n, Some s, Some t1).
Proof.
  intros Ho Hst Hid Ha Hc Hn Hn0 Hs Hs0 H1 H2.
  destruct (updateOrderStatus_effect t1 oid served db db1 o id c n s Ho Hid Hc Hn Hs H1)
    as (Ho1 & c1 & Hc1 & Hagg1).
  assert (Hk1 : transition_of (orders.status o) (Some served) = into_served).
  { destruct (orders.status o) as [[] |]; try reflexivity. contradiction Hst. reflexivity. }
  rewrite Hk1 in Hagg1. cbn in Hagg1.
  destruct (updateOrderStatus_effect t2 oid cancelled db1 db2 _ id c1
              (n + 1) (s + orders.total_amount o) Ho1 eq_refl Hc1
              (f_equal (fun a => fst (fst a)) Hagg1)
              (f_equal (fun a => snd (fst a)) Hagg1) H2)
    as (_ & c2 & Hc2 & Hagg2).
  exists c2. split; [assumption |].
  rewrite Hagg2. cbn.
  rewrite (f_equal snd Hagg1 : customers.last_order_at c1 = Some t1).
  repeat f_equal; clear - Ha Hn0 Hs0.
  - lia.
  - lia.
Qed.

(** An order that is served, put back to a status before served, and
    served again is counted twice: no transition out of served but the
    one to cancelled takes anything back. *)
Theorem served_twice_counts_twice
    (t1 t2 t3 : timestamptz) (oid : uuid) (back : order_status)
    (db db1 db2 db3 : database)
    (o : orders.row) (id : uuid) (c : customers.row) (n s : Z) :
  orders_table db !! oid = Some o ->
  orders.status o <> Some served ->
  orders.customer_id o = Some id ->
  back <> served -> back <> cancelled ->
  customers_table db !! id = Some c ->
  customers.total_orders c = Some n ->
  customers.total_spent c = Some s ->
  OrderService.updateOrderStatus t1 oid served db = Ok db1 ->
  OrderService.updateOrderStatus t2 oid back db1 = Ok db2 ->
  OrderService.updateOrderStatus t3 oid served db2 = Ok db3 ->
  exists c3, customers_table db3 !! id = Some c3 /\
             aggregates c3
             = (Some (n + 2), Some (s + 2 * orders.total_amount o), Some t3).
Proof.
  intros Ho Hst Hid Hb1 Hb2 Hc Hn Hs H1 H2 H3.
  destruct (updateOrderStatus_effect t1 oid served db db1 o id c n s Ho Hid Hc Hn Hs H1)
    as (Ho1 & c1 & Hc1 & Hagg1).
  assert (Hk1 : transition_of (orders.status o) (Some served) = into_served).
  { destruct (orders.status o) as [[] |]; try reflexivity. contradiction Hst. reflexivity. }
  rewrite Hk1 in Hagg1. cbn in Hagg1.
  destruct (updateOrderStatus_effect t2 oid back db1 db2 _ id c1
              (n + 1) (s + orders.total_amount o) Ho1 eq_refl Hc1
              (f_equal (fun a => fst (fst a)) Hagg1)
              (f_equal (fun a => snd (fst a)) Hagg1) H2)
    as (Ho2 & c2 & Hc2 & Hagg2).
  assert (Hk2 : transition_of (Some served) (Some back) = other_transition)
    by (destruct back; try reflexivity; congruence).
  cbn [orders.status orders.total_amount] in Hagg2. rewrite Hk2 in Hagg2. cbn in Hagg2.
  destruct (updateOrderStatus_effect t3 oid served db2 db3 _ id c2
              (n + 1) (s + orders.total_amount o) Ho2 eq_refl Hc2
              (f_equal (fun a => fst (fst a)) Hagg2)
              (f_equal (fun a => snd (fst a)) Hagg2) H3)
    as (_ & c3 & Hc3 & Hagg3).
  assert (Hk3 : transition_of (Some back) (Some served) = into_served)
    by (destruct back; try reflexivity; congruence).
  cbn [orders.status orders.total_amount] in Hagg3. rewrite Hk3 in Hagg3. cbn in Hagg3.
  exists c3. split; [assumption |].
  rewrite Hagg3. cbn.
  replace (n + 1 + 1) with (n + 2) by (clear; lia).
  replace (s + orders.total_amount o + orders.total_amount o)
    with (s + 2 * orders.total_amount o) by (clear; lia).
  reflexivity.
Qed.

(** C's order of 25.50 served at 12:30 and cancelled at 13:00. *)
Lemma serve_then_cancel_restores_totals_example :
  exists c2,
    customers_table
      (run_transitions
         [(Examples.on_2025_08_11 12 30, 3%N, served);
          (Examples.on_2025_08_11 13 0, 3%N, cancelled)]
         Examples.store_25_50) !! 7%N = Some c2 /\
    aggregates c2 = (Some 0, Some 0, Some (Examples.on_2025_08_11 12 30)).
Proof.
  apply (serve_then_cancel_restores_totals
           (Examples.on_2025_08_11 12 30) (Examples.on_2025_08_11 13 0) 3%N
           Examples.store_25_50
           (run_transitions [(Examples.on_2025_08_11 12 30, 3%N, served)]
              Examples.store_25_50)
           (run_transitions
              [(Examples.on_2025_08_11 12 30, 3%N, served);
               (Examples.on_2025_08_11 13 0, 3%N, cancelled)]
              Examples.store_25_50)
           (Examples.order_25_50 pending (Examples.on_2025_08_11 12 0))
           7%N Examples.customer_C 0 0);
    try (vm_compute; reflexivity); try lia.
  - cbn. discriminate.
  - cbn. lia.
Defined.

(** C's order of 25.50 served, put back to preparing, and served again. *)
Lemma served_twice_counts_twice_example :
  exists c3,
    customers_table
      (run_transitions
         [(Examples.on_2025_08_11 12 30, 3%N, served);
          (Examples.on_2025_08_11 12 40, 3%N, preparing);
          (Examples.on_2025_08_11 12 50, 3%N, served)]
         Examples.store_25_50) !! 7%N = Some c3 /\
    aggregates c3 = (Some 2, Some 5100, Some (Examples.on_2025_08_11 12 50)).
Proof.
  apply (served_twice_counts_twice
           (Examples.on_2025_08_11 12 30) (Examples.on_2025_08_11 12 40)
           (Examples.on_2025_08_11 12 50) 3%N preparing
           Examples.store_25_50
           (run_transitions [(Examples.on_2025_08_11 12 30, 3%N, served)]
              Examples.store_25_50)
           (run_transitions
              [(Examples.on_2025_08_11 12 30, 3%N, served);
               (Examples.on_2025_08_11 12 40, 3%N, preparing)]
              Examples.store_25_50)
           (run_transitions
              [(Examples.on_2025_08_11 12 30, 3%N, served);
               (Examples.on_2025_08_11 12 40, 3%N, preparing);
               (Examples.on_2025_08_11 12 50, 3%N, served)]
              Examples.store_25_50)
           (Examples.order_25_50 pending (Examples.on_2025_08_11 12 0))
           7%N Examples.customer_C 0 0);
    try (vm_compute; reflexivity); try discriminate.
Defined.

End StatusSequences.

(* ===================================================================== *)
(** * Further theorems: the constraints of [orders] under every request *)
(* ===================================================================== *)

Section ConstraintsKept.
Import Triggers Statements Requests Constraints.

Lemma COUNT_zero {row : Type} (f : row -> bool) (table : gmap uuid row) :
  (0 <? COUNT f table) = false ->
  forall k o, table !! k = Some o -> f o = false.
Proof.
  unfold COUNT. intros Hz k o Hk.
  apply Z.ltb_ge in Hz.
  assert (Hsize : size (filter (fun kv : uuid * row => Is_true (f kv.2)) table) = 0%nat)
    by lia.
  apply map_size_empty_iff in Hsize.
  destruct (f o) eqn:Hf; [| reflexivity].
  exfalso.
  assert (Hin : filter (fun kv : uuid * row => Is_true (f kv.2)) table !! k = Some o)
    by (apply map_lookup_filter_Some; split; [exact Hk | cbn; rewrite Hf; exact I]).
  rewrite Hsize, lookup_empty in Hin. discriminate.
Qed.

(** What a row that passes the constraints of [orders] satisfies. *)
Lemma orders_constraints_Ok (id : uuid) (NEW : orders.row) (db : database) :
  orders_constraints id NEW db = Ok () ->
  (exists n, orders.order_number NEW = Some n /\
     forall j o, j <> id -> orders_table db !! j = Some o ->
                 orders.order_number o <> Some n) /\
  (forall c, orders.customer_id NEW = Some c -> is_Some (customers_table db !! c)).
Proof.
  unfold orders_constraints.
  destruct (decimal_10_2 (Some (orders.total_amount NEW))); cbn [mbind result_bind];
    [| discriminate].
  destruct (orders.order_number NEW) as [n |]; [| discriminate].
  destruct (0 <? COUNT _ _) eqn:Hcount; [discriminate |].
  intros Hfk. split.
  - exists n. split; [reflexivity |].
    intros j o Hj Ho Hnum.
    pose proof (COUNT_zero _ _ Hcount j o) as Hnone.
    rewrite lookup_delete_ne in Hnone by congruence.
    specialize (Hnone Ho). rewrite Hnum in Hnone. cbn in Hnone.
    rewrite String.eqb_refl in Hnone. discriminate.
  - intros c Hc. rewrite Hc in Hfk.
    destruct (customers_table db !! c); [eexists; reflexivity | discriminate].
Qed.

Lemma UPDATE_customers_WHERE_id_keys (now : timestamptz) (key : option uuid)
    (set : customers.row -> result customers.row)
    (table table' : gmap uuid customers.row) (j : uuid) :
  UPDATE_customers_WHERE_id now key set table = Ok table' ->
  is_Some (table !! j) -> is_Some (table' !! j).
Proof.
  unfold UPDATE_customers_WHERE_id.
  destruct key as [k |]; [| stored; auto].
  destruct (table !! k) as [c |] eqn:Hk; [| stored; auto].
  destruct (set c) as [c1 |]; cbn [mbind result_bind]; [| discriminate].
  stored. intros Hj. rewrite lookup_insert. case_decide; [eexists; reflexivity | exact Hj].
Qed.

Lemma update_customer_stats_trigger_keys (now : timestamptz) (OLD NEW : orders.row)
    (table table' : gmap uuid customers.row) (j : uuid) :
  update_customer_stats_trigger now OLD NEW table = Ok table' ->
  is_Some (table !! j) -> is_Some (table' !! j).
Proof.
  unfold update_customer_stats_trigger.
  destruct (holds _); [| stored; auto].
  rewrite update_customer_stats_cases.
  destruct (Rules.transition_of _ _).
  - apply UPDATE_customers_WHERE_id_keys.
  - apply UPDATE_customers_WHERE_id_keys.
  - stored. auto.
Qed.

(** Storing a row that passed the constraints keeps the store consistent,
    whatever the customers table became, as long as it lost no key. *)
Lemma consistent_store_row (id : uuid) (NEW : orders.row) (db : database)
    (table : gmap uuid customers.row) :
  consistent db ->
  orders_constraints id NEW db = Ok () ->
  (forall j, is_Some (customers_table db !! j) -> is_Some (table !! j)) ->
  consistent (mkDatabase (<[id := NEW]> (orders_table db)) table).
Proof.
  intros (Huniq & Hnn & Hfk) Hok Hkeys.
  apply orders_constraints_Ok in Hok as ((n & Hn & Hfresh) & Hcust).
  split; [| split].
  - intros i j o o' m. cbn. rewrite !lookup_insert.
    repeat case_decide; subst.
    + auto.
    + intros Ho Ho' Hm Hm'. injection Ho as <-.
      exfalso. apply (Hfresh j o' ltac:(congruence) Ho'). congruence.
    + intros Ho Ho' Hm Hm'. injection Ho' as <-.
      exfalso. apply (Hfresh i o ltac:(congruence) Ho). congruence.
    + apply Huniq.
  - intros i o. cbn. rewrite lookup_insert. case_decide.
    + intros Ho. injection Ho as <-. congruence.
    + apply Hnn.
  - intros i o c. cbn. rewrite lookup_insert. case_decide.
    + intros Ho Hc. injection Ho as <-. apply Hkeys, Hcust, Hc.
    + intros Ho Hc. apply Hkeys. apply (Hfk i o c Ho Hc).
Qed.

(** A customers table with the same or more keys keeps the store
    consistent. *)
Lemma consistent_customers (db : database) (table : gmap uuid customers.row) :
  consistent db ->
  (forall j, is_Some (customers_table db !! j) -> is_Some (table !! j)) ->
  consistent (with_customers db table).
Proof.
  intros (Huniq & Hnn & Hfk) Hkeys. split; [| split].
  - exact Huniq.
  - exact Hnn.
  - intros i o c Ho Hc. apply Hkeys. apply (Hfk i o c Ho Hc).
Qed.

Lemma UPDATE_customers_consistent (now : timestamptz) (k : uuid) (u : customers_changes.t)
    (db : database) :
  consistent db -> consistent (after db (UPDATE_customers now k u db)).
Proof.
  intros Hdb. unfold UPDATE_customers.
  destruct (UPDATE_customers_WHERE_id now (Some k) _ (customers_table db))
    as [table |] eqn:Hu; cbn [mbind result_bind after]; [| exact Hdb].
  apply consistent_customers; [exact Hdb |].
  intros j. apply (UPDATE_customers_WHERE_id_keys _ _ _ _ _ j Hu).
Qed.

(** Every write request of the order and customer services keeps the
    store consistent: order numbers stay unique over the whole table and
    not null, and every customer reference of an order resolves. *)
Theorem requests_keep_orders_consistent (r : request) (db : database) :
  consistent db -> consistent (perform r db).
Proof.
  intros Hdb.
  destruct r as [tz now k orderData | now orderId updates | orderId
                | now k customerData | now customerId updates | now customerId
                | now today customerId orderAmount];
    unfold perform, answer.
  - unfold OrderService.createOrder, INSERT_orders, store_orders_row.
    destruct (set_order_number tz now _ (orders_table db)) as [NEW' |];
      cbn [mbind result_bind after]; [| exact Hdb].
    destruct (orders_table db !! k); [exact Hdb |].
    destruct (orders_constraints k NEW' db) as [[] |] eqn:Hok;
      cbn [mbind result_bind after]; [| exact Hdb].
    apply (consistent_store_row k NEW' db (customers_table db) Hdb Hok). auto.
  - unfold OrderService.updateOrder, UPDATE_orders.
    destruct (orders_table db !! orderId) as [OLD |]; [| exact Hdb].
    set (NEW := update_orders_updated_at now _).
    destruct (orders_constraints orderId NEW db) as [[] |] eqn:Hok;
      cbn [mbind result_bind after]; [| exact Hdb].
    destruct (update_customer_stats_trigger now OLD NEW _) as [table |] eqn:Htrig;
      cbn [mbind result_bind after]; [| exact Hdb].
    apply (consistent_store_row orderId NEW db table Hdb Hok).
    intros j. apply (update_customer_stats_trigger_keys _ _ _ _ _ j Htrig).
  - destruct Hdb as (Huniq & Hnn & Hfk). cbn. split; [| split].
    + intros i j o o' n. cbn. rewrite !lookup_delete_Some.
      intros [_ Ho] [_ Ho']. apply (Huniq i j o o' n Ho Ho').
    + intros i o. cbn. rewrite lookup_delete_Some. intros [_ Ho]. apply (Hnn i o Ho).
    + intros i o c. cbn. rewrite lookup_delete_Some. intros [_ Ho]. apply (Hfk i o c Ho).
  - unfold CustomerService.createCustomer, INSERT_customers.
    destruct (customers_table db !! k) eqn:Hk; [exact Hdb |].
    destruct (customers_constraints _) as [[] |]; cbn [mbind result_bind after];
      [| exact Hdb].
    apply consistent_customers; [exact Hdb |].
    intros j Hj. rewrite lookup_insert. case_decide; [eexists; reflexivity | exact Hj].
  - unfold CustomerService.updateCustomer.
    destruct (customers_table db !! customerId); [| exact Hdb].
    apply UPDATE_customers_consistent. exact Hdb.
  - destruct Hdb as (Huniq & Hnn & Hfk).
    unfold CustomerService.deleteCustomer, DELETE_customers. cbn [after].
    split; [| split].
    + intros i j o o' n. cbn. rewrite !lookup_fmap.
      destruct (orders_table db !! i) as [a |] eqn:Ha; [| discriminate].
      destruct (orders_table db !! j) as [b |] eqn:Hb; [| discriminate].
      cbn. intros Ho Ho' Hn Hn'. injection Ho as <-. injection Ho' as <-.
      apply (Huniq i j a b n Ha Hb).
      * destruct (holds _) in Hn; exact Hn.
      * destruct (holds _) in Hn'; exact Hn'.
    + intros i o. cbn. rewrite lookup_fmap.
      destruct (orders_table db !! i) as [a |] eqn:Ha; [| discriminate].
      cbn. intros Ho. injection Ho as <-.
      pose proof (Hnn i a Ha) as Hnum. destruct (holds _); exact Hnum.
    + intros i o c. cbn. rewrite lookup_fmap.
      destruct (orders_table db !! i) as [a |] eqn:Ha; [| discriminate].
      cbn. intros Ho. injection Ho as <-.
      destruct (orders.customer_id a) as [c0 |] eqn:Hc0; cbn.
      * destruct (N.eqb_spec c0 customerId) as [-> | Hne]; cbn; [discriminate |].
        rewrite Hc0. intros Hc. injection Hc as <-.
        rewrite lookup_delete_ne by congruence. apply (Hfk i a c0 Ha Hc0).
      * rewrite Hc0. discriminate.
  - unfold CustomerService.updateCustomerOrderStats, CustomerService.updateCustomer.
    destruct (customers_table db !! customerId); [| exact Hdb].
    apply UPDATE_customers_consistent. exact Hdb.
Qed.

(** The store with C and C's pending order is consistent, and stays so
    when the order is served. *)
Lemma requests_keep_orders_consistent_example :
  consistent Examples.store_25_50 /\
  consistent
    (perform
       (updateOrder (Examples.on_2025_08_11 12 30) 3%N
          (orders_changes.mk None None (Some (Some served)) None))
       Examples.store_25_50).
Proof.
  assert (Hdb : consistent Examples.store_25_50).
  { split; [| split].
    - intros i j o o' n Hi Hj _ _. unfold Examples.store_25_50 in Hi, Hj. cbn in Hi, Hj.
      apply lookup_singleton_Some in Hi as [<- _].
      apply lookup_singleton_Some in Hj as [<- _]. reflexivity.
    - intros i o Hi. unfold Examples.store_25_50 in Hi. cbn in Hi.
      apply lookup_singleton_Some in Hi as [_ <-]. discriminate.
    - intros i o c Hi Hc. unfold Examples.store_25_50 in Hi. cbn in Hi.
      apply lookup_singleton_Some in Hi as [_ <-]. cbn in Hc. injection Hc as <-.
      exists Examples.customer_C. reflexivity. }
  split; [exact Hdb |].
  apply requests_keep_orders_consistent. exact Hdb.
Defined.

End ConstraintsKept.

(* ===================================================================== *)
(** * Further theorems: order numbers across restaurants *)
(* ===================================================================== *)

Section NumbersAcrossRestaurants.
Import Triggers Statements.

Lemma COUNT_positive {row : Type} (f : row -> bool) (table : gmap uuid row)
    (k : uuid) (o : row) :
  table !! k = Some o -> f o = true -> (0 <? COUNT f table) = true.
Proof.
  intros Hk Hf. unfold COUNT. apply Z.ltb_lt.
  assert (Hin : filter (fun kv : uuid * row => Is_true (f kv.2)) table !! k = Some o)
    by (apply map_lookup_filter_Some; split; [exact Hk | cbn; rewrite Hf; exact I]).
  destruct (size (filter (fun kv : uuid * row => Is_true (f kv.2)) table)) eqn:Hsize;
    [| lia].
  apply map_size_empty_iff in Hsize. rewrite Hsize, lookup_empty in Hin. discriminate.
Qed.

(** The generator counts the orders of one restaurant, the uniqueness of
    order numbers spans the table: an order sent without a number is
    refused when the number generated for it is held by any stored
    order, of whichever restaurant. *)
Theorem INSERT_orders_refuses_number_of_other_restaurant
    (tz : Z) (now : timestamptz) (id : uuid) (NEW : orders.row) (db : database)
    (k : uuid) (o : orders.row) (n : string) :
  orders.order_number NEW = None ->
  Z.abs (orders.total_amount NEW) < decimal_10_2_limit ->
  orders_table db !! id = None ->
  generate_order_number tz now (orders.restaurant_id NEW) (orders_table db) = Ok n ->
  orders_table db !! k = Some o ->
  orders.order_number o = Some n ->
  INSERT_orders tz now id NEW db = Err (unique_violation "orders_order_number_key").
Proof.
  intros Hnum Hamount Hid Hgen Hk Ho.
  unfold INSERT_orders, set_order_number. rewrite Hnum, Hgen.
  cbn [is_null sql_or sql_eq holds mbind result_bind].
  unfold store_orders_row. rewrite Hid.
  unfold orders_constraints. cbn [orders.total_amount orders.order_number].
  rewrite decimal_10_2_in_range by exact Hamount. cbn [mbind result_bind].
  rewrite delete_id by exact Hid.
  rewrite (COUNT_positive _ _ k o Hk); [reflexivity |].
  rewrite Ho. cbn. rewrite String.eqb_refl. reflexivity.
Qed.

(** Restaurant 2's first order of the day, after restaurant 1's. *)
Lemma INSERT_orders_refuses_number_of_other_restaurant_example :
  INSERT_orders 0 (Examples.on_2025_08_11 12 5) 2%N MoreExamples.first_order_of_restaurant_2
    MoreExamples.one_order_of_restaurant_1
  = Err (unique_violation "orders_order_number_key").
Proof.
  apply (INSERT_orders_refuses_number_of_other_restaurant
           0 (Examples.on_2025_08_11 12 5) 2%N MoreExamples.first_order_of_restaurant_2
           MoreExamples.one_order_of_restaurant_1 1%N
           (orders.mk 1%N None (Some "20250811-0001") (Some pending) 1000
              (Some (Examples.on_2025_08_11 12 0)) (Some (Examples.on_2025_08_11 12 0)))
           "20250811-0001");
    try (vm_compute; reflexivity).
Defined.

End NumbersAcrossRestaurants.

(* ===================================================================== *)
(** * Further theorems: what a provisioning run leaves behind *)
(* ===================================================================== *)

Section ProvisioningRuns.
Import Provisioning.

Lemma owners_by_email_nil (e : string) (t : gmap uuid kitchen_owners.row)
    (k : uuid) (r : kitchen_owners.row) :
  owners_by_email e t = [] ->
  t !! k = Some r ->
  String.eqb (kitchen_owners.email r) e = false.
Proof.
  unfold owners_by_email. intros Hnil Hk.
  apply fmap_nil_inv in Hnil.
  destruct (String.eqb (kitchen_owners.email r) e) eqn:He; [| reflexivity].
  exfalso.
  assert (Hin : In (k, r)
                  (List.filter (fun kv : uuid * kitchen_owners.row =>
                                  String.eqb (kitchen_owners.email kv.2) e)
                     (map_to_list t))).
  { apply filter_In. split; [| exact He].
    apply list_elem_of_In. apply elem_of_map_to_list. exact Hk. }
  rewrite Hnil in Hin. destruct Hin.
Qed.

(** After the owner row of an address is inserted in a table that had
    none, the existence check finds exactly that row. *)
Lemma owners_by_email_inserted (e : string) (t : gmap uuid kitchen_owners.row)
    (k : uuid) (r : kitchen_owners.row) :
  owners_by_email e t = [] ->
  t !! k = None ->
  kitchen_owners.email r = e ->
  owners_by_email e (<[k := r]> t) = [k].
Proof.
  intros Hnil Hk He. unfold owners_by_email.
  rewrite (filter_pairs_only (fun r => String.eqb (kitchen_owners.email r) e)
             (map_to_list (<[k := r]> t)) k r).
  - reflexivity.
  - apply NoDup_fst_map_to_list.
  - apply elem_of_map_to_list. apply lookup_insert_eq.
  - rewrite He. apply String.eqb_refl.
  - intros k' r' Hin Hf. apply elem_of_map_to_list in Hin.
    rewrite lookup_insert in Hin. case_decide; [congruence |].
    rewrite (owners_by_email_nil e t k' r' Hnil Hin) in Hf. discriminate.
Qed.

(** A run that does not answer 201 leaves the platform exactly as it
    was; when the identity provider refuses the account, the owner row
    inserted just before is taken out again. *)
Theorem serve_changes_nothing_unless_created (d : draws) (req : Request) (p : platform) :
  status (fst (serve d req p)) <> 201 ->
  snd (serve d req p) = p.
Proof.
  unfold serve.
  destruct (String.eqb (method req) "OPTIONS"); [reflexivity |].
  destruct (negb (String.eqb (method req) "POST")); [reflexivity |].
  destruct (json req) as [requestData |]; [| reflexivity].
  destruct (first_missing_field requestData); [reflexivity |].
  destruct (single _); [reflexivity |].
  unfold insert_kitchen_owner.
  destruct (kitchen_owners_table p !! owner_key d) eqn:Hfresh; [reflexivity |].
  destruct (owners_by_email _ _); [| reflexivity].
  destruct (is_plan _); [| reflexivity].
  destruct (createUser _ _ _); cbn [fst snd status].
  - intros H. contradiction H. reflexivity.
  - intros _. rewrite delete_insert_id by exact Hfresh. destruct p; reflexivity.
Qed.

(** A request with a subscription amount of zero is read as lacking the
    amount and changes nothing. *)
Lemma serve_changes_nothing_unless_created_example :
  serve Examples.some_draws MoreExamples.provision_for_free MoreExamples.empty_platform
  = (mkResponse 400 "Missing required field: subscription_amount",
     MoreExamples.empty_platform).
Proof.
  rewrite (surjective_pairing
             (serve Examples.some_draws MoreExamples.provision_for_free
                MoreExamples.empty_platform)).
  rewrite (serve_changes_nothing_unless_created Examples.some_draws
             MoreExamples.provision_for_free MoreExamples.empty_platform)
    by (vm_compute; discriminate).
  f_equal.
Defined.

(** A run that answers 201 has created the owner row of the address and
    its identity-provider account and linked the two; from then on every
    POST request for that address that has all the required fields is
    refused with 409 and changes nothing, whatever its other fields and
    whatever the later run draws. *)
Theorem serve_created_is_linked_and_final (d : draws) (req : Request) (p : platform) :
  status (fst (serve d req p)) = 201 ->
  exists data e,
    json req = Some data /\ email data = Some e /\
    repaired e (snd (serve d req p)) = true /\
    (auth_users.email <$> auth_users_table (snd (serve d req p)) !! auth_key d) = Some e /\
    (kitchen_owners.user_id <$>
       kitchen_owners_table (snd (serve d req p)) !! owner_key d) = Some (Some (auth_key d)) /\
    forall d' req' data',
      method req' = "POST" ->
      json req' = Some data' ->
      first_missing_field data' = None ->
      email data' = Some e ->
      serve d' req' (snd (serve d req p))
      = (mkResponse 409 "Kitchen owner with this email already exists",
         snd (serve d req p)).
Proof.
  unfold serve at 1 2 3 4 6 7.
  destruct (String.eqb (method req) "OPTIONS") eqn:Hopt; [cbn; discriminate |].
  destruct (negb (String.eqb (method req) "POST")) eqn:Hpost; [cbn; discriminate |].
  destruct (json req) as [data |] eqn:Hjson; [| cbn; discriminate].
  destruct (first_missing_field data) eqn:Hfields; [cbn; discriminate |].
  assert (He : exists e, email data = Some e).
  { unfold first_missing_field in Hfields.
    destruct (email data) as [e |]; [exists e; reflexivity | discriminate]. }
  destruct He as [e He]. rewrite He. cbn [default from_option id].
  destruct (single (owners_by_email e (kitchen_owners_table p))); [cbn; discriminate |].
  unfold insert_kitchen_owner. cbn [kitchen_owners.email].
  destruct (kitchen_owners_table p !! owner_key d) eqn:Hfresh; [cbn; discriminate |].
  destruct (owners_by_email e (kitchen_owners_table p)) eqn:Hnone; [| cbn; discriminate].
  destruct (is_plan _); [| cbn; discriminate].
  unfold createUser.
  destruct (auth_users_table p !! auth_key d) eqn:Hauth; [cbn; discriminate |].
  destruct (List.filter _ (map_to_list (auth_users_table p))); [| cbn; discriminate].
  intros _. cbn [fst snd kitchen_owners_table auth_users_table].
  rewrite alter_insert_eq.
  set (owner := link_owner (auth_key d) _).
  assert (Hfound : owners_by_email e (<[owner_key d := owner]> (kitchen_owners_table p))
                   = [owner_key d])
    by (apply owners_by_email_inserted; [exact Hnone | exact Hfresh | reflexivity]).
  exists data, e. split; [reflexivity |]. split; [exact He |].
  split; [| split; [| split]].
  - unfold repaired. cbn [kitchen_owners_table auth_users_table].
    rewrite Hfound, lookup_insert_eq. cbn. rewrite lookup_insert_eq. cbn.
    apply String.eqb_refl.
  - rewrite lookup_insert_eq. reflexivity.
  - rewrite lookup_insert_eq. reflexivity.
  - intros d' req' data' Hmethod' Hjson' Hfields' He'.
    unfold serve. rewrite Hmethod', Hjson', Hfields', He'.
    change (String.eqb "POST" "OPTIONS") with false.
    change (String.eqb "POST" "POST") with true.
    cbv beta iota zeta delta [negb default from_option id].
    cbn [kitchen_owners_table]. rewrite Hfound. reflexivity.
Qed.

(** The first run for owner@example.com on an empty platform, and a
    later request for the same address under another name and plan. *)
Lemma serve_created_is_linked_and_final_example :
  status (fst (serve Examples.some_draws Examples.provision_again
                 MoreExamples.empty_platform)) = 201 /\
  repaired "owner@example.com"
    (snd (serve Examples.some_draws Examples.provision_again MoreExamples.empty_platform))
  = true /\
  serve Examples.some_draws MoreExamples.provision_under_another_name
    (snd (serve Examples.some_draws Examples.provision_again MoreExamples.empty_platform))
  = (mkResponse 409 "Kitchen owner with this email already exists",
     snd (serve Examples.some_draws Examples.provision_again MoreExamples.empty_platform)).
Proof.
  assert (H201 : status (fst (serve Examples.some_draws Examples.provision_again
                                MoreExamples.empty_platform)) = 201)
    by (vm_compute; reflexivity).
  split; [exact H201 |].
  destruct (serve_created_is_linked_and_final Examples.some_draws
              Examples.provision_again MoreExamples.empty_platform H201)
    as (data & e & Hjson & He & Hrep & _ & _ & Hlater).
  cbn in Hjson. injection Hjson as <-. cbn in He. injection He as <-.
  split; [exact Hrep |].
  apply (Hlater Examples.some_draws MoreExamples.provision_under_another_name
           (mkRequest (Some "owner@example.com") (Some "Someone Else") (Some "premium")
              (Some "pay_2") (Some 9900) (Some "2027-01-01T00:00:00Z")));
    reflexivity.
Defined.

End ProvisioningRuns.

(* ===================================================================== *)
(** * Further theorems: stored order items and the catalog *)
(* ===================================================================== *)

Section StoredOrderItems.
Import OrderItems MenuService.

(** What a row accepted by [validate_order_item] refers to. *)
Lemma validate_order_item_Ok (NEW r : order_items.row) (c : catalog) :
  validate_order_item NEW c = Ok r ->
  (exists m item o,
      order_items.menu_item_id NEW = Some m /\ order_items.combo_meal_id NEW = None /\
      menu_items_table c !! m = Some item /\
      orders_of_items c !! order_items.order_id NEW = Some o /\
      menu_items.restaurant_id item = orders.restaurant_id o) \/
  (exists m meal o,
      order_items.menu_item_id NEW = None /\ order_items.combo_meal_id NEW = Some m /\
      combo_meals_table c !! m = Some meal /\
      orders_of_items c !! order_items.order_id NEW = Some o /\
      combo_meals.restaurant_id meal = orders.restaurant_id o).
Proof.
  unfold validate_order_item.
  destruct (order_items.menu_item_id NEW) as [m |],
    (order_items.combo_meal_id NEW) as [k |]; cbn; try discriminate.
  - destruct (menu_items_table c !! m) as [item |] eqn:Hitem; cbn; [| discriminate].
    destruct (orders_of_items c !! order_items.order_id NEW) as [o |] eqn:Ho; cbn;
      [| discriminate].
    destruct (N.eqb_spec (menu_items.restaurant_id item) (orders.restaurant_id o));
      cbn; [| discriminate].
    intros _. left. exists m, item, o. repeat split; assumption.
  - destruct (combo_meals_table c !! k) as [meal |] eqn:Hmeal; cbn; [| discriminate].
    destruct (orders_of_items c !! order_items.order_id NEW) as [o |] eqn:Ho; cbn;
      [| discriminate].
    destruct (N.eqb_spec (combo_meals.restaurant_id meal) (orders.restaurant_id o));
      cbn; [| discriminate].
    intros _. right. exists k, meal, o. repeat split; assumption.
Qed.

Lemma validate_order_item_well_referenced (NEW r : order_items.row) (c : catalog) :
  validate_order_item NEW c = Ok r -> well_referenced c NEW.
Proof.
  intros H. apply validate_order_item_Ok in H as
    [(m & item & o & Hm & Hk & Hitem & Ho & Hr) | (m & meal & o & Hm & Hk & Hmeal & Ho & Hr)].
  - exists o. split; [exact Ho |]. left. exists m, item. repeat split; assumption.
  - exists o. split; [exact Ho |]. right. exists m, meal. repeat split; assumption.
Qed.

(** No insert or update of an order item fails on the table's CHECK
    [check_item_reference]: the trigger has refused every row the CHECK
    would refuse before the CHECK is looked at. *)
Theorem check_item_reference_never_fires (id : uuid) (NEW : order_items.row)
    (set : order_items.row -> order_items.row) (c : catalog) :
  INSERT_order_items id NEW c <> Err (check_violation "check_item_reference") /\
  UPDATE_order_items id set c <> Err (check_violation "check_item_reference").
Proof.
  assert (Hcheck : forall N r, validate_order_item N c = Ok r ->
            order_items_constraints r c <> Err (check_violation "check_item_reference")).
  { intros N r Hv. pose proof (validate_order_item_returns_NEW N r c Hv) as ->.
    unfold order_items_constraints.
    destruct (negb (0 <? order_items.quantity N)); [discriminate |].
    assert (Hc : check_item_reference N = true).
    { unfold check_item_reference.
      apply validate_order_item_Ok in Hv as
        [(m & item & o & -> & -> & _) | (m & meal & o & -> & -> & _)]; reflexivity. }
    rewrite Hc. cbn.
    destruct (orders_of_items c !! order_items.order_id N); discriminate. }
  split.
  - unfold INSERT_order_items.
    destruct (validate_order_item NEW c) as [r | e] eqn:Hv; cbn [mbind result_bind].
    + destruct (order_items_table c !! id); [discriminate |].
      pose proof (Hcheck NEW r Hv) as Hne.
      destruct (order_items_constraints r c) as [[] | e]; cbn [mbind result_bind];
        [discriminate | congruence].
    + unfold validate_order_item in Hv.
      destruct (holds _) in Hv; [congruence |].
      destruct (order_items.menu_item_id NEW);
        [destruct (negb _) in Hv; cbn [mbind result_bind] in Hv; [congruence |] |
         cbn [mbind result_bind] in Hv];
        (destruct (order_items.combo_meal_id NEW);
         [destruct (negb _) in Hv; cbn [mbind result_bind] in Hv; congruence |
          cbn [mbind result_bind] in Hv; congruence]).
  - unfold UPDATE_order_items.
    destruct (order_items_table c !! id) as [OLD |]; [| discriminate].
    destruct (validate_order_item (set OLD) c) as [r | e] eqn:Hv; cbn [mbind result_bind].
    + pose proof (Hcheck (set OLD) r Hv) as Hne.
      destruct (order_items_constraints r c) as [[] | e]; cbn [mbind result_bind];
        [discriminate | congruence].
    + unfold validate_order_item in Hv.
      destruct (holds _) in Hv; [congruence |].
      destruct (order_items.menu_item_id (set OLD));
        [destruct (negb _) in Hv; cbn [mbind result_bind] in Hv; [congruence |] |
         cbn [mbind result_bind] in Hv];
        (destruct (order_items.combo_meal_id (set OLD));
         [destruct (negb _) in Hv; cbn [mbind result_bind] in Hv; congruence |
          cbn [mbind result_bind] in Hv; congruence]).
Qed.

Lemma with_order_items_well_referenced (c : catalog) (t : gmap uuid order_items.row)
    (r : order_items.row) :
  well_referenced (with_order_items c t) r <-> well_referenced c r.
Proof. reflexivity. Qed.

(** Every stored order item keeps referring to exactly one of a menu item
    and a combo meal of its order's restaurant, whatever order item is
    inserted or updated. *)
Theorem order_items_stay_well_referenced (id : uuid) (NEW : order_items.row)
    (set : order_items.row -> order_items.row) (c c' : catalog) :
  items_well_referenced c ->
  INSERT_order_items id NEW c = Ok c' \/ UPDATE_order_items id set c = Ok c' ->
  items_well_referenced c'.
Proof.
  intros Hinv [H | H].
  - unfold INSERT_order_items in H.
    destruct (validate_order_item NEW c) as [r | e] eqn:Hv; cbn [mbind result_bind] in H;
      [| discriminate H].
    pose proof (validate_order_item_returns_NEW NEW r c Hv) as ->.
    destruct (order_items_table c !! id); [discriminate H |].
    destruct (order_items_constraints NEW c) as [[] | e]; cbn [mbind result_bind] in H;
      [| discriminate H].
    apply Ok_inj in H. subst c'. intros k r Hk. cbn in Hk.
    apply with_order_items_well_referenced.
    destruct (decide (k = id)) as [-> | Hne].
    + rewrite lookup_insert_eq in Hk. injection Hk as <-.
      exact (validate_order_item_well_referenced _ _ _ Hv).
    + rewrite lookup_insert_ne in Hk by congruence. exact (Hinv k r Hk).
  - unfold UPDATE_order_items in H.
    destruct (order_items_table c !! id) as [OLD |];
      [| apply Ok_inj in H; subst c'; exact Hinv].
    destruct (validate_order_item (set OLD) c) as [r | e] eqn:Hv;
      cbn [mbind result_bind] in H; [| discriminate H].
    pose proof (validate_order_item_returns_NEW _ r c Hv) as ->.
    destruct (order_items_constraints (set OLD) c) as [[] | e];
      cbn [mbind result_bind] in H; [| discriminate H].
    apply Ok_inj in H. subst c'. intros k r Hk. cbn in Hk.
    apply with_order_items_well_referenced.
    destruct (decide (k = id)) as [-> | Hne].
    + rewrite lookup_insert_eq in Hk. injection Hk as <-.
      exact (validate_order_item_well_referenced _ _ _ Hv).
    + rewrite lookup_insert_ne in Hk by congruence. exact (Hinv k r Hk).
Qed.

Lemma order_items_stay_well_referenced_example :
  items_well_referenced MoreExamples.one_line_stored /\
  items_well_referenced
    (with_order_items MoreExamples.one_line_stored
       (<[2%N := Examples.line None (Some 20%N)]>
          (order_items_table MoreExamples.one_line_stored))).
Proof.
  assert (Hinv : items_well_referenced MoreExamples.one_line_stored).
  { intros k r Hk.
    change (({[1%N := Examples.line (Some 10%N) None]} : gmap N _) !! k = Some r) in Hk.
    apply lookup_singleton_Some in Hk as [_ <-].
    eapply (validate_order_item_well_referenced _ _ MoreExamples.one_line_stored).
    vm_compute. reflexivity. }
  split; [exact Hinv |].
  apply (order_items_stay_well_referenced 2%N (Examples.line None (Some 20%N))
           (fun r => r) MoreExamples.one_line_stored _ Hinv).
  left. vm_compute. reflexivity.
Defined.

Lemma sql_eq_holds (x : option uuid) (m : uuid) :
  holds (Sql.sql_eq N.eqb x (Some m)) = true <-> x = Some m.
Proof.
  destruct x as [y |]; cbn; [| split; discriminate].
  destruct (N.eqb_spec y m) as [-> | Hne]; split; try reflexivity; try discriminate.
  intros [= ->]. contradiction.
Qed.

Lemma referencing_items_elem (m k : uuid) (t : gmap uuid order_items.row) :
  In k (referencing_items m t) <->
  exists r, t !! k = Some r /\ order_items.menu_item_id r = Some m.
Proof.
  unfold referencing_items. rewrite <- list_elem_of_In, list_elem_of_fmap. split.
  - intros ([k' r] & -> & Hin). apply list_elem_of_In, filter_In in Hin as [Hin Hf].
    apply list_elem_of_In, elem_of_map_to_list in Hin. cbn in Hf.
    apply sql_eq_holds in Hf. exists r. split; assumption.
  - intros (r & Hk & Hm). exists (k, r). split; [reflexivity |].
    apply list_elem_of_In, filter_In. split.
    + apply list_elem_of_In, elem_of_map_to_list. exact Hk.
    + cbn. apply sql_eq_holds. exact Hm.
Qed.

Lemma fold_left_Err {A B : Type} (f : B -> A -> Sql.result A) (l : list B)
    (e : Sql.sql_error) :
  fold_left (fun acc k => c ← acc; f k c) l (Err e) = Err e.
Proof. induction l as [| k l IH]; [reflexivity | exact IH]. Qed.

(** A menu item can be deleted exactly when no order item refers to it:
    the delete then removes the row and leaves the order items as they
    are. While an order item refers to it, the [SET NULL] action is
    refused by [validate_order_item] and the delete fails. *)
Theorem deleteMenuItem_only_when_unreferenced (m : uuid) (item : menu_items.row)
    (c c' : catalog) :
  menu_items_table c !! m = Some item ->
  (forall k r, order_items_table c !! k = Some r -> check_item_reference r = true) ->
  (deleteMenuItem m c = Ok c' <->
   (forall k r, order_items_table c !! k = Some r ->
                order_items.menu_item_id r <> Some m) /\
   c' = mkCatalog (delete m (menu_items_table c)) (combo_meals_table c)
          (orders_of_items c) (order_items_table c)) /\
  ((exists k r, order_items_table c !! k = Some r /\
                order_items.menu_item_id r = Some m) ->
   deleteMenuItem m c = Err (raise_exception must_reference_one)).
Proof.
  intros Hitem Hcheck. unfold deleteMenuItem, DELETE_menu_items. rewrite Hitem.
  pose proof (referencing_items_elem m) as Helem.
  destruct (referencing_items m (order_items_table c)) as [| k1 rest] eqn:Hl.
  - cbn [fold_left]. split.
    + split.
      * intros H. apply Ok_inj in H. split; [| symmetry; exact H].
        intros k r Hk Hm.
        assert (Hin : In k (referencing_items m (order_items_table c)))
          by (apply Helem; exists r; split; assumption).
        rewrite Hl in Hin. exact Hin.
      * intros [_ ->]. reflexivity.
    + intros (k & r & Hk & Hm). exfalso.
      assert (Hin : In k (referencing_items m (order_items_table c)))
        by (apply Helem; exists r; split; assumption).
      rewrite Hl in Hin. exact Hin.
  - destruct (proj1 (Helem k1 (order_items_table c))) as (r1 & Hk1 & Hm1).
    { rewrite Hl. left. reflexivity. }
    assert (Herr : fold_left
              (fun acc k => c0 ← acc; UPDATE_order_items k SET_NULL_menu_item_id c0)
              (k1 :: rest)
              (Ok (mkCatalog (delete m (menu_items_table c)) (combo_meals_table c)
                     (orders_of_items c) (order_items_table c)))
            = Err (raise_exception must_reference_one)).
    { cbn [fold_left mbind result_bind].
      assert (Hstep : UPDATE_order_items k1 SET_NULL_menu_item_id
                (mkCatalog (delete m (menu_items_table c)) (combo_meals_table c)
                   (orders_of_items c) (order_items_table c))
              = Err (raise_exception must_reference_one)).
      { unfold UPDATE_order_items. cbn [order_items_table]. rewrite Hk1.
        pose proof (Hcheck k1 r1 Hk1) as Hc. unfold check_item_reference in Hc.
        rewrite Hm1 in Hc.
        unfold validate_order_item, SET_NULL_menu_item_id.
        cbn [order_items.menu_item_id order_items.combo_meal_id].
        destruct (order_items.combo_meal_id r1); [discriminate Hc | reflexivity]. }
      rewrite Hstep. apply (fold_left_Err (fun k c0 =>
        UPDATE_order_items k SET_NULL_menu_item_id c0)). }
    rewrite Herr. split.
    + split; [discriminate |].
      intros [Hnone _]. exfalso. exact (Hnone k1 r1 Hk1 Hm1).
    + intros _. reflexivity.
Qed.

Lemma deleteMenuItem_only_when_unreferenced_example :
  deleteMenuItem 10%N MoreExamples.one_line_stored
    = Err (raise_exception must_reference_one) /\
  deleteMenuItem 10%N Examples.two_restaurants
    = Ok (mkCatalog (delete 10%N (menu_items_table Examples.two_restaurants))
            (combo_meals_table Examples.two_restaurants)
            (orders_of_items Examples.two_restaurants)
            (order_items_table Examples.two_restaurants)).
Proof.
  split.
  - refine (proj2 (deleteMenuItem_only_when_unreferenced 10%N
             (menu_items.mk 1%N 950) MoreExamples.one_line_stored
             MoreExamples.one_line_stored _ _) _).
    + vm_compute. reflexivity.
    + intros k r Hk.
      change (({[1%N := Examples.line (Some 10%N) None]} : gmap N _) !! k = Some r) in Hk.
      apply lookup_singleton_Some in Hk as [_ <-]. reflexivity.
    + exists 1%N, (Examples.line (Some 10%N) None). split; vm_compute; reflexivity.
  - refine (proj2 (proj1 (deleteMenuItem_only_when_unreferenced 10%N
             (menu_items.mk 1%N 950) Examples.two_restaurants _ _ _)) _).
    + vm_compute. reflexivity.
    + intros k r Hk. cbn in Hk. rewrite lookup_empty in Hk. discriminate Hk.
    + split; [| reflexivity].
      intros k r Hk. cbn in Hk. rewrite lookup_empty in Hk. discriminate Hk.
Defined.

End StoredOrderItems.

(* ===================================================================== *)
(** * Further theorems: where the two order-number generators agree *)
(* ===================================================================== *)

Section GeneratorsAgree.
Import Sql Triggers Rules.

Lemma remove_dashes_app (a b : string) :
  Clock.remove_dashes (a ++ b) = Clock.remove_dashes a ++ Clock.remove_dashes b.
Proof.
  induction a as [| ch a IH]; [reflexivity |].
  change (Clock.remove_dashes (String ch (a ++ b))
          = Clock.remove_dashes (String ch a) ++ Clock.remove_dashes b).
  cbn [Clock.remove_dashes].
  destruct (Ascii.eqb ch "-"); rewrite IH; reflexivity.
Qed.

Lemma remove_dashes_uint (d : Decimal.uint) :
  Clock.remove_dashes (NilEmpty.string_of_uint d) = NilEmpty.string_of_uint d.
Proof. induction d as [| d IH | d IH | d IH | d IH | d IH | d IH | d IH | d IH | d IH | d IH];
  cbn; [reflexivity | rewrite IH; reflexivity ..]. Qed.

Lemma remove_dashes_digits (n : Z) : Clock.remove_dashes (Clock.digits n) = Clock.digits n.
Proof.
  unfold Clock.digits, NilZero.string_of_uint.
  destruct (N.to_uint (Z.to_N n)) as [| d | d | d | d | d | d | d | d | d | d];
    [reflexivity | ..];
    match goal with |- Clock.remove_dashes ?s = _ => apply (remove_dashes_uint _) end.
Qed.

Lemma remove_dashes_zeros (k : nat) : Clock.remove_dashes (Clock.zeros k) = Clock.zeros k.
Proof. induction k as [| k IH]; cbn; [reflexivity | rewrite IH; reflexivity]. Qed.

Lemma remove_dashes_zero_padded (w : nat) (n : Z) :
  Clock.remove_dashes (Clock.zero_padded w n) = Clock.zero_padded w n.
Proof.
  unfold Clock.zero_padded. cbv zeta.
  rewrite remove_dashes_app, remove_dashes_zeros, remove_dashes_digits. reflexivity.
Qed.

(** The client's date prefix is the store's, for the UTC day. *)
Lemma toISOString_date_without_dashes (today : Z) :
  Clock.remove_dashes (Clock.toISOString_date today)
  = Clock.to_char_YYYYMMDD (Clock.DATE 0 (today * Clock.usec_per_msec)).
Proof.
  unfold Clock.toISOString_date, Clock.to_char_YYYYMMDD, Clock.DATE. cbv zeta.
  rewrite Z.add_0_r.
  rewrite !remove_dashes_app, !remove_dashes_zero_padded. reflexivity.
Qed.

Lemma COUNT_ext_in {row : Type} (f g : row -> bool) (table : gmap uuid row) :
  (forall k o, table !! k = Some o -> f o = g o) -> COUNT f table = COUNT g table.
Proof.
  intros Hfg. unfold COUNT. do 2 f_equal.
  apply map_filter_ext. intros i x Hi. cbn. rewrite (Hfg i x Hi). reflexivity.
Qed.

(** In a session whose time zone is UTC, with fewer than 9999 orders of
    the restaurant on the UTC day and none of them created in the day's
    last millisecond, [OrderService.generateOrderNumber] computes the
    number that [generate_order_number] computes at the same instant. *)
Theorem order_number_generators_agree (today : Z) (restaurant : uuid)
    (table : gmap uuid orders.row) :
  0 <= Clock.year (Clock.civil_from_days (Clock.DATE 0 (today * Clock.usec_per_msec)))
    <= 9999 ->
  orders_created_on 0 restaurant (Clock.DATE 0 (today * Clock.usec_per_msec)) table + 1
    < 10000 ->
  (forall k o c,
      table !! k = Some o -> orders.restaurant_id o = restaurant ->
      orders.created_at o = Some c ->
      Clock.DATE 0 c = Clock.DATE 0 (today * Clock.usec_per_msec) ->
      c < Clock.DATE 0 (today * Clock.usec_per_msec) * Clock.usec_per_day + 86399999000) ->
  generate_order_number 0 (today * Clock.usec_per_msec) restaurant table
  = Ok (OrderService.generateOrderNumber today restaurant table).
Proof.
  intros _ Hlt Hlast. rewrite generate_order_number_count.
  pose proof (COUNT_not_negative
                (fun o => N.eqb (orders.restaurant_id o) restaurant
                          && match orders.created_at o with
                             | Some c => Z.eqb (Clock.DATE 0 c)
                                           (Clock.DATE 0 (today * Clock.usec_per_msec))
                             | None => false
                             end) table) as Hge.
  fold (orders_created_on 0 restaurant (Clock.DATE 0 (today * Clock.usec_per_msec)) table)
    in Hge.
  unfold OrderService.generateOrderNumber. cbv zeta.
  rewrite padStart_zero_padded, toISOString_date_without_dashes.
  assert (Hcount :
    COUNT (fun o =>
      holds (sql_and (Some (N.eqb (orders.restaurant_id o) restaurant))
               (sql_and
                  ((fun c => Clock.DATE 0 (today * Clock.usec_per_msec)
                             * Clock.usec_per_day <=? c) <$> orders.created_at o)
                  ((fun c => c <? Clock.DATE 0 (today * Clock.usec_per_msec)
                                  * Clock.usec_per_day + 86399999000)
                     <$> orders.created_at o))))
      table
    = orders_created_on 0 restaurant (Clock.DATE 0 (today * Clock.usec_per_msec)) table).
  { unfold orders_created_on. apply COUNT_ext_in. intros k o Hk.
    specialize (Hlast k o).
    destruct (N.eqb_spec (orders.restaurant_id o) restaurant) as [Hr | Hr];
      destruct (orders.created_at o) as [c |]; cbn; try reflexivity.
    specialize (Hlast c Hk Hr eq_refl).
    clear Hlt Hge. revert Hlast.
    generalize (Clock.DATE 0 (today * Clock.usec_per_msec)).
    intros D Hlast. unfold Clock.DATE, Clock.usec_per_day in *.
    rewrite Z.add_0_r in *.
    pose proof (Z.div_mod c 86400000000 ltac:(lia)) as Hdiv.
    pose proof (Z.mod_pos_bound c 86400000000 ltac:(lia)) as Hmod.
    destruct (Z.eqb_spec (c / 86400000000) D) as [HD | HD].
    - specialize (Hlast HD).
      destruct (Z.leb_spec (D * 86400000000) c);
        destruct (Z.ltb_spec c (D * 86400000000 + 86399999000));
        try reflexivity; exfalso; lia.
    - destruct (Z.leb_spec (D * 86400000000) c);
        destruct (Z.ltb_spec c (D * 86400000000 + 86399999000));
        try reflexivity; exfalso; lia. }
  rewrite Hcount.
  rewrite int4_in_range by (unfold int4_min, int4_max; lia).
  cbn [mbind result_bind].
  rewrite int4_in_range by (unfold int4_min, int4_max; lia).
  cbn [mbind result_bind].
  rewrite LPAD_zero_padded by (apply digits_below_10000; lia).
  reflexivity.
Qed.

Lemma order_number_generators_agree_example :
  generate_order_number 0 (Examples.on_2025_08_11 12 0) 1%N
    (orders_table Examples.store_25_50)
  = Ok (OrderService.generateOrderNumber
          (Examples.on_2025_08_11 12 0 / Clock.usec_per_msec) 1%N
          (orders_table Examples.store_25_50)).
Proof.
  apply (order_number_generators_agree
           (Examples.on_2025_08_11 12 0 / Clock.usec_per_msec) 1%N
           (orders_table Examples.store_25_50)).
  - vm_compute. split; discriminate.
  - vm_compute. reflexivity.
  - intros k o c Hk _ Hc _.
    change (({[3%N := Examples.order_25_50 pending (Examples.on_2025_08_11 12 0)]}
               : gmap N _) !! k = Some o) in Hk.
    apply lookup_singleton_Some in Hk as [_ <-].
    injection Hc as <-. vm_compute. reflexivity.
Defined.

End GeneratorsAgree.

(* ===================================================================== *)
(** * Further theorems: finding or creating a customer *)
(* ===================================================================== *)

Section FindOrCreate.
Import Sql Statements CustomerLookup.

Lemma single_filter_Some {V : Type} (f : V -> bool) (t : gmap uuid V) (k : uuid) (v : V) :
  Provisioning.single (List.filter (fun kv => f kv.2) (map_to_list t)) = Some (k, v) ->
  t !! k = Some v /\ f v = true.
Proof.
  intros H.
  assert (Hin : In (k, v) (List.filter (fun kv : uuid * V => f kv.2) (map_to_list t))).
  { destruct (List.filter _ _) as [| x [| y l]]; try discriminate H.
    injection H as ->. left. reflexivity. }
  apply filter_In in Hin as [Hin Hf]. split; [| exact Hf].
  apply elem_of_map_to_list, list_elem_of_In. exact Hin.
Qed.

Lemma single_filter_inserted {V : Type} (f : V -> bool) (t : gmap uuid V) (k : uuid) (v : V) :
  t !! k = None -> f v = true ->
  (forall j w, t !! j = Some w -> f w = false) ->
  Provisioning.single (List.filter (fun kv => f kv.2) (map_to_list (<[k := v]> t)))
  = Some (k, v).
Proof.
  intros Hk Hf Hnone.
  rewrite (filter_pairs_only f (map_to_list (<[k := v]> t)) k v).
  - reflexivity.
  - apply NoDup_fst_map_to_list.
  - apply elem_of_map_to_list. apply lookup_insert_eq.
  - exact Hf.
  - intros j w Hin Hw. apply elem_of_map_to_list in Hin.
    destruct (decide (j = k)) as [-> | Hne]; [reflexivity |].
    rewrite lookup_insert_ne in Hin by congruence.
    rewrite (Hnone j w Hin) in Hw. discriminate Hw.
Qed.

(** What the search of [findOrCreateCustomer] comes back with is a stored
    customer. *)
Lemma found_customer_is_stored (restaurantId : uuid) (info : customerInfo)
    (db : database) (k : uuid) (c : customers.row) :
  match (if truthy (email info)
         then getCustomerByEmail restaurantId (default EmptyString (email info)) db
         else None) with
  | Some c => Some c
  | None =>
      if truthy (phone info)
      then getCustomerByPhone restaurantId (default EmptyString (phone info)) db
      else None
  end = Some (k, c) ->
  customers_table db !! k = Some c.
Proof.
  unfold getCustomerByEmail, getCustomerByPhone.
  destruct (truthy (email info)).
  - destruct (Provisioning.single _) as [[k0 c0] |] eqn:He.
    + intros [= -> ->]. apply single_filter_Some in He as [He _]. exact He.
    + destruct (truthy (phone info)); [| discriminate].
      intros Hp. apply single_filter_Some in Hp as [Hp _]. exact Hp.
  - destruct (truthy (phone info)); [| discriminate].
    intros Hp. apply single_filter_Some in Hp as [Hp _]. exact Hp.
Qed.

Lemma fill_keeps (given stored : option string) :
  truthy stored = true -> default stored (fill given stored) = stored.
Proof. intros H. unfold fill. rewrite H, andb_false_r. reflexivity. Qed.

(** [findOrCreateCustomer] only adds: it leaves the orders alone, it
    returns a stored customer, and every customer that was stored is
    still stored, with its restaurant, its three aggregates and each of
    its name, e-mail address and phone that was not blank unchanged. *)
Theorem findOrCreateCustomer_fills_only_blanks (now : timestamptz) (id restaurantId : uuid)
    (info : customerInfo) (db db' : database) (k : uuid) :
  findOrCreateCustomer now id restaurantId info db = Ok (k, db') ->
  orders_table db' = orders_table db /\
  is_Some (customers_table db' !! k) /\
  forall j c, customers_table db !! j = Some c ->
    exists c', customers_table db' !! j = Some c' /\
      customers.restaurant_id c' = customers.restaurant_id c /\
      customers.total_orders c' = customers.total_orders c /\
      customers.total_spent c' = customers.total_spent c /\
      customers.last_order_at c' = customers.last_order_at c /\
      (truthy (customers.name c) = true -> customers.name c' = customers.name c) /\
      (truthy (customers.email c) = true -> customers.email c' = customers.email c) /\
      (truthy (customers.phone c) = true -> customers.phone c' = customers.phone c).
Proof.
  unfold findOrCreateCustomer. cbv zeta.
  pose proof (found_customer_is_stored restaurantId info db) as Hstored.
  destruct (match (if truthy (email info) then _ else None) with
            | Some c => Some c
            | None => _
            end) as [[k0 c0] |].
  - specialize (Hstored k0 c0 eq_refl).
    assert (Hsame : Ok (k0, db) = Ok (k, db') ->
      orders_table db' = orders_table db /\
      is_Some (customers_table db' !! k) /\
      forall j c, customers_table db !! j = Some c ->
        exists c', customers_table db' !! j = Some c' /\
          customers.restaurant_id c' = customers.restaurant_id c /\
          customers.total_orders c' = customers.total_orders c /\
          customers.total_spent c' = customers.total_spent c /\
          customers.last_order_at c' = customers.last_order_at c /\
          (truthy (customers.name c) = true -> customers.name c' = customers.name c) /\
          (truthy (customers.email c) = true -> customers.email c' = customers.email c) /\
          (truthy (customers.phone c) = true -> customers.phone c' = customers.phone c)).
    { intros H. apply Ok_inj in H. injection H as <- <-.
      split; [reflexivity |]. split; [rewrite Hstored; eexists; reflexivity |].
      intros j c Hj. exists c. repeat split; try reflexivity; exact Hj. }
    assert (Hupdated :
      (db1 ← CustomerService.updateCustomer now k0
               (customers_changes.mk (fill (name info) (customers.name c0))
                  (fill (email info) (customers.email c0))
                  (fill (phone info) (customers.phone c0)) None None None) db;
       Ok (k0, db1)) = Ok (k, db') ->
      orders_table db' = orders_table db /\
      is_Some (customers_table db' !! k) /\
      forall j c, customers_table db !! j = Some c ->
        exists c', customers_table db' !! j = Some c' /\
          customers.restaurant_id c' = customers.restaurant_id c /\
          customers.total_orders c' = customers.total_orders c /\
          customers.total_spent c' = customers.total_spent c /\
          customers.last_order_at c' = customers.last_order_at c /\
          (truthy (customers.name c) = true -> customers.name c' = customers.name c) /\
          (truthy (customers.email c) = true -> customers.email c' = customers.email c) /\
          (truthy (customers.phone c) = true -> customers.phone c' = customers.phone c)).
    { unfold CustomerService.updateCustomer, UPDATE_customers,
        Triggers.UPDATE_customers_WHERE_id.
      rewrite Hstored. cbn [mbind result_bind].
      destruct (customers_constraints _) as [[] | e]; cbn [mbind result_bind];
        [| discriminate].
      intros H. apply Ok_inj in H. injection H as <- <-.
      split; [reflexivity |]. cbn [customers_table with_customers].
      split; [rewrite lookup_insert_eq; eexists; reflexivity |].
      intros j c Hj. destruct (decide (j = k0)) as [-> | Hne].
      - rewrite lookup_insert_eq. eexists. split; [reflexivity |].
        rewrite Hstored in Hj. injection Hj as ->.
        cbn. repeat split; try reflexivity; apply fill_keeps.
      - rewrite lookup_insert_ne by congruence. exists c.
        repeat split; try reflexivity; exact Hj. }
    destruct (truthy (name info) || truthy (email info) || truthy (phone info));
      [| exact Hsame].
    cbn [customers_changes.name customers_changes.email customers_changes.phone].
    destruct (fill (name info) (customers.name c0)),
      (fill (email info) (customers.email c0)),
      (fill (phone info) (customers.phone c0)); first [exact Hsame | exact Hupdated].
  - clear Hstored. unfold CustomerService.createCustomer, INSERT_customers.
    destruct (customers_table db !! id) eqn:Hid; [discriminate |].
    cbn. intros H. apply Ok_inj in H. injection H as <- <-.
    split; [reflexivity |]. cbn.
    split; [rewrite lookup_insert_eq; eexists; reflexivity |].
    intros j c Hj. exists c. rewrite lookup_insert_ne by congruence.
    repeat split; try reflexivity; exact Hj.
Qed.

Lemma findOrCreateCustomer_fills_only_blanks_example :
  exists db',
    findOrCreateCustomer 0 8%N 1%N MoreExamples.dana Examples.store_of_C = Ok (8%N, db') /\
    orders_table db' = orders_table Examples.store_of_C /\
    customers.name <$> customers_table db' !! 7%N = Some (Some "C").
Proof.
  eexists. split; [vm_compute; reflexivity |].
  destruct (findOrCreateCustomer_fills_only_blanks 0 8%N 1%N MoreExamples.dana
              Examples.store_of_C _ 8%N ltac:(vm_compute; reflexivity))
    as (Horders & _ & Hkept).
  split; [exact Horders |]. vm_compute. reflexivity.
Defined.

Lemma fill_same (x : option string) : fill x x = None.
Proof. unfold fill. destruct (truthy x); reflexivity. Qed.

(** Asked again for the customer it has just created for an e-mail
    address, [findOrCreateCustomer] returns that customer and writes
    nothing. *)
Theorem findOrCreateCustomer_again (now now2 : timestamptz) (id id2 restaurantId : uuid)
    (info : customerInfo) (db db1 : database) :
  truthy (email info) = true ->
  customers_table db !! id = None ->
  (forall j c, customers_table db !! j = Some c ->
     of_restaurant_with customers.email restaurantId
       (default EmptyString (email info)) c = false) ->
  findOrCreateCustomer now id restaurantId info db = Ok (id, db1) ->
  findOrCreateCustomer now2 id2 restaurantId info db1 = Ok (id, db1).
Proof.
  intros Hemail Hfresh Hnone H.
  assert (Hcreated : db1 = with_customers db
            (<[id := customers.mk restaurantId (name info) (email info) (phone info)
                       (Some 0) (Some 0) None (Some now)]> (customers_table db))).
  { unfold findOrCreateCustomer in H. cbv zeta in H.
    pose proof (found_customer_is_stored restaurantId info db) as Hstored.
    destruct (match (if truthy (email info) then _ else None) with
              | Some c => Some c
              | None => _
              end) as [[k0 c0] |].
    - exfalso. specialize (Hstored k0 c0 eq_refl).
      assert (Hk0 : k0 = id).
      { destruct (truthy (name info) || truthy (email info) || truthy (phone info));
          [| apply Ok_inj in H; congruence].
        cbn [customers_changes.name customers_changes.email customers_changes.phone]
          in H.
        destruct (fill (name info) (customers.name c0)),
          (fill (email info) (customers.email c0)),
          (fill (phone info) (customers.phone c0));
          try (apply Ok_inj in H; congruence);
          (destruct (CustomerService.updateCustomer _ _ _ _) as [d | e];
           cbn [mbind result_bind] in H; [apply Ok_inj in H; congruence | discriminate H]). }
      subst k0. rewrite Hfresh in Hstored. discriminate Hstored.
    - unfold CustomerService.createCustomer, INSERT_customers in H.
      rewrite Hfresh in H. cbn in H. apply Ok_inj in H. injection H as <-. reflexivity. }
  subst db1. unfold findOrCreateCustomer. cbv zeta. rewrite Hemail.
  unfold getCustomerByEmail at 1. cbn [customers_table with_customers].
  rewrite (single_filter_inserted
             (of_restaurant_with customers.email restaurantId
                (default EmptyString (email info)))
             (customers_table db) id _ Hfresh).
  - rewrite orb_true_r. cbn [orb].
    cbn [customers.name customers.email customers.phone
         customers_changes.name customers_changes.email customers_changes.phone].
    rewrite !fill_same. reflexivity.
  - unfold of_restaurant_with. cbn [customers.restaurant_id customers.email].
    rewrite N.eqb_refl. destruct (email info) as [e |]; [| discriminate Hemail].
    cbn. rewrite String.eqb_refl. reflexivity.
  - exact Hnone.
Qed.

Lemma findOrCreateCustomer_again_example :
  exists db1,
    findOrCreateCustomer 0 8%N 1%N MoreExamples.dana Examples.store_of_C = Ok (8%N, db1) /\
    findOrCreateCustomer 5 9%N 1%N MoreExamples.dana db1 = Ok (8%N, db1).
Proof.
  eexists. split; [vm_compute; reflexivity |].
  apply (findOrCreateCustomer_again 0 5 8%N 9%N 1%N MoreExamples.dana Examples.store_of_C).
  - vm_compute. reflexivity.
  - vm_compute. reflexivity.
  - intros j c Hj.
    change (({[7%N := Examples.customer_C]} : gmap N _) !! j = Some c) in Hj.
    apply lookup_singleton_Some in Hj as [_ <-]. vm_compute. reflexivity.
  - vm_compute. reflexivity.
Defined.

End FindOrCreate.

(* ===================================================================== *)
(** * Further theorems: where the client-side evaluator follows the rule *)
(* ===================================================================== *)

Section ClientSideEvaluator.
Import BusinessHours TimeTexts.

Lemma two_digits_compare_all (a b : Z) :
  0 <= a < 100 -> 0 <= b < 100 ->
  two_digits_compare (Z.to_nat a) (Z.to_nat b) = true.
Proof.
  intros Ha Hb.
  assert (Hall : forallb (fun a => forallb (two_digits_compare a) (seq 0 (Z.to_nat 100)))
                   (seq 0 (Z.to_nat 100)) = true) by (vm_compute; reflexivity).
  rewrite forallb_forall in Hall.
  specialize (Hall (Z.to_nat a)). rewrite forallb_forall in Hall.
  apply Hall; apply in_seq; lia.
Qed.

Lemma compare_zero_padded_2 (a b : Z) (r r' : string) :
  0 <= a < 100 -> 0 <= b < 100 ->
  String.compare (Clock.zero_padded 2 a ++ r) (Clock.zero_padded 2 b ++ r')
  = match a ?= b with Eq => String.compare r r' | ne => ne end.
Proof.
  intros Ha Hb. pose proof (two_digits_compare_all a b Ha Hb) as H.
  unfold two_digits_compare in H. rewrite !Z2Nat.id in H by lia.
  destruct (Clock.zero_padded 2 a) as [| x [| y [| ? ?]]]; try discriminate H.
  destruct (Clock.zero_padded 2 b) as [| x' [| y' [| ? ?]]]; try discriminate H.
  change (String.compare (String x (String y r)) (String x' (String y' r'))
          = match a ?= b with Eq => String.compare r r' | ne => ne end).
  cbn [String.compare].
  destruct (Ascii.compare x x'), (Ascii.compare y y'), (a ?= b);
    first [reflexivity | discriminate H].
Qed.

Lemma zero_padded_2_not_empty (a : Z) (r : string) :
  0 <= a < 100 -> String.eqb (Clock.zero_padded 2 a ++ r) EmptyString = false.
Proof.
  intros Ha. pose proof (two_digits_compare_all a a Ha Ha) as H.
  unfold two_digits_compare in H. rewrite !Z2Nat.id in H by lia.
  destruct (Clock.zero_padded 2 a) as [| x [| y [| ? ?]]]; try discriminate H.
  reflexivity.
Qed.

Lemma append_empty (s : string) : s ++ EmptyString = s.
Proof.
  induction s as [| ch s IH]; [reflexivity |].
  change (String ch (s ++ EmptyString) = String ch s). rewrite IH. reflexivity.
Qed.

(** Texts that begin [HH:MM] compare by the hour, then by the minute,
    then by what follows. *)
Lemma compare_clock_texts (H M H' M' : Z) (r r' : string) :
  0 <= H < 100 -> 0 <= M < 100 -> 0 <= H' < 100 -> 0 <= M' < 100 ->
  String.compare (Clock.zero_padded 2 H ++ ":" ++ Clock.zero_padded 2 M ++ r)
                 (Clock.zero_padded 2 H' ++ ":" ++ Clock.zero_padded 2 M' ++ r')
  = match H ?= H' with
    | Eq => match M ?= M' with Eq => String.compare r r' | ne => ne end
    | ne => ne
    end.
Proof.
  intros HH HM HH' HM'. rewrite compare_zero_padded_2 by assumption.
  destruct (H ?= H'); try reflexivity.
  change (String.compare (String ":" (Clock.zero_padded 2 M ++ r))
                         (String ":" (Clock.zero_padded 2 M' ++ r'))
          = match M ?= M' with Eq => String.compare r r' | ne => ne end).
  cbn [String.compare]. change (Ascii.compare ":" ":") with Eq. cbv iota.
  apply compare_zero_padded_2; assumption.
Qed.

(** The text the client receives for a stored time of whole minutes. *)
Lemma time_out_whole_minutes (t : Z) :
  0 <= t < Clock.usec_per_day -> t mod Clock.usec_per_minute = 0 ->
  Clock.time_out t
  = Clock.zero_padded 2 (t / Clock.usec_per_hour) ++ ":" ++
    Clock.zero_padded 2 (t mod Clock.usec_per_hour / Clock.usec_per_minute) ++ ":00".
Proof.
  intros Ht Hm. unfold Clock.time_out. cbv zeta.
  unfold Clock.usec_per_day, Clock.usec_per_minute, Clock.usec_per_hour,
    Clock.usec_per_second in *.
  assert (Hs : t mod 1000000 = 0) by (Z.div_mod_to_equations; lia).
  rewrite Hs, Hm. reflexivity.
Qed.

(** The hour and minute fields of a time of day are below 100, and give
    its minute of the day. *)
Lemma clock_fields (t : Z) :
  0 <= t < Clock.usec_per_day ->
  0 <= t / Clock.usec_per_hour < 100 /\
  0 <= t mod Clock.usec_per_hour / Clock.usec_per_minute < 100 /\
  minute_of t
  = 60 * (t / Clock.usec_per_hour) + t mod Clock.usec_per_hour / Clock.usec_per_minute /\
  0 <= t mod Clock.usec_per_hour / Clock.usec_per_minute < 60.
Proof.
  unfold minute_of, Clock.usec_per_day, Clock.usec_per_minute, Clock.usec_per_hour.
  intros Ht. repeat split; Z.div_mod_to_equations; lia.
Qed.

Lemma time_of_in_day (tz ts : Z) : 0 <= Clock.time_of tz ts < Clock.usec_per_day.
Proof.
  unfold Clock.time_of. apply Z.mod_pos_bound. unfold Clock.usec_per_day. lia.
Qed.

(** What the client-side evaluator computes on the one row of the centre
    and day, when that row holds whole minutes: it compares minutes of
    the day, and takes the opening minute as closed and the closing
    minute as open. *)
Lemma isRevenueCenterOpen_by_minutes (tz clock : Z) (center : uuid) (t : Z)
    (table : gmap uuid business_hours.row) (k : uuid) (h : business_hours.row)
    (o c : Z) :
  unique_center_day table ->
  table !! k = Some h ->
  business_hours.revenue_center_id h = center ->
  business_hours.day_of_week h = Clock.DOW tz (t * Clock.usec_per_msec) ->
  business_hours.open_time h = Some o -> business_hours.close_time h = Some c ->
  0 <= o < Clock.usec_per_day -> o mod Clock.usec_per_minute = 0 ->
  0 <= c < Clock.usec_per_day -> c mod Clock.usec_per_minute = 0 ->
  isRevenueCenterOpen tz clock center (Some t) table
  = if Sql.holds (business_hours.is_closed h) then false
    else
      let m := minute_of (Clock.time_of tz (t * Clock.usec_per_msec)) in
      if minute_of c <? minute_of o
      then (minute_of o <? m) || (m <=? minute_of c)
      else (minute_of o <? m) && (m <=? minute_of c).
Proof.
  intros Huniq Hk Hcenter Hday Hopen Hclose Ho Homin Hc Hcmin.
  unfold isRevenueCenterOpen. cbv zeta. change (default clock (Some t)) with t.
  rewrite (SELECT_hours_the_row _ _ _ k h Huniq Hk Hcenter Hday).
  destruct (Sql.holds (business_hours.is_closed h)); [reflexivity |].
  rewrite Hopen, Hclose. cbn [fmap option_fmap option_map falsy].
  rewrite (time_out_whole_minutes o Ho Homin), (time_out_whole_minutes c Hc Hcmin).
  pose proof (time_of_in_day tz (t * Clock.usec_per_msec)) as HT.
  set (T := Clock.time_of tz (t * Clock.usec_per_msec)) in *.
  destruct (clock_fields o Ho) as (HoH & HoM & Hom & HoM60).
  destruct (clock_fields c Hc) as (HcH & HcM & Hcm & HcM60).
  destruct (clock_fields T HT) as (HTH & HTM & HTm & HTM60).
  rewrite !zero_padded_2_not_empty by assumption. cbn [orb].
  unfold Clock.toTimeString_HHMM. cbv zeta. fold T.
  rewrite <- (append_empty (Clock.zero_padded 2 (T mod Clock.usec_per_hour
                                                  / Clock.usec_per_minute))).
  unfold String.ltb, String.leb.
  rewrite !compare_clock_texts by assumption.
  rewrite Hom, Hcm, HTm.
  set (oH := o / Clock.usec_per_hour) in *.
  set (oM := o mod Clock.usec_per_hour / Clock.usec_per_minute) in *.
  set (cH := c / Clock.usec_per_hour) in *.
  set (cM := c mod Clock.usec_per_hour / Clock.usec_per_minute) in *.
  set (TH := T / Clock.usec_per_hour) in *.
  set (TM := T mod Clock.usec_per_hour / Clock.usec_per_minute) in *.
  cbn [String.compare].
  destruct (Z.compare_spec cH oH), (Z.compare_spec cM oM),
    (Z.compare_spec oH TH), (Z.compare_spec oM TM),
    (Z.compare_spec TH cH), (Z.compare_spec TM cM);
    destruct (Z.ltb_spec (60 * cH + cM) (60 * oH + oM));
    destruct (Z.ltb_spec (60 * oH + oM) (60 * TH + TM));
    destruct (Z.leb_spec (60 * TH + TM) (60 * cH + cM));
    first [reflexivity | exfalso; lia].
Qed.

(** For hours stored in whole minutes, the client-side evaluator answers
    as the open/close rule of the specification does on the row, at every
    instant that lies neither in the opening minute nor in the closing
    minute. *)
Theorem isRevenueCenterOpen_follows_rule_off_the_boundary (tz clock : Z) (center : uuid)
    (t : Z) (table : gmap uuid business_hours.row) (k : uuid) (h : business_hours.row)
    (o c : Z) :
  unique_center_day table ->
  table !! k = Some h ->
  business_hours.revenue_center_id h = center ->
  business_hours.day_of_week h = Clock.DOW tz (t * Clock.usec_per_msec) ->
  business_hours.open_time h = Some o -> business_hours.close_time h = Some c ->
  0 <= o < Clock.usec_per_day -> o mod Clock.usec_per_minute = 0 ->
  0 <= c < Clock.usec_per_day -> c mod Clock.usec_per_minute = 0 ->
  minute_of (Clock.time_of tz (t * Clock.usec_per_msec)) <> minute_of o ->
  minute_of (Clock.time_of tz (t * Clock.usec_per_msec)) <> minute_of c ->
  isRevenueCenterOpen tz clock center (Some t) table
  = rule_open (Some h) (Clock.time_of tz (t * Clock.usec_per_msec)).
Proof.
  intros Huniq Hk Hcenter Hday Hopen Hclose Ho Homin Hc Hcmin HTo HTc.
  rewrite (isRevenueCenterOpen_by_minutes tz clock center t table k h o c) by assumption.
  unfold rule_open. rewrite Hopen, Hclose.
  destruct (business_hours.is_closed h) as [[] |]; cbn [Sql.holds]; try reflexivity;
    cbv zeta;
    pose proof (time_of_in_day tz (t * Clock.usec_per_msec)) as HT;
    revert HT HTo HTc; generalize (Clock.time_of tz (t * Clock.usec_per_msec));
    intros T HT HTo HTc;
    unfold minute_of, Clock.usec_per_day, Clock.usec_per_minute in *;
    destruct (Z.ltb_spec (c / 60000000) (o / 60000000));
    destruct (Z.ltb_spec (o / 60000000) (T / 60000000));
    destruct (Z.leb_spec (T / 60000000) (c / 60000000));
    destruct (Z.ltb_spec c o); destruct (Z.leb_spec o T); destruct (Z.leb_spec T c);
    first [reflexivity | exfalso; Z.div_mod_to_equations; lia].
Qed.

Lemma unique_center_day_day_hours : unique_center_day Examples.day_hours.
Proof.
  intros i j h h' Hi Hj _ _. unfold Examples.day_hours in Hi, Hj.
  apply lookup_singleton_Some in Hi as [<- _].
  apply lookup_singleton_Some in Hj as [<- _]. reflexivity.
Qed.

Lemma isRevenueCenterOpen_follows_rule_off_the_boundary_example :
  isRevenueCenterOpen 0 0 5%N (Some (Examples.monday_Date 10 0 0)) Examples.day_hours
  = rule_open
      (Some (business_hours.mk 5%N 1 (Some (Clock.hhmm 9 0)) (Some (Clock.hhmm 22 0))
               (Some false)))
      (Clock.time_of 0 (Examples.monday_Date 10 0 0 * Clock.usec_per_msec)).
Proof.
  apply (isRevenueCenterOpen_follows_rule_off_the_boundary 0 0 5%N
           (Examples.monday_Date 10 0 0) Examples.day_hours 9%N
           (business_hours.mk 5%N 1 (Some (Clock.hhmm 9 0)) (Some (Clock.hhmm 22 0))
              (Some false))
           (Clock.hhmm 9 0) (Clock.hhmm 22 0) unique_center_day_day_hours).
  - apply lookup_singleton_eq.
  - reflexivity.
  - vm_compute. reflexivity.
  - reflexivity.
  - reflexivity.
  - vm_compute. split; [discriminate | reflexivity].
  - vm_compute. reflexivity.
  - vm_compute. split; [discriminate | reflexivity].
  - vm_compute. reflexivity.
  - vm_compute. discriminate.
  - vm_compute. discriminate.
Defined.

(** For day hours stored in whole minutes, opening and closing in
    different minutes: through the opening minute the client-side
    evaluator answers closed where the open/close rule gives open, and
    through the closing minute, once the closing instant has passed, it
    answers open where the rule gives closed. *)
Theorem isRevenueCenterOpen_leaves_rule_in_the_boundary_minutes (tz clock : Z)
    (center : uuid) (t : Z) (table : gmap uuid business_hours.row) (k : uuid)
    (h : business_hours.row) (o c : Z) :
  unique_center_day table ->
  table !! k = Some h ->
  business_hours.revenue_center_id h = center ->
  business_hours.day_of_week h = Clock.DOW tz (t * Clock.usec_per_msec) ->
  business_hours.open_time h = Some o -> business_hours.close_time h = Some c ->
  Sql.holds (business_hours.is_closed h) = false ->
  0 <= o < Clock.usec_per_day -> o mod Clock.usec_per_minute = 0 ->
  0 <= c < Clock.usec_per_day -> c mod Clock.usec_per_minute = 0 ->
  minute_of o < minute_of c ->
  (minute_of (Clock.time_of tz (t * Clock.usec_per_msec)) = minute_of o ->
   isRevenueCenterOpen tz clock center (Some t) table = false /\
   rule_open (Some h) (Clock.time_of tz (t * Clock.usec_per_msec)) = true) /\
  (minute_of (Clock.time_of tz (t * Clock.usec_per_msec)) = minute_of c ->
   c < Clock.time_of tz (t * Clock.usec_per_msec) ->
   isRevenueCenterOpen tz clock center (Some t) table = true /\
   rule_open (Some h) (Clock.time_of tz (t * Clock.usec_per_msec)) = false).
Proof.
  intros Huniq Hk Hcenter Hday Hopen Hclose Hnot Ho Homin Hc Hcmin Hoc.
  rewrite (isRevenueCenterOpen_by_minutes tz clock center t table k h o c) by assumption.
  rewrite Hnot. unfold rule_open. rewrite Hopen, Hclose.
  assert (Hrule : forall b : bool,
            match business_hours.is_closed h with Some true => false | _ => b end = b).
  { intros b. destruct (business_hours.is_closed h) as [[] |];
      [discriminate Hnot | reflexivity | reflexivity]. }
  rewrite Hrule. cbv zeta.
  pose proof (time_of_in_day tz (t * Clock.usec_per_msec)) as HT.
  revert HT. generalize (Clock.time_of tz (t * Clock.usec_per_msec)). intros T HT.
  unfold minute_of, Clock.usec_per_day, Clock.usec_per_minute in *.
  split; [intros HTo | intros HTc Hpast];
    destruct (Z.ltb_spec (c / 60000000) (o / 60000000));
    destruct (Z.ltb_spec (o / 60000000) (T / 60000000));
    destruct (Z.leb_spec (T / 60000000) (c / 60000000));
    destruct (Z.ltb_spec c o); destruct (Z.leb_spec o T); destruct (Z.leb_spec T c);
    first [split; reflexivity | exfalso; Z.div_mod_to_equations; lia].
Qed.

Lemma isRevenueCenterOpen_leaves_rule_in_the_boundary_minutes_example :
  isRevenueCenterOpen 0 0 5%N (Some (Examples.monday_Date 9 0 30)) Examples.day_hours
  = false /\
  rule_open
    (Some (business_hours.mk 5%N 1 (Some (Clock.hhmm 9 0)) (Some (Clock.hhmm 22 0))
             (Some false)))
    (Clock.time_of 0 (Examples.monday_Date 9 0 30 * Clock.usec_per_msec)) = true.
Proof.
  apply (proj1 (isRevenueCenterOpen_leaves_rule_in_the_boundary_minutes 0 0 5%N
           (Examples.monday_Date 9 0 30) Examples.day_hours 9%N
           (business_hours.mk 5%N 1 (Some (Clock.hhmm 9 0)) (Some (Clock.hhmm 22 0))
              (Some false))
           (Clock.hhmm 9 0) (Clock.hhmm 22 0) unique_center_day_day_hours
           ltac:(apply lookup_singleton_eq) eq_refl ltac:(vm_compute; reflexivity)
           eq_refl eq_refl eq_refl
           ltac:(vm_compute; split; [discriminate | reflexivity])
           ltac:(vm_compute; reflexivity)
           ltac:(vm_compute; split; [discriminate | reflexivity])
           ltac:(vm_compute; reflexivity)
           ltac:(vm_compute; reflexivity))).
  vm_compute. reflexivity.
Defined.

End ClientSideEvaluator.

(* ===================================================================== *)
(** * Further theorems: opening hours written by the client *)
(* ===================================================================== *)

Section HoursWritten.
Import Sql BusinessHours BusinessHoursWrites.

Lemma SELECT_hours_nil (center : uuid) (dow : Z) (table : gmap uuid business_hours.row)
    (k : uuid) (h : business_hours.row) :
  SELECT_hours center dow table = [] ->
  table !! k = Some h ->
  ~ (business_hours.revenue_center_id h = center /\ business_hours.day_of_week h = dow).
Proof.
  unfold SELECT_hours. intros Hnil Hk [Hc Hd].
  assert (Hin : In h (List.filter (for_center_day center dow) (snd <$> map_to_list table))).
  { apply filter_In. split.
    - apply list_elem_of_In, list_elem_of_fmap. exists (k, h). split; [reflexivity |].
      apply elem_of_map_to_list. exact Hk.
    - unfold for_center_day. rewrite Hc, Hd, N.eqb_refl, Z.eqb_refl. reflexivity. }
  rewrite Hnil in Hin. exact Hin.
Qed.

(** What one accepted insert of hours tells. *)
Lemma INSERT_business_hours_Ok (id : uuid) (NEW : business_hours.row)
    (table table' : gmap uuid business_hours.row) :
  INSERT_business_hours id NEW table = Ok table' ->
  table !! id = None /\ table' = <[id := NEW]> table /\
  0 <= business_hours.day_of_week NEW <= 6 /\
  forall k h, table !! k = Some h ->
    ~ (business_hours.revenue_center_id h = business_hours.revenue_center_id NEW /\
       business_hours.day_of_week h = business_hours.day_of_week NEW).
Proof.
  unfold INSERT_business_hours, business_hours_constraints.
  destruct (table !! id); [discriminate |].
  destruct (Z.leb_spec 0 (business_hours.day_of_week NEW));
    destruct (Z.leb_spec (business_hours.day_of_week NEW) 6); cbn; try discriminate.
  destruct (SELECT_hours _ _ table) eqn:Hsel; cbn; [| discriminate].
  intros Hok. apply Ok_inj in Hok. subst table'.
  repeat split; try assumption.
  intros k h Hk. exact (SELECT_hours_nil _ _ _ k h Hsel Hk).
Qed.

(** What an accepted [createBusinessHours] tells: the rows that were
    stored are still stored, every row given is stored, nothing else is,
    no two rows share a centre and day if none did, and no row given
    met a stored row of its centre and day. *)
Lemma createBusinessHours_Ok (hoursData : list business_hours.row) :
  forall (keys : nat -> uuid) (table table' : gmap uuid business_hours.row),
  createBusinessHours keys hoursData table = Ok table' ->
  (forall k h, table !! k = Some h -> table' !! k = Some h) /\
  (forall h, In h hoursData -> exists k, table' !! k = Some h) /\
  (forall k h, table' !! k = Some h -> table !! k = Some h \/ In h hoursData) /\
  (unique_center_day table -> unique_center_day table') /\
  (forall h, In h hoursData ->
     0 <= business_hours.day_of_week h <= 6 /\
     forall k h0, table !! k = Some h0 ->
       ~ (business_hours.revenue_center_id h0 = business_hours.revenue_center_id h /\
          business_hours.day_of_week h0 = business_hours.day_of_week h)).
Proof.
  induction hoursData as [| hour rest IH]; intros keys table table' H.
  - apply Ok_inj in H. subst table'. split; [| split; [| split; [| split]]].
    + intros k h Hk. exact Hk.
    + intros h [].
    + intros k h Hk. left. exact Hk.
    + intros Hu. exact Hu.
    + intros h [].
  - cbn [createBusinessHours] in H.
    destruct (INSERT_business_hours (keys 0%nat) hour table) as [table1 | e] eqn:Hins;
      cbn [mbind result_bind] in H; [| discriminate H].
    apply INSERT_business_hours_Ok in Hins as (Hfresh & -> & Hday & Hnew).
    destruct (IH _ _ _ H) as (Hmono & Hall & Honly & Huniq & Hmet).
    assert (Hstep : forall k h, table !! k = Some h ->
                      <[keys 0%nat := hour]> table !! k = Some h).
    { intros k h Hk. rewrite lookup_insert_ne; [exact Hk |].
      intros <-. rewrite Hfresh in Hk. discriminate Hk. }
    split; [| split; [| split; [| split]]].
    + intros k h Hk. apply Hmono, Hstep, Hk.
    + intros h [<- | Hin].
      * exists (keys 0%nat). apply Hmono. apply lookup_insert_eq.
      * apply Hall, Hin.
    + intros k h Hk. destruct (Honly k h Hk) as [Hk1 | Hin]; [| right; right; exact Hin].
      destruct (decide (k = keys 0%nat)) as [-> | Hne].
      * rewrite lookup_insert_eq in Hk1. injection Hk1 as <-. right. left. reflexivity.
      * rewrite lookup_insert_ne in Hk1 by congruence. left. exact Hk1.
    + intros Hu. apply Huniq. intros i j h h' Hi Hj Hc Hd.
      destruct (decide (i = keys 0%nat)) as [-> | Hi'];
        destruct (decide (j = keys 0%nat)) as [-> | Hj']; [reflexivity | | |].
      * rewrite lookup_insert_eq in Hi. injection Hi as <-.
        rewrite lookup_insert_ne in Hj by congruence.
        exfalso. apply (Hnew j h' Hj). split; congruence.
      * rewrite lookup_insert_eq in Hj. injection Hj as <-.
        rewrite lookup_insert_ne in Hi by congruence.
        exfalso. apply (Hnew i h Hi). split; congruence.
      * rewrite lookup_insert_ne in Hi by congruence.
        rewrite lookup_insert_ne in Hj by congruence.
        exact (Hu i j h h' Hi Hj Hc Hd).
    + intros h [<- | Hin].
      * split; [exact Hday | exact Hnew].
      * destruct (Hmet h Hin) as [Hd Hno]. split; [exact Hd |].
        intros k h0 Hk. apply (Hno k h0). apply Hstep, Hk.
Qed.

(** After [initializeBusinessHours], the hours found for each of the
    centres and each day of the week are one row, 09:00 to 22:00 and not
    closed, on which the open/close rule gives open exactly from 09:00 to
    22:00, both ends included. *)
Theorem initialized_centers_hold_9_to_22 (keys : nat -> uuid) (restaurantId : uuid)
    (revenueCenterIds : list uuid) (table table' : gmap uuid business_hours.row)
    (center : uuid) (day : Z) :
  unique_center_day table ->
  initializeBusinessHours keys restaurantId revenueCenterIds table = Ok table' ->
  In center revenueCenterIds ->
  0 <= day <= 6 ->
  SELECT_hours center day table'
  = [business_hours.mk center day (Some (Clock.hhmm 9 0)) (Some (Clock.hhmm 22 0))
       (Some false)] /\
  forall time_of_day,
    rule_open (head (SELECT_hours center day table')) time_of_day
    = (Clock.hhmm 9 0 <=? time_of_day) && (time_of_day <=? Clock.hhmm 22 0).
Proof.
  intros Huniq H Hin Hday. unfold initializeBusinessHours in H. cbv zeta in H.
  destruct (createBusinessHours_Ok _ _ _ _ H) as (_ & Hall & _ & Hu & _).
  destruct (Hall (business_hours.mk center day
                    (Some (Clock.hhmm 9 0)) (Some (Clock.hhmm 22 0)) (Some false)))
    as [k Hk].
  { apply in_flat_map. exists center. split; [exact Hin |].
    apply list_elem_of_In, list_elem_of_fmap. exists day.
    split; [reflexivity |]. apply list_elem_of_In. unfold days. cbn.
    assert (Hd : day = 0 \/ day = 1 \/ day = 2 \/ day = 3 \/ day = 4 \/ day = 5 \/ day = 6)
      by lia.
    intuition auto. }
  rewrite (SELECT_hours_the_row center day table' k _ (Hu Huniq) Hk eq_refl eq_refl).
  split; reflexivity.
Qed.

Lemma initialized_centers_hold_9_to_22_example :
  exists table',
    initializeBusinessHours (fun i => N.of_nat (100 + i)) 1%N [5%N; 6%N] ∅ = Ok table' /\
    rule_open (head (SELECT_hours 6%N 1 table')) (Clock.hhmm 22 0) = true /\
    rule_open (head (SELECT_hours 6%N 1 table')) (Clock.hhmm 22 0 + 1) = false.
Proof.
  eexists. split; [vm_compute; reflexivity |].
  assert (Hu : unique_center_day (∅ : gmap uuid business_hours.row)).
  { intros i j h h' Hi. rewrite lookup_empty in Hi. discriminate Hi. }
  destruct (initialized_centers_hold_9_to_22 (fun i => N.of_nat (100 + i)) 1%N
              [5%N; 6%N] ∅ _ 6%N 1 Hu ltac:(vm_compute; reflexivity)
              ltac:(right; left; reflexivity) ltac:(lia)) as [_ Hrule].
  split; rewrite Hrule; vm_compute; reflexivity.
Defined.

(** [initializeBusinessHours] stores nothing when one of the centres has
    hours already, for whatever day: it does not complete. *)
Theorem initializeBusinessHours_refuses_centers_with_hours (keys : nat -> uuid)
    (restaurantId : uuid) (revenueCenterIds : list uuid)
    (table : gmap uuid business_hours.row) (k : uuid) (h : business_hours.row) :
  table !! k = Some h ->
  In (business_hours.revenue_center_id h) revenueCenterIds ->
  0 <= business_hours.day_of_week h <= 6 ->
  exists e, initializeBusinessHours keys restaurantId revenueCenterIds table = Err e.
Proof.
  intros Hk Hin Hday.
  destruct (initializeBusinessHours keys restaurantId revenueCenterIds table)
    as [table' | e] eqn:H; [| exists e; reflexivity].
  exfalso. unfold initializeBusinessHours in H. cbv zeta in H.
  destruct (createBusinessHours_Ok _ _ _ _ H) as (_ & _ & _ & _ & Hmet).
  destruct (Hmet (business_hours.mk (business_hours.revenue_center_id h)
                    (business_hours.day_of_week h)
                    (Some (Clock.hhmm 9 0)) (Some (Clock.hhmm 22 0)) (Some false)))
    as [_ Hno].
  { apply in_flat_map. exists (business_hours.revenue_center_id h). split; [exact Hin |].
    apply list_elem_of_In, list_elem_of_fmap. exists (business_hours.day_of_week h).
    split; [reflexivity |]. apply list_elem_of_In. unfold days. cbn.
    assert (Hd : let d := business_hours.day_of_week h in
                 d = 0 \/ d = 1 \/ d = 2 \/ d = 3 \/ d = 4 \/ d = 5 \/ d = 6)
      by (cbv zeta; lia).
    cbv zeta in Hd. intuition auto. }
  apply (Hno k h Hk). split; reflexivity.
Qed.

Lemma initializeBusinessHours_refuses_centers_with_hours_example :
  exists e,
    initializeBusinessHours (fun i => N.of_nat (100 + i)) 1%N [5%N] Examples.day_hours
    = Err e.
Proof.
  apply (initializeBusinessHours_refuses_centers_with_hours
           (fun i => N.of_nat (100 + i)) 1%N [5%N] Examples.day_hours 9%N
           (business_hours.mk 5%N 1 (Some (Clock.hhmm 9 0)) (Some (Clock.hhmm 22 0))
              (Some false))).
  - apply lookup_singleton_eq.
  - left. reflexivity.
  - cbn. lia.
Defined.

Lemma SELECT_hours_In (center : uuid) (dow : Z) (table : gmap uuid business_hours.row)
    (h : business_hours.row) :
  In h (SELECT_hours center dow table) ->
  exists k, table !! k = Some h /\
    business_hours.revenue_center_id h = center /\ business_hours.day_of_week h = dow.
Proof.
  unfold SELECT_hours. intros Hin. apply filter_In in Hin as [Hin Hf].
  apply list_elem_of_In, list_elem_of_fmap in Hin as ([k h'] & -> & Hin).
  apply elem_of_map_to_list in Hin. unfold for_center_day in Hf.
  apply andb_true_iff in Hf as [Hc Hd]. apply N.eqb_eq in Hc. apply Z.eqb_eq in Hd.
  exists k. repeat split; assumption.
Qed.

Lemma getBusinessHoursByRevenueCenter_In (center : uuid)
    (table : gmap uuid business_hours.row) (h : business_hours.row) :
  In h (getBusinessHoursByRevenueCenter center table) <->
  exists k, table !! k = Some h /\ business_hours.revenue_center_id h = center.
Proof.
  unfold getBusinessHoursByRevenueCenter.
  pose proof (merge_sort_Permutation by_day_of_week
                (List.filter (fun h => N.eqb (business_hours.revenue_center_id h) center)
                   (snd <$> map_to_list table))) as Hperm.
  split.
  - intros Hin. apply (Permutation_in _ Hperm) in Hin. apply filter_In in Hin as [Hin Hf].
    apply list_elem_of_In, list_elem_of_fmap in Hin as ([k h'] & -> & Hin).
    apply elem_of_map_to_list in Hin. apply N.eqb_eq in Hf. exists k. split; assumption.
  - intros (k & Hk & Hc). apply (Permutation_in _ (Permutation_sym Hperm)).
    apply filter_In. split.
    + apply list_elem_of_In, list_elem_of_fmap. exists (k, h). split; [reflexivity |].
      apply elem_of_map_to_list. exact Hk.
    + apply N.eqb_eq. exact Hc.
Qed.

(** After [copyHoursToRevenueCenter], the hours found for the target
    centre on a day are the copy of the hours that were found for the
    source centre on that day (none where the source had none), so that
    the open/close rule gives for the target, at every time of day, what
    it gave for the source. *)
Theorem copied_hours_are_the_source_hours (keys : nat -> uuid)
    (fromCenterId toCenterId : uuid) (restaurantId : uuid)
    (table table' : gmap uuid business_hours.row) (day : Z) :
  unique_center_day table ->
  copyHoursToRevenueCenter keys fromCenterId toCenterId restaurantId table = Ok table' ->
  SELECT_hours toCenterId day table'
  = (fun hour =>
       business_hours.mk toCenterId (business_hours.day_of_week hour)
         (business_hours.open_time hour) (business_hours.close_time hour)
         (business_hours.is_closed hour)) <$> SELECT_hours fromCenterId day table /\
  forall time_of_day,
    rule_open (head (SELECT_hours toCenterId day table')) time_of_day
    = rule_open (head (SELECT_hours fromCenterId day table)) time_of_day.
Proof.
  intros Huniq H. unfold copyHoursToRevenueCenter in H. cbv zeta in H.
  destruct (createBusinessHours_Ok _ _ _ _ H) as (_ & Hall & Honly & Hu & _).
  assert (Huniq' : unique_center_day table').
  { apply Hu. intros i j h h' Hi Hj.
    apply map_lookup_filter_Some in Hi as [Hi _].
    apply map_lookup_filter_Some in Hj as [Hj _].
    exact (Huniq i j h h' Hi Hj). }
  destruct (SELECT_hours fromCenterId day table) as [| h l] eqn:Hsel.
  - rewrite (SELECT_hours_no_row toCenterId day table'); [split; reflexivity |].
    intros k h' Hk [Hc Hd]. destruct (Honly k h' Hk) as [Hold | Hnew].
    + apply map_lookup_filter_Some in Hold as [_ Hne]. cbn in Hne. contradiction.
    + apply list_elem_of_In, list_elem_of_fmap in Hnew as (h0 & -> & Hin).
      apply list_elem_of_In, getBusinessHoursByRevenueCenter_In in Hin
        as (k0 & Hk0 & Hc0).
      apply (SELECT_hours_nil _ _ _ k0 h0 Hsel Hk0). split; [exact Hc0 | exact Hd].
  - destruct (SELECT_hours_In fromCenterId day table h) as (k & Hk & Hc & Hd).
    { rewrite Hsel. left. reflexivity. }
    assert (Hl : l = []).
    { pose proof (SELECT_hours_the_row fromCenterId day table k h Huniq Hk Hc Hd) as Hone.
      rewrite Hsel in Hone. injection Hone as ->. reflexivity. }
    subst l.
    destruct (Hall (business_hours.mk toCenterId (business_hours.day_of_week h)
                      (business_hours.open_time h) (business_hours.close_time h)
                      (business_hours.is_closed h))) as [k' Hk'].
    { apply list_elem_of_In, list_elem_of_fmap. exists h. split; [reflexivity |].
      apply list_elem_of_In, getBusinessHoursByRevenueCenter_In.
      exists k. split; assumption. }
    rewrite (SELECT_hours_the_row toCenterId day table' k' _ Huniq' Hk' eq_refl Hd).
    split; reflexivity.
Qed.

Lemma copied_hours_are_the_source_hours_example :
  exists table',
    copyHoursToRevenueCenter (fun i => N.of_nat (100 + i)) 5%N 6%N 1%N Examples.day_hours
    = Ok table' /\
    SELECT_hours 6%N 1 table'
    = [business_hours.mk 6%N 1 (Some (Clock.hhmm 9 0)) (Some (Clock.hhmm 22 0))
         (Some false)].
Proof.
  eexists. split; [vm_compute; reflexivity |].
  rewrite (proj1 (copied_hours_are_the_source_hours (fun i => N.of_nat (100 + i))
                    5%N 6%N 1%N Examples.day_hours _ 1
                    unique_center_day_day_hours ltac:(vm_compute; reflexivity))).
  vm_compute. reflexivity.
Defined.

End HoursWritten.
